(** * casebuddy: the AI feedback pipeline, the quota tracker, the feedback
    parser, the similar-cases API and its client cache, and the bulk indexer.

    A shallow embedding of the TypeScript sources:
    - [lib/feedbackService.ts]  (class FeedbackService)
    - [components/AIFeedbackSection.tsx] (parseExistingFeedback, the
      re-parser of stored feedback)
    - [lib/gemini.ts]           (GeminiService.generateInsightsForAnswer)
    - [lib/adminConfig.ts]      (isUserAdmin)
    - [pages/api/similar-cases.ts] (the API handler)
    - [pages/api/index-case.ts] (the API handler)
    - [lib/vectordb.ts]         (VectorDBService.findSimilarCases)
    - [components/SimilarCases.tsx] (fetchSimilarCases and its two caches)
    - [components/AdminVectorDB.tsx] (indexAllCases, both versions)

    Asynchronous code is modelled sequentially: every [await] is a bind of a
    state-and-exception monad; an I/O call that can reject is given its
    outcome by an environment record. *)

From Stdlib Require Import ZArith NArith QArith String Ascii List Bool Lia.
From stdpp Require Import base option list gmap strings pretty.

Local Open Scope Z_scope.

(* ===================================================================== *)
(** * JavaScript strings *)
(* ===================================================================== *)

(** A JavaScript string is a sequence of UTF-16 code units. *)
Abbreviation jsstring := (list N).

(** ASCII literals of the source, as code units. *)
Fixpoint js (s : string) : jsstring :=
  match s with
  | EmptyString => []
  | String a r => N_of_ascii a :: js r
  end.

Module JS.

(** [WhiteSpace] and [LineTerminator] of ECMAScript: what [trim] strips and
    what the regular expression class [\s] matches. *)
Definition is_space (c : N) : bool :=
  ((9 <=? c) && (c <=? 13) || (c =? 32) || (c =? 160) || (c =? 5760)
   || (8192 <=? c) && (c <=? 8202) || (c =? 8232) || (c =? 8233)
   || (c =? 8239) || (c =? 8287) || (c =? 12288) || (c =? 65279))%N.

(** [\d] *)
Definition is_digit (c : N) : bool := ((48 <=? c) && (c <=? 57))%N.

Definition is_upper (c : N) : bool := ((65 <=? c) && (c <=? 90))%N.
Definition is_lower (c : N) : bool := ((97 <=? c) && (c <=? 122))%N.

(** [toLowerCase] on the ASCII letters; other code units are kept.  The only
    consumer is the comparison with the all-ASCII admin addresses. *)
Definition lower (c : N) : N := if is_upper c then (c + 32)%N else c.
Definition upper (c : N) : N := if is_lower c then (c - 32)%N else c.
Definition toLowerCase (s : jsstring) : jsstring := map lower s.

Fixpoint drop_while (p : N -> bool) (s : jsstring) : jsstring :=
  match s with
  | [] => []
  | c :: r => if p c then drop_while p r else s
  end.

Definition trimStart (s : jsstring) : jsstring := drop_while is_space s.
Definition trimEnd (s : jsstring) : jsstring := rev (drop_while is_space (rev s)).
Definition trim (s : jsstring) : jsstring := trimEnd (trimStart s).

(** [s.length] *)
Definition len (s : jsstring) : Z := Z.of_nat (length s).

Fixpoint eqb (s t : jsstring) : bool :=
  match s, t with
  | [], [] => true
  | a :: s', b :: t' => (a =? b)%N && eqb s' t'
  | _, _ => false
  end.

Fixpoint startsWith (s p : jsstring) : bool :=
  match p, s with
  | [], _ => true
  | a :: p', b :: s' => (a =? b)%N && startsWith s' p'
  | _ :: _, [] => false
  end.

(** [s.split(sep)] for a one-unit separator: the pieces between the
    separators, empty pieces included. *)
Fixpoint split (sep : N) (s : jsstring) : list jsstring :=
  match s with
  | [] => [[]]
  | c :: r =>
      if (c =? sep)%N then [] :: split sep r
      else match split sep r with
           | [] => [[c]]
           | p :: ps => (c :: p) :: ps
           end
  end.

(** [xs.includes(x)] on an array of strings *)
Definition includes (xs : list jsstring) (x : jsstring) : bool :=
  existsb (eqb x) xs.

End JS.

(* ===================================================================== *)
(** * Regular expressions *)
(* ===================================================================== *)

(** The fragment of ECMAScript regular expressions the sources use, with the
    backtracking semantics of the language: alternatives are tried left to
    right, a greedy star tries one more iteration first, a lazy star tries the
    rest of the pattern first, an iteration that consumes nothing is rejected,
    a lookahead does not consume. *)
Module Regex.

Inductive re : Type :=
| Eps                               (* the empty pattern *)
| Chr (p : N -> bool)               (* one code unit satisfying [p] *)
| Seq (a b : re)
| Alt (a b : re)                    (* a|b *)
| Star (greedy : bool) (a : re)     (* a* and a*? *)
| Look (a : re)                     (* (?=a) *)
| Grp (a : re)                      (* (a), the capturing group $1 *)
| Bol                               (* ^ without the m flag *)
| Eoi.                              (* $ without the m flag *)

(** Where group 1 matched last: start and end index. *)
Definition capture : Type := option (nat * nat).

(** The matcher, in continuation-passing style.  [pos] is the index in the
    whole input of the first unit of [s]; [k] is the rest of the pattern. *)
Fixpoint mt {A : Type} (r : re) (pos : nat) (s : jsstring) (c : capture)
         (k : nat -> jsstring -> capture -> option A) {struct r} : option A :=
  match r with
  | Eps => k pos s c
  | Chr p =>
      match s with
      | x :: s' => if p x then k (S pos) s' c else None
      | [] => None
      end
  | Seq a b => mt a pos s c (fun pos' s' c' => mt b pos' s' c' k)
  | Alt a b =>
      match mt a pos s c k with
      | Some x => Some x
      | None => mt b pos s c k
      end
  | Star greedy a =>
      (fix loop (fuel : nat) (pos : nat) (s : jsstring) (c : capture)
           {struct fuel} : option A :=
         match fuel with
         | O => k pos s c
         | S fuel' =>
             let again :=
               mt a pos s c (fun pos' s' c' =>
                 if Nat.eqb pos' pos then None else loop fuel' pos' s' c') in
             if greedy then
               match again with
               | Some x => Some x
               | None => k pos s c
               end
             else
               match k pos s c with
               | Some x => Some x
               | None => again
               end
         end) (S (length s)) pos s c
  | Look a =>
      match mt a pos s c (fun _ _ c' => Some c') with
      | Some c' => k pos s c'
      | None => None
      end
  | Grp a => mt a pos s c (fun pos' s' _ => k pos' s' (Some (pos, pos')))
  | Bol => if Nat.eqb pos 0 then k pos s c else None
  | Eoi => match s with [] => k pos s c | _ :: _ => None end
  end.

(** Match [r] at index [pos] exactly; the result is the end index and the
    capture. *)
Definition match_at (r : re) (pos : nat) (s : jsstring) : option (nat * capture) :=
  mt r pos s None (fun e _ c => Some (e, c)).

(** The leftmost match at or after [pos], the index of the first unit of [s]:
    start index, end index, capture. *)
Fixpoint search (r : re) (pos : nat) (s : jsstring) {struct s}
  : option (nat * nat * capture) :=
  match match_at r pos s with
  | Some (e, c) => Some (pos, e, c)
  | None =>
      match s with
      | [] => None
      | _ :: s' => search r (S pos) s'
      end
  end.

Definition substring (s : jsstring) (b e : nat) : jsstring := take (e - b) (drop b s).

(** [s.match(r)] for a pattern without the g flag: element 0 of the result,
    the matched text, or [None] for [null]. *)
Definition exec (r : re) (s : jsstring) : option jsstring :=
  match search r 0 s with
  | Some (b, e, _) => Some (substring s b e)
  | None => None
  end.

(** [r.test(s)], and the truth value of [s.match(r)]. *)
Definition test (r : re) (s : jsstring) : bool :=
  match search r 0 s with Some _ => true | None => false end.

(** A replacement text: literal pieces and [$1]. *)
Inductive piece : Type :=
| Text (t : jsstring)
| Group1.

Definition expand (s : jsstring) (c : capture) (by_ : list piece) : jsstring :=
  concat (map (fun p => match p with
                        | Text t => t
                        | Group1 => match c with
                                    | Some (b, e) => substring s b e
                                    | None => []
                                    end
                        end) by_).

(** [s.replace(r, by)] for a pattern without the g flag: the leftmost match
    is replaced. *)
Definition replace (r : re) (by_ : list piece) (s : jsstring) : jsstring :=
  match search r 0 s with
  | Some (b, e, c) => take b s ++ expand s c by_ ++ drop e s
  | None => s
  end.

(** [s.replace(r, by)] for a pattern with the g flag and a literal
    replacement: every match, from left to right; after an empty match the
    search moves on by one unit.  [rest] is [s] from index [pos] on. *)
Fixpoint replaceFrom (fuel : nat) (r : re) (by_ : jsstring) (pos : nat)
         (rest : jsstring) : jsstring :=
  match fuel with
  | O => rest
  | S fuel' =>
      match search r pos rest with
      | None => rest
      | Some (b, e, _) =>
          take (b - pos) rest ++ by_ ++
          (if Nat.eqb e b then
             match drop (b - pos) rest with
             | [] => []
             | x :: rest' => x :: replaceFrom fuel' r by_ (S b) rest'
             end
           else replaceFrom fuel' r by_ e (drop (e - pos) rest))
      end
  end.

Definition replaceAll (r : re) (by_ : jsstring) (s : jsstring) : jsstring :=
  replaceFrom (S (length s)) r by_ 0 s.

(** Pattern constructors. *)
Definition chr (a : ascii) : re := Chr (N.eqb (N_of_ascii a)).
(** a character under the i flag: it matches the two cases of a letter *)
Definition chr_i (a : ascii) : re :=
  Chr (fun c => (JS.upper c =? JS.upper (N_of_ascii a))%N && (c <? 128)%N).
Definition any : re := Chr (fun _ => true).           (* [\s\S] *)
Definition space : re := Chr JS.is_space.              (* \s *)
Definition digit : re := Chr JS.is_digit.              (* \d *)
Definition plus (a : re) : re := Seq a (Star true a).  (* a+ *)
Definition opt (a : re) : re := Alt a Eps.             (* a? *)

Fixpoint lit (s : string) : re :=
  match s with
  | EmptyString => Eps
  | String a r => Seq (chr a) (lit r)
  end.

Fixpoint lit_i (s : string) : re :=
  match s with
  | EmptyString => Eps
  | String a r => Seq (chr_i a) (lit_i r)
  end.

(** a b c ... *)
Fixpoint seq (rs : list re) : re :=
  match rs with
  | [] => Eps
  | [r] => r
  | r :: rs' => Seq r (seq rs')
  end.

End Regex.

(* ===================================================================== *)
(** * The feedback parser of the service (lib/feedbackService.ts) *)
(* ===================================================================== *)

Module Parser.
Import Regex.

(** The bullet glyph U+2022. *)
Definition bullet : N := 8226%N.

(** The result object of [parseFeedbackContent]: a key that was never
    assigned is [None]. *)
Record Parsed : Type := {
  strengths : option (list jsstring);
  improvements : option (list jsstring);
  missing : option (list jsstring);
  frameworks : option (list jsstring)
}.

(** [(?=(?:\d\.|$))] *)
Definition next_number_or_end : re := Look (Alt (Seq digit (chr ".")) Eoi).

(** [/(?:n\.\s*LABEL|LABEL)[\s\S]*?(?=(?:\d\.|$))/i] *)
Definition section_re (n label : string) : re :=
  Seq (Alt (Seq (lit_i n) (Seq (chr ".") (Seq (Star true space) (lit_i label))))
           (lit_i label))
      (Seq (Star false any) next_number_or_end).

Definition strengths_re : re := section_re "1" "STRENGTHS".
Definition improvements_re : re := section_re "2" "AREAS FOR IMPROVEMENT".
Definition missing_re : re := section_re "3" "MISSING CONSIDERATIONS".

(** [/(?:4\.\s*FRAMEWORK SUGGESTIONS|FRAMEWORK SUGGESTIONS)[\s\S]*?$/i] *)
Definition frameworks_re : re :=
  Seq (Alt (Seq (lit_i "4") (Seq (chr ".") (Seq (Star true space)
                                               (lit_i "FRAMEWORK SUGGESTIONS"))))
           (lit_i "FRAMEWORK SUGGESTIONS"))
      (Seq (Star false any) Eoi).

(** [/^\d+\./] *)
Definition ordinal_re : re := Seq Bol (Seq (plus digit) (chr ".")).
(** [/^[-•]\s*/] *)
Definition marker_strip_re : re :=
  Seq Bol (Seq (Chr (fun c => (c =? 45)%N || (c =? bullet)%N)) (Star true space)).
(** [/^\d+\.\s*/] *)
Definition ordinal_strip_re : re :=
  Seq Bol (Seq (plus digit) (Seq (chr ".") (Star true space))).

Definition is_bullet_line (line : jsstring) : bool :=
  JS.startsWith line (js "-") || JS.startsWith line [bullet] || test ordinal_re line.

Definition strip_marker (line : jsstring) : jsstring :=
  replace ordinal_strip_re [] (replace marker_strip_re [] line).

Definition extractBulletPoints (text : jsstring) : list jsstring :=
  let lines :=
    map strip_marker (filter (fun l => is_bullet_line l = true)
                             (map JS.trim (JS.split 10%N text))) in
  if (0 <? length lines)%nat then lines else [].

Definition parseFeedbackContent (content : jsstring) : Parsed :=
  {| strengths := extractBulletPoints <$> exec strengths_re content;
     improvements := extractBulletPoints <$> exec improvements_re content;
     missing := extractBulletPoints <$> exec missing_re content;
     frameworks := extractBulletPoints <$> exec frameworks_re content |}.

End Parser.

(* ===================================================================== *)
(** * The re-parser of the components (parseExistingFeedback) *)
(* ===================================================================== *)

(** components/AIFeedbackSection.tsx (the modal and the profile page carry
    the same two functions): what the component does with a stored record
    whose parsed lists are missing, empty or start with a section heading. *)
Module Reparser.
Import Regex.

(** [(?:###\s* )?] *)
Definition hashes : re := opt (Seq (lit "###") (Star true space)).
(** [(?:n\.\s* )?] *)
Definition number (n : string) : re := opt (seq [lit n; chr "."; Star true space]).
(** [(?=(?:###\s* )?(?:n\.|###\s*n\.|$))] *)
Definition before (n : string) : re :=
  Look (Seq hashes
            (Alt (Seq (lit n) (chr "."))
                 (Alt (seq [lit "###"; Star true space; lit n; chr "."]) Eoi))).

Definition STRENGTHS : re := Seq (lit_i "STRENGTH") (opt (chr_i "S")).
Definition AREAS_FOR_IMPROVEMENT : re :=
  seq [lit_i "AREA"; opt (chr_i "S"); plus space; lit_i "FOR"; plus space;
       lit_i "IMPROVEMENT"].
Definition MISSING_CONSIDERATIONS : re :=
  seq [lit_i "MISSING"; plus space; lit_i "CONSIDERATION"; opt (chr_i "S")].
Definition FRAMEWORK_SUGGESTIONS : re :=
  seq [lit_i "FRAMEWORK"; plus space; lit_i "SUGGESTION"; opt (chr_i "S")].

Definition strengths_re : re :=
  seq [hashes; number "1"; STRENGTHS; Star true space; opt (chr "*"); opt (chr "*");
       Star false any; before "2"].
Definition improvements_re : re :=
  seq [hashes; number "2"; AREAS_FOR_IMPROVEMENT; Star false any; before "3"].
Definition missing_re : re :=
  seq [hashes; number "3"; MISSING_CONSIDERATIONS; Star false any; before "4"].
Definition frameworks_re : re :=
  seq [hashes; number "4"; FRAMEWORK_SUGGESTIONS; Star false any; Eoi].

(** [[\*\-\•]] *)
Definition marker : re :=
  Chr (fun c => (c =? 42)%N || (c =? 45)%N || (c =? Parser.bullet)%N).
(** [[^*]] *)
Definition not_star : re := Chr (fun c => negb (c =? 42)%N).
Definition stars : re := lit "**".

(** [/^[\*\-\•]\s+\*?\*?/], [/^\d+\.\s+/], [/^\*\*[^*]+\*\*/] *)
Definition marked_re : re :=
  seq [Bol; marker; plus space; opt (chr "*"); opt (chr "*")].
Definition ordinal_re : re := seq [Bol; plus digit; chr "."; plus space].
Definition bold_re : re := seq [Bol; stars; plus not_star; stars].

(** [/^[\*\-\•]\s+/], [/^\*\*([^*]+)\*\*:?\s*/], [/\*\*/g] *)
Definition marker_strip_re : re := seq [Bol; marker; plus space].
Definition bold_label_re : re :=
  seq [Bol; stars; Grp (plus not_star); stars; opt (chr ":"); Star true space].

(** [/^(?:STRENGTHS?|AREAS?\s+FOR\s+IMPROVEMENT|MISSING\s+CONSIDERATIONS?|FRAMEWORK\s+SUGGESTIONS?)$/i] *)
Definition heading_re : re :=
  seq [Bol;
       Alt STRENGTHS (Alt AREAS_FOR_IMPROVEMENT
                          (Alt MISSING_CONSIDERATIONS FRAMEWORK_SUGGESTIONS));
       Eoi].

Definition is_bullet_line (line : jsstring) : bool :=
  test marked_re line || test ordinal_re line || test bold_re line.

Definition clean (line : jsstring) : jsstring :=
  JS.trim
    (replaceAll stars []
       (replace bold_label_re [Group1; Text (js ": ")]
          (replace ordinal_re [] (replace marker_strip_re [] line)))).

Definition keep (line : jsstring) : bool :=
  (0 <? length line)%nat && negb (test heading_re line).

Definition extractBulletPoints (text : jsstring) : list jsstring :=
  let lines :=
    filter (fun l => keep l = true)
      (map clean (filter (fun l => is_bullet_line l = true)
                         (map JS.trim (JS.split 10%N text)))) in
  if (0 <? length lines)%nat then lines else [].

Definition parseExistingFeedback (content : jsstring) : Parser.Parsed :=
  {| Parser.strengths := extractBulletPoints <$> exec strengths_re content;
     Parser.improvements := extractBulletPoints <$> exec improvements_re content;
     Parser.missing := extractBulletPoints <$> exec missing_re content;
     Parser.frameworks := extractBulletPoints <$> exec frameworks_re content |}.

(** [needsReparsing] of checkExistingFeedback: the stored strengths are
    missing, empty, or start with the heading itself. *)
Definition needsReparsing (stored : Parser.Parsed) : bool :=
  match Parser.strengths stored with
  | None => true
  | Some [] => true
  | Some (first :: _) => JS.eqb first (js "STRENGTHS")
  end.

End Reparser.

(* ===================================================================== *)
(** * Effects: a state-and-exception monad *)
(* ===================================================================== *)

(** A thrown JavaScript value: an [Error] with its message, or the error of
    the Firestore client with its [code]. *)
Inductive exn : Type :=
| Error (message : jsstring)
| FirebaseError (code message : jsstring).

Definition exn_message (e : exn) : jsstring :=
  match e with Error m => m | FirebaseError _ m => m end.

Inductive outcome (A : Type) : Type :=
| Returns (a : A)
| Throws (e : exn).
Arguments Returns {A} a.
Arguments Throws {A} e.

Section Monad.
Context {St : Type}.

Definition M (A : Type) : Type := St -> outcome A * St.

Definition ret {A} (a : A) : M A := fun w => (Returns a, w).
Definition throw {A} (e : exn) : M A := fun w => (Throws e, w).
Definition bind {A B} (m : M A) (f : A -> M B) : M B :=
  fun w => match m w with
           | (Returns a, w') => f a w'
           | (Throws e, w') => (Throws e, w')
           end.
(** [try { m } catch (e) { h e }] *)
Definition try_catch {A} (m : M A) (h : exn -> M A) : M A :=
  fun w => match m w with
           | (Returns a, w') => (Returns a, w')
           | (Throws e, w') => h e w'
           end.
Definition get : M St := fun w => (Returns w, w).
Definition modify (f : St -> St) : M unit := fun w => (Returns tt, f w).
End Monad.
Arguments M St A : clear implicits.

Declare Scope js_scope.
Delimit Scope js_scope with js.
Notation "x <- m ;; k" := (bind m (fun x => k))
  (at level 100, m at next level, right associativity) : js_scope.
Notation "m ;;; k" := (bind m (fun _ => k))
  (at level 100, right associativity) : js_scope.

(* ===================================================================== *)
(** * lib/adminConfig.ts *)
(* ===================================================================== *)

Definition ADMIN_EMAILS : list jsstring :=
  [js "ithatejesh@gmail.com"; js "ivsntejesh@gmail.com"].

(** [email] is [string | null | undefined]; the empty string is falsy too. *)
Definition isUserAdmin (email : option jsstring) : bool :=
  match email with
  | None => false
  | Some [] => false
  | Some e => JS.includes ADMIN_EMAILS (JS.toLowerCase e)
  end.

(* ===================================================================== *)
(** * The stored data (types/feedback.ts, as the service uses it) *)
(* ===================================================================== *)

(** A time value: the server-assigned Firestore timestamp, or a [Date] of the
    client's clock. *)
Inductive jstime : Type :=
| ServerTimestamp (t : Z)
| ClientDate (t : Z).

Record Feedback : Type := {
  content : jsstring;
  parsed : Parser.Parsed            (* the spread [...parsedFeedback] *)
}.

(** A document of the [aiFeedback] collection together with its id, which is
    also the [AIFeedback] object the service returns. *)
Record AIFeedback : Type := {
  id : jsstring;
  answerId : jsstring;
  userId : jsstring;
  questionId : jsstring;
  questionTitle : jsstring;
  userAnswer : jsstring;
  feedback : Feedback;
  generatedAt : jstime;
  createdAt : jstime
}.

(** A document of the [dailyLimits] collection.  The documents are written
    by [incrementDailyCount] only, so [requestCount] is a number; on an
    integer, [(requestCount || 0) + 1] is [requestCount + 1]. *)
Record DailyLimit : Type := {
  dl_userId : jsstring;
  dl_date : jsstring;
  requestCount : Z;
  lastRequestAt : option jstime
}.

Record FeedbackStats : Type := {
  totalRequests : Z;
  remainingToday : Z;
  lastRequestDate : option jstime
}.

(** The state the service works on: the two collections, and the number of
    requests sent to the text-generation endpoint. *)
Record World : Type := {
  aiFeedback : list AIFeedback;             (* in the order queries list it *)
  dailyLimits : gmap (list N) DailyLimit;   (* by document id *)
  geminiRequests : nat
}.

(** The places where the service calls the document store. *)
Inductive Site : Type :=
| QueryFeedback        (* getDocs in getFeedbackForAnswer *)
| ReadLimit            (* getDoc in getUserDailyStats *)
| ReadLimitForIncrement (* getDoc in incrementDailyCount *)
| WriteLimit           (* updateDoc / setDoc in incrementDailyCount *)
| AddFeedback.         (* addDoc in generateFeedback *)

(** What the text-generation endpoint answers. *)
Inductive GeminiReply : Type :=
| FetchRejects                      (* fetch rejects: no connection *)
| HttpError (status : Z)            (* response.ok is false *)
| BodyNotJson                       (* response.json() rejects *)
| Candidate (text : option jsstring).
  (* data?.candidates?.[0]?.content?.parts?.[0]?.text; None is undefined *)

(** What one call of the service meets outside itself. *)
Record Env : Type := {
  today : jsstring;                  (* getTodayDateString() in getUserDailyStats *)
  todayAtCharge : jsstring;          (* getTodayDateString() in incrementDailyCount,
                                        read after the awaited model call *)
  clientNow : Z;                     (* new Date() *)
  serverNow : Z;                     (* what serverTimestamp() resolves to *)
  autoId : jsstring;                 (* the id addDoc gives the new document *)
  fault : Site -> option exn;        (* Some e: the store call rejects with e *)
  apiKey : jsstring;
  gemini : GeminiReply
}.

(* ===================================================================== *)
(** * lib/gemini.ts: generateInsightsForAnswer *)
(* ===================================================================== *)

Module GeminiService.
Local Open Scope js_scope.

(** [fetch] of the generation endpoint: one request is sent. *)
Definition post : M World unit :=
  modify (fun w => {| aiFeedback := aiFeedback w;
                      dailyLimits := dailyLimits w;
                      geminiRequests := S (geminiRequests w) |}).

Definition generateInsightsForAnswer (env : Env)
    (questionTitle questionDescription userAnswer : jsstring) : M World jsstring :=
  match apiKey env with
  | [] => throw (Error (js "Gemini API key not configured"))
  | _ :: _ =>
      try_catch
        (post ;;;
         match gemini env with
         | FetchRejects => throw (Error (js "Failed to fetch"))
         | HttpError status =>
             throw (Error (js "Gemini API error: " ++ js (pretty status)))
         | BodyNotJson => throw (Error (js "Unexpected token"))
         | Candidate None | Candidate (Some []) =>
             throw (Error (js "Invalid response format from Gemini API"))
         | Candidate (Some text) => ret text
         end)
        (fun _ => throw (Error (js "Failed to generate feedback")))
  end.

End GeminiService.

(* ===================================================================== *)
(** * lib/feedbackService.ts: class FeedbackService *)
(* ===================================================================== *)

Module FeedbackService.
Local Open Scope js_scope.

Definition DAILY_LIMIT : Z := 3.

(** A call of the document store at [site]: rejects if the environment says
    so, else runs [op]. *)
Definition store {A} (env : Env) (site : Site) (op : M World A) : M World A :=
  match fault env site with
  | Some e => throw e
  | None => op
  end.

(** The documents of [aiFeedback] whose [answerId] field is [wanted]. *)
Definition recordsFor (w : World) (wanted : jsstring) : list AIFeedback :=
  filter (fun d => JS.eqb (answerId d) wanted = true) (aiFeedback w).

(** [getDocs(query(aiFeedback, where('answerId','==',answerId), limit(1)))] *)
Definition queryByAnswer (answerId : jsstring) : M World (list AIFeedback) :=
  w <- get ;; ret (take 1 (recordsFor w answerId)).

Definition getFeedbackForAnswer (env : Env) (answerId : jsstring)
  : M World (option AIFeedback) :=
  try_catch
    (docs <- store env QueryFeedback (queryByAnswer answerId) ;;
     match docs with
     | d :: _ => ret (Some d)
     | [] => ret None
     end)
    (fun error =>
       match error with
       | FirebaseError code _ =>
           if JS.eqb code (js "permission-denied") then ret None else ret None
       | Error _ => ret None
       end).

Definition limitDocId (env : Env) (userId : jsstring) : jsstring :=
  userId ++ js "_" ++ today env.

(** [getDoc(doc(db, 'dailyLimits', id))] *)
Definition readLimit (docId : jsstring) : M World (option DailyLimit) :=
  w <- get ;; ret (dailyLimits w !! docId).

Definition fullQuota : FeedbackStats :=
  {| totalRequests := 0; remainingToday := DAILY_LIMIT; lastRequestDate := None |}.

Definition getUserDailyStats (env : Env) (userId : jsstring)
    (userEmail : option jsstring) : M World FeedbackStats :=
  try_catch
    (if isUserAdmin userEmail then
       ret {| totalRequests := 0; remainingToday := 999; lastRequestDate := None |}
     else
       limitDoc <- store env ReadLimit (readLimit (limitDocId env userId)) ;;
       match limitDoc with
       | Some data =>
           ret {| totalRequests := requestCount data;
                  remainingToday := Z.max 0 (DAILY_LIMIT - requestCount data);
                  lastRequestDate := lastRequestAt data |}
       | None => ret fullQuota
       end)
    (fun _ => ret fullQuota).

Record CanRequest : Type := {
  allowed : bool;
  remaining : Z;
  message : option jsstring
}.

Definition limitMessage : jsstring :=
  js "You've reached your daily limit of " ++ js (pretty DAILY_LIMIT)
     ++ js " AI feedback requests. Limit resets at midnight.".

Definition canRequestFeedback (env : Env) (userId : jsstring)
    (userEmail : option jsstring) : M World CanRequest :=
  if isUserAdmin userEmail then
    ret {| allowed := true; remaining := 999; message := None |}
  else
    stats <- getUserDailyStats env userId userEmail ;;
    if remainingToday stats <=? 0 then
      ret {| allowed := false; remaining := 0; message := Some limitMessage |}
    else
      ret {| allowed := true; remaining := remainingToday stats; message := None |}.

(** The day document [incrementDailyCount] works on: the date is read
    again there, so after midnight it is the document of the next day. *)
Definition chargeDocId (env : Env) (userId : jsstring) : jsstring :=
  userId ++ js "_" ++ todayAtCharge env.

Definition writeLimit (docId : jsstring) (d : DailyLimit) : M World unit :=
  modify (fun w => {| aiFeedback := aiFeedback w;
                      dailyLimits := <[docId := d]> (dailyLimits w);
                      geminiRequests := geminiRequests w |}).

Definition incrementDailyCount (env : Env) (userId : jsstring) : M World unit :=
  let docId := chargeDocId env userId in
  limitDoc <- store env ReadLimitForIncrement (readLimit docId) ;;
  match limitDoc with
  | Some data =>
      (* updateDoc: the two fields named, the others kept *)
      store env WriteLimit
        (writeLimit docId {| dl_userId := dl_userId data;
                             dl_date := dl_date data;
                             requestCount := requestCount data + 1;
                             lastRequestAt := Some (ServerTimestamp (serverNow env)) |})
  | None =>
      store env WriteLimit
        (writeLimit docId {| dl_userId := userId;
                             dl_date := todayAtCharge env;
                             requestCount := 1;
                             lastRequestAt := Some (ServerTimestamp (serverNow env)) |})
  end.

(** [addDoc(collection(db, 'aiFeedback'), fields)]: the new document's id.
    The document is put last; where a query lists it among the documents of
    other answers does not matter to a query by [answerId]. *)
Definition addFeedback (env : Env) (d : AIFeedback) : M World jsstring :=
  modify (fun w => {| aiFeedback := aiFeedback w ++ [d];
                      dailyLimits := dailyLimits w;
                      geminiRequests := geminiRequests w |}) ;;;
  ret (autoId env).

Definition tooShort : jsstring :=
  js "Your answer is too short. Please provide a detailed response (at least 50 characters) for meaningful AI feedback.".

Definition generateFeedback (env : Env)
    (answerId userId : jsstring) (userEmail : option jsstring)
    (questionId questionTitle questionDescription userAnswer : jsstring)
  : M World AIFeedback :=
  existingFeedback <- getFeedbackForAnswer env answerId ;;
  match existingFeedback with
  | Some existing => ret existing
  | None =>
      canRequest <- canRequestFeedback env userId userEmail ;;
      if negb (allowed canRequest) then
        throw (Error (match message canRequest with
                      | Some (c :: m) => c :: m
                      | _ => js "Rate limit exceeded"
                      end))
      else if JS.len (JS.trim userAnswer) <? 50 then
        throw (Error tooShort)
      else
        try_catch
          (feedbackContent <-
             GeminiService.generateInsightsForAnswer
               env questionTitle questionDescription userAnswer ;;
           let parsedFeedback := Parser.parseFeedbackContent feedbackContent in
           (if negb (isUserAdmin userEmail)
            then incrementDailyCount env userId else ret tt) ;;;
           let fb := {| content := feedbackContent; parsed := parsedFeedback |} in
           newId <- store env AddFeedback
             (addFeedback env
                {| id := autoId env; answerId := answerId; userId := userId;
                   questionId := questionId; questionTitle := questionTitle;
                   userAnswer := userAnswer; feedback := fb;
                   generatedAt := ServerTimestamp (serverNow env);
                   createdAt := ServerTimestamp (serverNow env) |}) ;;
           ret {| id := newId; answerId := answerId; userId := userId;
                  questionId := questionId; questionTitle := questionTitle;
                  userAnswer := userAnswer; feedback := fb;
                  generatedAt := ClientDate (clientNow env);
                  createdAt := ClientDate (clientNow env) |})
          (fun error => throw error)
  end.

(** The quota spent on a key of [dailyLimits]: the stored count, 0 when
    there is no document. *)
Definition used (w : World) (k : jsstring) : Z :=
  from_option requestCount 0 (dailyLimits w !! k).

End FeedbackService.


(* ===================================================================== *)
(** * JavaScript arrays and JSON values *)
(* ===================================================================== *)

Module JSArray.

(** [xs.slice(0, end)] for an integer [end]: a negative [end] counts from
    the end of the array. *)
Definition slice0 {A : Type} (xs : list A) (end_ : Z) : list A :=
  let n := Z.of_nat (length xs) in
  let e := if end_ <? 0 then Z.max (n + end_) 0 else Z.min end_ n in
  take (Z.to_nat e) xs.

End JSArray.

(** A value read from JSON text.  Numbers are rationals: no arithmetic is done
    on the scores they carry. *)
#[warnings="-register-all"]
Inductive json : Type :=
| JNull
| JBool (b : bool)
| JNum (q : Q)
| JStr (s : jsstring)
| JArr (items : list json)
| JObj (members : list (jsstring * json)).

Module Json.

Fixpoint assoc (name : jsstring) (members : list (jsstring * json)) : option json :=
  match members with
  | [] => None
  | (k, v) :: rest => if JS.eqb k name then Some v else assoc name rest
  end.

(** [data.name]: a TypeError on [null], [undefined] (here [None]) where the
    value has no such property. *)
Definition prop (name : jsstring) (data : json) : outcome (option json) :=
  match data with
  | JNull => Throws (Error (js "Cannot read properties of null"))
  | JObj members => Returns (assoc name members)
  | _ => Returns None
  end.

End Json.

(* ===================================================================== *)
(** * pages/api/similar-cases.ts *)
(* ===================================================================== *)

Module SimilarCasesApi.

Record Metadata : Type := {
  md_questionId : jsstring;
  md_title : jsstring;
  md_description : jsstring;
  md_type : jsstring;
  md_difficulty : jsstring;
  md_totalAnswers : option Q;
  md_avgUpvotes : option Q
}.

(** One scored vector of the index's answer. *)
Record Match : Type := {
  id : jsstring;
  score : Q;
  metadata : Metadata
}.

(** The [SimilarCase] of lib/vectordb.ts. *)
Record SimilarCase : Type := {
  sc_questionId : jsstring;
  sc_title : jsstring;
  sc_description : jsstring;
  sc_type : jsstring;
  sc_difficulty : jsstring;
  similarity : Q;
  totalAnswers : Q;
  avgUpvotes : Q
}.

Record Body : Type := {
  questionId : option jsstring;
  title : option jsstring;
  description : option jsstring;
  topK : option Z
}.

(** The request with the fields of its body, for a body that can be
    destructured; a body that is [null] or [undefined] is the matter of
    [ApiEntry] below. *)
Record Request : Type := { method : jsstring; body : Body }.

Inductive Payload : Type :=
| ErrorBody (error : jsstring)
| SimilarBody (similarCases : list SimilarCase).

Record Response : Type := { status : Z; payload : Payload }.

(** The two remote services the handler calls. *)
Record Services : Type := {
  embeddings_create : jsstring -> outcome (list Q);
  index_query : list Q -> Z -> outcome (list Match)
    (* index.query({ vector, topK, includeMetadata: true }).matches *)
}.

(** A string that is not falsy. *)
Definition truthy (s : option jsstring) : option jsstring :=
  match s with
  | Some (c :: r) => Some (c :: r)
  | _ => None
  end.

(** [x || 0] on an optional number *)
Definition or0 (x : option Q) : Q := default 0%Q x.

Definition format (m : Match) : SimilarCase :=
  {| sc_questionId := md_questionId (metadata m);
     sc_title := md_title (metadata m);
     sc_description := md_description (metadata m);
     sc_type := md_type (metadata m);
     sc_difficulty := md_difficulty (metadata m);
     similarity := score m;
     totalAnswers := or0 (md_totalAnswers (metadata m));
     avgUpvotes := or0 (md_avgUpvotes (metadata m)) |}.

(** [matches.filter(match => match.id !== questionId).slice(0, topK)] *)
Definition others (queried : jsstring) (k : Z) (matches : list Match) : list Match :=
  JSArray.slice0 (filter (fun m => JS.eqb (id m) queried = false) matches) k.

Definition handler (svc : Services) (req : Request) : Response :=
  if negb (JS.eqb (method req) (js "POST")) then
    {| status := 405; payload := ErrorBody (js "Method not allowed") |}
  else
    let topK := default 5 (topK (body req)) in
    match truthy (questionId (body req)), truthy (title (body req)),
          truthy (description (body req)) with
    | Some questionId, Some title, Some description =>
        let textToEmbed := title ++ [10%N; 10%N] ++ description in
        match embeddings_create svc textToEmbed with
        | Throws _ =>
            {| status := 500; payload := ErrorBody (js "Failed to find similar cases") |}
        | Returns queryEmbedding =>
            match index_query svc queryEmbedding (topK + 1) with
            | Throws _ =>
                {| status := 500;
                   payload := ErrorBody (js "Failed to find similar cases") |}
            | Returns matches =>
                {| status := 200;
                   payload := SimilarBody (map format (others questionId topK matches)) |}
            end
        end
    | _, _, _ =>
        {| status := 400; payload := ErrorBody (js "Missing required fields") |}
    end.

End SimilarCasesApi.

(* ===================================================================== *)
(** * lib/vectordb.ts: class VectorDBService *)
(* ===================================================================== *)

(** What a [fetch] of one of the API routes meets. *)
Inductive FetchReply : Type :=
| NetworkError                                     (* fetch rejects *)
| HttpResponse (ok : bool) (status : Z) (body : option json).
  (* body: what response.json() resolves to; None when it rejects *)

(** The replies on which a request for similar cases fails: no connection, a
    status that is not OK, a body that is not JSON, a body without a
    [similarCases] member. *)
Definition replyFails (reply : FetchReply) : bool :=
  match reply with
  | NetworkError => true
  | HttpResponse false _ _ => true
  | HttpResponse true _ None => true
  | HttpResponse true _ (Some data) =>
      match Json.prop (js "similarCases") data with
      | Returns (Some JNull) => true
      | Returns (Some _) => false
      | Returns None => true
      | Throws _ => true
      end
  end.

(** A reply that lists no similar case. *)
Definition emptyReply : FetchReply :=
  HttpResponse true 200 (Some (JObj [(js "similarCases", JArr [])])).

Module VectorDBService.
Local Open Scope js_scope.

Section Client.
Context {St : Type}.

Definition fetch (reply : FetchReply) : M St (bool * Z * option json) :=
  match reply with
  | NetworkError => throw (Error (js "Failed to fetch"))
  | HttpResponse ok status body => ret (ok, status, body)
  end.

Definition lift {A} (o : outcome A) : M St A :=
  match o with
  | Returns a => ret a
  | Throws e => throw e
  end.

Definition findSimilarCases (reply : FetchReply)
    (questionId title description : jsstring) (topK : Z) : M St json :=
  try_catch
    (response <- fetch reply ;;
     let '(ok, status, body) := response in
     if negb ok then throw (Error (js "API error: " ++ js (pretty status)))
     else
       data <- match body with
               | Some d => ret d
               | None => throw (Error (js "Unexpected token"))
               end ;;
       (* the log line reads data.similarCases.length *)
       similarCases <- lift (Json.prop (js "similarCases") data) ;;
       match similarCases with
       | None => throw (Error (js "Cannot read properties of undefined"))
       | Some JNull => throw (Error (js "Cannot read properties of null"))
       | Some v => ret v
       end)
    (fun _ => ret (JArr [])).

Definition indexCase (reply : FetchReply)
    (questionId title description type difficulty : jsstring) : M St unit :=
  try_catch
    (response <- fetch reply ;;
     let '(ok, status, _) := response in
     if negb ok then
       throw (Error (js "Failed to index case: " ++ js (pretty status)))
     else ret tt)
    (fun error => throw error).

End Client.

End VectorDBService.

(* ===================================================================== *)
(** * components/SimilarCases.tsx: fetchSimilarCases *)
(* ===================================================================== *)

Module SimilarCases.
Local Open Scope js_scope.

Record CacheEntry : Type := { data : json; timestamp : Z }.

Definition CACHE_DURATION : Z := 24 * 60 * 60 * 1000.

(** The module-level [Map], the browser's [localStorage], and the state of
    the component.  A [localStorage] item is kept as what reading it gives:
    [Some e] for the text of an entry [e], [None] for a text from which no
    entry with a numeric timestamp comes out. *)
Record Browser : Type := {
  similarCasesCache : gmap (list N) CacheEntry;
  localStorage : gmap (list N) (option CacheEntry);
  similarCases : json;
  loading : bool;
  error : option jsstring
}.

Record BrowserEnv : Type := {
  now_try : Z;            (* Date.now() in the try block *)
  now_catch : Z;          (* Date.now() in the catch block *)
  setItemFails : bool;    (* localStorage.setItem throws *)
  getItemFails : bool     (* localStorage.getItem throws *)
}.

Definition setSimilarCases (v : json) : M Browser unit :=
  modify (fun b => {| similarCasesCache := similarCasesCache b;
                      localStorage := localStorage b;
                      similarCases := v; loading := loading b; error := error b |}).
Definition setLoading (v : bool) : M Browser unit :=
  modify (fun b => {| similarCasesCache := similarCasesCache b;
                      localStorage := localStorage b;
                      similarCases := similarCases b; loading := v; error := error b |}).
Definition setError (v : option jsstring) : M Browser unit :=
  modify (fun b => {| similarCasesCache := similarCasesCache b;
                      localStorage := localStorage b;
                      similarCases := similarCases b; loading := loading b; error := v |}).
Definition cacheSet (k : jsstring) (e : CacheEntry) : M Browser unit :=
  modify (fun b => {| similarCasesCache := <[k := e]> (similarCasesCache b);
                      localStorage := localStorage b;
                      similarCases := similarCases b; loading := loading b;
                      error := error b |}).
Definition setItem (env : BrowserEnv) (k : jsstring) (e : CacheEntry) : M Browser unit :=
  if setItemFails env then throw (Error (js "QuotaExceededError"))
  else modify (fun b => {| similarCasesCache := similarCasesCache b;
                           localStorage := <[k := Some e]> (localStorage b);
                           similarCases := similarCases b; loading := loading b;
                           error := error b |}).
Definition getItem (env : BrowserEnv) (k : jsstring) : M Browser (option (option CacheEntry)) :=
  if getItemFails env then throw (Error (js "SecurityError"))
  else b <- get ;; ret (localStorage b !! k).

(** [try { m } finally { f }] where [f] does not throw *)
Definition try_finally {A} (m : M Browser A) (f : M Browser unit) : M Browser A :=
  fun b => match m b with
           | (r, b') => (r, snd (f b'))
           end.

Definition storageKey (questionId : jsstring) : jsstring :=
  js "similar_cases_" ++ questionId.

Definition failedMessage : jsstring :=
  js "Failed to load similar cases. Please try again later.".

(** [find] is the call [vectorDBService.findSimilarCases(questionId,
    questionTitle, questionDescription, 5)]. *)
Definition fetchSimilarCasesWith (env : BrowserEnv) (find : M Browser json)
    (questionId : jsstring) : M Browser unit :=
  setLoading true ;;; setError None ;;;
  try_finally
    (try_catch
       (b <- get ;;
        let cached := similarCasesCache b !! questionId in
        let now := now_try env in
        let fresh :=
          similar <- find ;;
          cacheSet questionId {| data := similar; timestamp := now |} ;;;
          try_catch
            (setItem env (storageKey questionId) {| data := similar; timestamp := now |})
            (fun _ => ret tt) ;;;
          setSimilarCases similar in
        match cached with
        | Some c =>
            if now - timestamp c <? CACHE_DURATION then
              setSimilarCases (data c) ;;; setLoading false
            else fresh
        | None => fresh
        end)
       (fun err =>
          used_fallback <-
            try_catch
              (cached <- getItem env (storageKey questionId) ;;
               match cached with
               | Some (Some e) =>
                   if now_catch env - timestamp e <? CACHE_DURATION then
                     setSimilarCases (data e) ;;; ret true
                   else ret false
               | Some None => ret false
               | None => ret false
               end)
              (fun _ => ret false) ;;
          if used_fallback : bool then ret tt
          else setError (Some failedMessage)))
    (setLoading false).

(** The component as written: the service is the one of lib/vectordb.ts. *)
Definition fetchSimilarCases (env : BrowserEnv) (reply : FetchReply)
    (questionId questionTitle questionDescription : jsstring) : M Browser unit :=
  fetchSimilarCasesWith env
    (VectorDBService.findSimilarCases reply questionId questionTitle
       questionDescription 5)
    questionId.

End SimilarCases.

(* ===================================================================== *)
(** * components/AdminVectorDB.tsx: indexAllCases *)
(* ===================================================================== *)

Record Question : Type := {
  q_id : jsstring;
  q_title : jsstring;
  q_description : jsstring;
  q_type : jsstring;
  q_difficulty : jsstring
}.

Inductive Status : Type := StatusIdle | StatusSuccess | StatusError.

Record Progress : Type := { current : Z; total : Z }.

(** The state of the admin panel, and the requests sent to /api/index-case
    (the ids, oldest first). *)
Record Panel : Type := {
  indexing : bool;
  progress : Progress;
  status : Status;
  message : jsstring;
  requests : list jsstring
}.

Record AdminEnv : Type := {
  confirmed : bool;                          (* what confirm(...) answers *)
  questions : outcome (list Question);       (* getDocs(collection(db,'questions')) *)
  indexReply : jsstring -> FetchReply        (* by question id *)
}.

Module PanelState.
Definition setIndexing (v : bool) : M Panel unit :=
  modify (fun p => {| indexing := v; progress := progress p; status := status p;
                      message := message p; requests := requests p |}).
Definition setProgress (v : Progress) : M Panel unit :=
  modify (fun p => {| indexing := indexing p; progress := v; status := status p;
                      message := message p; requests := requests p |}).
Definition setStatus (v : Status) : M Panel unit :=
  modify (fun p => {| indexing := indexing p; progress := progress p; status := v;
                      message := message p; requests := requests p |}).
Definition setMessage (v : jsstring) : M Panel unit :=
  modify (fun p => {| indexing := indexing p; progress := progress p;
                      status := status p; message := v; requests := requests p |}).
Definition sent (qid : jsstring) : M Panel unit :=
  modify (fun p => {| indexing := indexing p; progress := progress p;
                      status := status p; message := message p;
                      requests := requests p ++ [qid] |}).

(** [vectorDBService.indexCase(question.id, ...)]: the request is recorded,
    then the service runs on the reply of the route. *)
Definition indexCase (env : AdminEnv) (q : Question) : M Panel unit :=
  bind (sent (q_id q)) (fun _ =>
    VectorDBService.indexCase (indexReply env (q_id q))
      (q_id q) (q_title q) (q_description q) (q_type q) (q_difficulty q)).

Definition try_finally {A} (m : M Panel A) (f : M Panel unit) : M Panel A :=
  fun p => match m p with
           | (r, p') => (r, snd (f p'))
           end.

Definition len (qs : list Question) : Z := Z.of_nat (length qs).

(** Whether the request for a question is answered with a failure. *)
Definition fails (env : AdminEnv) (q : Question) : bool :=
  match indexReply env (q_id q) with
  | NetworkError => true
  | HttpResponse ok _ _ => negb ok
  end.

(** The number of questions whose request fails. *)
Definition failures (env : AdminEnv) (qs : list Question) : Z :=
  Z.of_nat (length (filter (fun q => fails env q = true) qs)).

Definition check_mark : N := 9989%N.   (* U+2705 *)
Definition cross_mark : N := 10060%N.  (* U+274C *)
End PanelState.

(** The version of src/components/AdminVectorDB.tsx. *)
Module AdminVectorDB.
Import PanelState.
Local Open Scope js_scope.

(** The body of [for (let i = 0; i < questions.length; i++)], from index [i]
    on.  The 300 ms pause after each item is not modelled. *)
Fixpoint indexFrom (env : AdminEnv) (n : Z) (i : Z) (qs : list Question)
  : M Panel unit :=
  match qs with
  | [] => ret tt
  | question :: rest =>
      indexCase env question ;;;
      setProgress {| current := i + 1; total := n |} ;;;
      indexFrom env n (i + 1) rest
  end.

Definition indexAllCases (env : AdminEnv) : M Panel unit :=
  setIndexing true ;;; setStatus StatusIdle ;;; setMessage [] ;;;
  try_finally
    (try_catch
       (qs <- VectorDBService.lift (questions env) ;;
        setProgress {| current := 0; total := len qs |} ;;;
        indexFrom env (len qs) 0 qs ;;;
        setStatus StatusSuccess ;;;
        setMessage ([check_mark] ++ js " Successfully indexed "
                      ++ js (pretty (len qs)) ++ js " cases!"))
       (fun error =>
          setStatus StatusError ;;;
          setMessage (js "Failed to index cases: " ++ exn_message error)))
    (setIndexing false).

End AdminVectorDB.

(** The client-side version ("Client-Side Version (Option 1)"). *)
Module AdminVectorDBClient.
Import PanelState.
Local Open Scope js_scope.

(** The loop from index [i] on, with the two counters. *)
Fixpoint indexFrom (env : AdminEnv) (n : Z) (i : Z) (qs : list Question)
    (successCount failCount : Z) : M Panel (Z * Z) :=
  match qs with
  | [] => ret (successCount, failCount)
  | question :: rest =>
      counts <-
        try_catch
          (indexCase env question ;;;
           setProgress {| current := i + 1; total := n |} ;;;
           ret (successCount + 1, failCount))
          (fun _ => ret (successCount, failCount + 1)) ;;
      indexFrom env n (i + 1) rest (fst counts) (snd counts)
  end.

Definition completeMessage (successCount failCount n : Z) : jsstring :=
  [check_mark] ++ js " Indexing complete! " ++ js (pretty successCount)
    ++ js " successful, " ++ js (pretty failCount) ++ js " failed out of "
    ++ js (pretty n) ++ js " total.".

Definition indexAllCases (env : AdminEnv) : M Panel unit :=
  if negb (confirmed env) then ret tt
  else
    setIndexing true ;;; setStatus StatusIdle ;;; setMessage (js "Starting indexing...") ;;;
    try_finally
      (try_catch
         (qs <- VectorDBService.lift (questions env) ;;
          setProgress {| current := 0; total := len qs |} ;;;
          counts <- indexFrom env (len qs) 0 qs 0 0 ;;
          setStatus StatusSuccess ;;;
          setMessage (completeMessage (fst counts) (snd counts) (len qs)))
         (fun _ =>
            setStatus StatusError ;;;
            setMessage ([cross_mark] ++ js " Indexing failed. Check console for details.")))
      (setIndexing false).

End AdminVectorDBClient.

(* ===================================================================== *)
(** * Concrete inputs *)
(* ===================================================================== *)

Module Samples.
Import FeedbackService.

Definition nl : string := String (ascii_of_nat 10) EmptyString.

(** The four headings, numbered as the prompt of the service asks for them,
    with "- A", "- B" under the first and "1. C" under the second. *)
Definition numbered_text : jsstring :=
  js ("1. STRENGTHS" ++ nl ++ "- A" ++ nl ++ "- B" ++ nl
      ++ "2. AREAS FOR IMPROVEMENT" ++ nl ++ "1. C" ++ nl
      ++ "3. MISSING CONSIDERATIONS" ++ nl
      ++ "4. FRAMEWORK SUGGESTIONS")%string.

(** The same text with bare headings. *)
Definition plain_text : jsstring :=
  js ("STRENGTHS" ++ nl ++ "- A" ++ nl ++ "- B" ++ nl
      ++ "AREAS FOR IMPROVEMENT" ++ nl ++ "1. C" ++ nl
      ++ "MISSING CONSIDERATIONS" ++ nl
      ++ "FRAMEWORK SUGGESTIONS")%string.

Definition user : jsstring := js "u1".
Definition mail : option jsstring := Some (js "u1@example.org").
Definition answer1 : jsstring := js "a1".
Definition question1 : jsstring := js "q1".
Definition case_title : jsstring := js "Market entry".
Definition case_text : jsstring := js "Should the client enter the market?".

Definition long_answer : jsstring :=
  js "I would segment the market first, then size each segment bottom-up.".
Definition short_answer : jsstring := js "Enter the market.".

(** Every store call succeeds and the model answers. *)
Definition env_ok : Env :=
  {| today := js "2024-06-01"; todayAtCharge := js "2024-06-01";
     clientNow := 1717236000000;
     serverNow := 1717236000250; autoId := js "fb1";
     fault := fun _ => None; apiKey := js "key";
     gemini := Candidate (Some numbered_text) |}.

(** The model endpoint answers 503. *)
Definition env_model_down : Env :=
  {| today := js "2024-06-01"; todayAtCharge := js "2024-06-01";
     clientNow := 1717236000000;
     serverNow := 1717236000250; autoId := js "fb1";
     fault := fun _ => None; apiKey := js "key";
     gemini := HttpError 503 |}.

(** The read of the day's count rejects. *)
Definition unavailable : exn :=
  FirebaseError (js "unavailable") (js "The service is currently unavailable.").
Definition env_store_down : Env :=
  {| today := js "2024-06-01"; todayAtCharge := js "2024-06-01";
     clientNow := 1717236000000;
     serverNow := 1717236000250; autoId := js "fb1";
     fault := fun site => match site with ReadLimit => Some unavailable | _ => None end;
     apiKey := js "key";
     gemini := Candidate (Some numbered_text) |}.

Definition day_doc (count : Z) : DailyLimit :=
  {| dl_userId := user; dl_date := js "2024-06-01"; requestCount := count;
     lastRequestAt := Some (ServerTimestamp 1717230000000) |}.

Definition w_empty : World :=
  {| aiFeedback := []; dailyLimits := ∅; geminiRequests := 0 |}.

(** The user has used one request today. *)
Definition w_one_used : World :=
  {| aiFeedback := [];
     dailyLimits := {[ limitDocId env_ok user := day_doc 1 ]};
     geminiRequests := 0 |}.

(** The user has used the three requests of the day. *)
Definition w_at_limit : World :=
  {| aiFeedback := [];
     dailyLimits := {[ limitDocId env_ok user := day_doc 3 ]};
     geminiRequests := 0 |}.

(** The first call for [answer1] in the empty state. *)
Definition first_call : outcome AIFeedback * World :=
  generateFeedback env_ok answer1 user mail question1 case_title case_text
    long_answer w_empty.

(** An index of three cases; the nearest neighbour of case-1 is case-1. *)
Definition md (qid title : string) : SimilarCasesApi.Metadata :=
  {| SimilarCasesApi.md_questionId := js qid;
     SimilarCasesApi.md_title := js title;
     SimilarCasesApi.md_description := js "...";
     SimilarCasesApi.md_type := js "consulting";
     SimilarCasesApi.md_difficulty := js "medium";
     SimilarCasesApi.md_totalAnswers := None;
     SimilarCasesApi.md_avgUpvotes := None |}.

Definition neighbours : list SimilarCasesApi.Match :=
  [ {| SimilarCasesApi.id := js "case-1"; SimilarCasesApi.score := 1%Q;
       SimilarCasesApi.metadata := md "case-1" "Market entry" |};
    {| SimilarCasesApi.id := js "case-2"; SimilarCasesApi.score := (9 # 10)%Q;
       SimilarCasesApi.metadata := md "case-2" "Pricing" |};
    {| SimilarCasesApi.id := js "case-3"; SimilarCasesApi.score := (8 # 10)%Q;
       SimilarCasesApi.metadata := md "case-3" "Growth" |} ].

(** The index answers the [k] nearest of them. *)
Definition services : SimilarCasesApi.Services :=
  {| SimilarCasesApi.embeddings_create := fun _ => Returns [1%Q; 0%Q];
     SimilarCasesApi.index_query := fun _ k => Returns (take (Z.to_nat k) neighbours) |}.

Definition request (k : Z) : SimilarCasesApi.Request :=
  {| SimilarCasesApi.method := js "POST";
     SimilarCasesApi.body :=
       {| SimilarCasesApi.questionId := Some (js "case-1");
          SimilarCasesApi.title := Some (js "Market entry");
          SimilarCasesApi.description := Some case_text;
          SimilarCasesApi.topK := Some k |} |}.

(** A browser whose durable tier holds, for case-1, a list stored at time 0;
    the memory tier is empty. *)
Definition stale_list : json := JArr [JStr (js "case-2"); JStr (js "case-3")].
Definition stale_entry : SimilarCases.CacheEntry :=
  {| SimilarCases.data := stale_list; SimilarCases.timestamp := 0 |}.
Definition browser0 : SimilarCases.Browser :=
  {| SimilarCases.similarCasesCache := ∅;
     SimilarCases.localStorage :=
       {[ SimilarCases.storageKey (js "case-1") := Some stale_entry ]};
     SimilarCases.similarCases := JArr [];
     SimilarCases.loading := true;
     SimilarCases.error := None |}.
(** Two days later. *)
Definition two_days_later : SimilarCases.BrowserEnv :=
  {| SimilarCases.now_try := 2 * SimilarCases.CACHE_DURATION;
     SimilarCases.now_catch := 2 * SimilarCases.CACHE_DURATION + 40;
     SimilarCases.setItemFails := false;
     SimilarCases.getItemFails := false |}.

End Samples.

Module IndexSamples.

(** A corpus of two cases; indexing the first one fails with status 500. *)
Definition case1 : Question :=
  {| q_id := js "case-1"; q_title := js "Market entry"; q_description := Samples.case_text;
     q_type := js "consulting"; q_difficulty := js "medium" |}.
Definition case2 : Question :=
  {| q_id := js "case-2"; q_title := js "Pricing"; q_description := Samples.case_text;
     q_type := js "product"; q_difficulty := js "hard" |}.
Definition first_fails : AdminEnv :=
  {| confirmed := true;
     questions := Returns [case1; case2];
     indexReply := fun qid => if JS.eqb qid (js "case-1")
                              then HttpResponse false 500 None
                              else HttpResponse true 200 (Some JNull) |}.
Definition panel0 : Panel :=
  {| indexing := false; progress := {| current := 0; total := 0 |};
     status := StatusIdle; message := []; requests := [] |}.

End IndexSamples.

(* ===================================================================== *)
(** * Statements that are tested against the code *)
(* ===================================================================== *)

Module Statements.
Import FeedbackService.

(** C1 as the claim has it, first half: for an answer that has a stored
    record, a call returns that record and leaves everything as it was, so
    no request went to the model, no count changed and no record was
    added. *)
Definition returns_existing_record : Prop :=
  forall env w aid uid email qid qt qd ua stored,
    stored ∈ aiFeedback w -> answerId stored = aid ->
    exists d,
      d ∈ aiFeedback w /\ answerId d = aid
      /\ generateFeedback env aid uid email qid qt qd ua w = (Returns d, w).

(** C1 as the claim has it, second half: two calls for the same answer give
    the same record both times, with one record stored and the count
    raised by at most one. *)
Definition same_record_both_times : Prop :=
  forall env1 env2 aid uid email qid qt qd ua w0 r1 w1 r2 w2,
    recordsFor w0 aid = [] ->
    generateFeedback env1 aid uid email qid qt qd ua w0 = (Returns r1, w1) ->
    generateFeedback env2 aid uid email qid qt qd ua w1 = (Returns r2, w2) ->
    r2 = r1 /\ recordsFor w2 aid = [r2]
    /\ used w2 (chargeDocId env1 uid) <= used w0 (chargeDocId env1 uid) + 1.

Definition idempotent_as_claimed : Prop :=
  returns_existing_record /\ same_record_both_times.

(** C4 as the claim has it: with no record for the answer and a trimmed
    answer under 50 units, the call fails with the validation error whatever
    the quota state. *)
Definition validation_precedes_quota : Prop :=
  forall env w aid uid email qid qt qd ua,
    recordsFor w aid = [] ->
    JS.len (JS.trim ua) < 50 ->
    fst (generateFeedback env aid uid email qid qt qd ua w) = Throws (Error tooShort).

End Statements.

Module CacheStatements.
Import SimilarCases.

(** No entry of the memory tier is fresh for [qid] at the time of the call. *)
Definition memoryMiss (env : BrowserEnv) (b : Browser) (qid : jsstring) : Prop :=
  match similarCasesCache b !! qid with
  | Some c => CACHE_DURATION <= now_try env - timestamp c
  | None => True
  end.

(** C8 as the claim has it: the remote call fails, the durable tier holds an
    entry older than the TTL, and that entry is what the lookup shows. *)
Definition stale_fallback : Prop :=
  forall env reply qid qt qd b e,
    replyFails reply = true ->
    memoryMiss env b qid ->
    getItemFails env = false ->
    localStorage b !! storageKey qid = Some (Some e) ->
    CACHE_DURATION <= now_try env - timestamp e ->
    CACHE_DURATION <= now_catch env - timestamp e ->
    similarCases (snd (fetchSimilarCases env reply qid qt qd b)) = data e.

End CacheStatements.

(* ===================================================================== *)
(** * The states a call of the feedback service can leave *)
(* ===================================================================== *)

Module FeedbackStates.
Import FeedbackService.

(** The state after one request to the model endpoint. *)
Definition afterRequest (w : World) : World :=
  {| aiFeedback := aiFeedback w; dailyLimits := dailyLimits w;
     geminiRequests := S (geminiRequests w) |}.

(** The document [incrementDailyCount] writes for the user's day, the day
    being the one of its own reading of the date. *)
Definition chargedDoc (env : Env) (uid : jsstring) (w : World) : DailyLimit :=
  match dailyLimits w !! chargeDocId env uid with
  | Some data =>
      {| dl_userId := dl_userId data; dl_date := dl_date data;
         requestCount := requestCount data + 1;
         lastRequestAt := Some (ServerTimestamp (serverNow env)) |}
  | None =>
      {| dl_userId := uid; dl_date := todayAtCharge env; requestCount := 1;
         lastRequestAt := Some (ServerTimestamp (serverNow env)) |}
  end.

(** The state after the count of the user's day was incremented; an admin is
    not counted. *)
Definition afterCharge (env : Env) (uid : jsstring) (email : option jsstring)
    (w : World) : World :=
  if isUserAdmin email then w
  else {| aiFeedback := aiFeedback w;
          dailyLimits := <[chargeDocId env uid := chargedDoc env uid w]> (dailyLimits w);
          geminiRequests := geminiRequests w |}.

(** The document [generateFeedback] stores for the model's [text]. *)
Definition storedRecord (env : Env) (aid uid qid qt ua text : jsstring) : AIFeedback :=
  {| id := autoId env; answerId := aid; userId := uid; questionId := qid;
     questionTitle := qt; userAnswer := ua;
     feedback := {| content := text; parsed := Parser.parseFeedbackContent text |};
     generatedAt := ServerTimestamp (serverNow env);
     createdAt := ServerTimestamp (serverNow env) |}.

(** The object [generateFeedback] returns for it. *)
Definition returnedRecord (env : Env) (aid uid qid qt ua text : jsstring) : AIFeedback :=
  {| id := autoId env; answerId := aid; userId := uid; questionId := qid;
     questionTitle := qt; userAnswer := ua;
     feedback := {| content := text; parsed := Parser.parseFeedbackContent text |};
     generatedAt := ClientDate (clientNow env);
     createdAt := ClientDate (clientNow env) |}.

Definition afterStore (d : AIFeedback) (w : World) : World :=
  {| aiFeedback := aiFeedback w ++ [d]; dailyLimits := dailyLimits w;
     geminiRequests := geminiRequests w |}.

(** The two messages of the model call. *)
Definition noKey : exn := Error (js "Gemini API key not configured").
Definition generationFailed : exn := Error (js "Failed to generate feedback").

(** What the lookup of [getFeedbackForAnswer] gives. *)
Definition found (env : Env) (w : World) (aid : jsstring) : option AIFeedback :=
  match fault env QueryFeedback with
  | Some _ => None
  | None => head (recordsFor w aid)
  end.

(** The text the model call returns, if it returns one. *)
Definition modelText (env : Env) : option jsstring :=
  match apiKey env, gemini env with
  | _ :: _, Candidate (Some (c :: t)) => Some (c :: t)
  | _, _ => None
  end.

(** Every stored record carries the parse of its own raw text. *)
Definition wellParsed (w : World) : Prop :=
  Forall (fun d => parsed (feedback d) = Parser.parseFeedbackContent (content (feedback d)))
         (aiFeedback w).

(** The quota check refuses: the user is no admin, the count was read, and it
    has reached the limit. *)
Definition quotaDenies (env : Env) (uid : jsstring) (email : option jsstring)
    (w : World) : bool :=
  negb (isUserAdmin email)
  && match fault env ReadLimit with
     | Some _ => false
     | None => DAILY_LIMIT <=? used w (limitDocId env uid)
     end.

(** The last step of a generation: the record is stored, or the write rejects. *)
Definition persist (env : Env) (aid uid qid qt ua text : jsstring) (w : World)
  : outcome AIFeedback * World :=
  match fault env AddFeedback with
  | Some e => (Throws e, w)
  | None => (Returns (returnedRecord env aid uid qid qt ua text),
             afterStore (storedRecord env aid uid qid qt ua text) w)
  end.

(** The steps of [generateFeedback] as one table, in the order the code takes
    them. *)
Definition pipeline (env : Env) (aid uid : jsstring) (email : option jsstring)
    (qid qt ua : jsstring) (w : World) : outcome AIFeedback * World :=
  match found env w aid with
  | Some d => (Returns d, w)
  | None =>
      if quotaDenies env uid email w then (Throws (Error limitMessage), w)
      else if JS.len (JS.trim ua) <? 50 then (Throws (Error tooShort), w)
      else
        match apiKey env with
        | [] => (Throws noKey, w)
        | _ :: _ =>
            match modelText env with
            | None => (Throws generationFailed, afterRequest w)
            | Some text =>
                if isUserAdmin email then
                  persist env aid uid qid qt ua text (afterRequest w)
                else
                  match fault env ReadLimitForIncrement with
                  | Some e => (Throws e, afterRequest w)
                  | None =>
                      match fault env WriteLimit with
                      | Some e => (Throws e, afterRequest w)
                      | None =>
                          persist env aid uid qid qt ua text
                            (afterCharge env uid email (afterRequest w))
                      end
                  end
            end
        end
  end.

End FeedbackStates.

Module MoreSamples.
Import FeedbackService Samples.

(** An admin address, not in lower case. *)
Definition admin_mail : option jsstring := Some (js "IVSNTejesh@Gmail.com").

(** The lookup of existing feedback rejects; everything else works. *)
Definition env_lookup_down : Env :=
  {| today := js "2024-06-01"; todayAtCharge := js "2024-06-01";
     clientNow := 1717236000000;
     serverNow := 1717236000250; autoId := js "fb2";
     fault := fun site => match site with QueryFeedback => Some unavailable | _ => None end;
     apiKey := js "key";
     gemini := Candidate (Some numbered_text) |}.

(** The write of the record rejects; everything else works. *)
Definition env_add_down : Env :=
  {| today := js "2024-06-01"; todayAtCharge := js "2024-06-01";
     clientNow := 1717236000000;
     serverNow := 1717236000250; autoId := js "fb1";
     fault := fun site => match site with AddFeedback => Some unavailable | _ => None end;
     apiKey := js "key";
     gemini := Candidate (Some numbered_text) |}.

(** The state after the first call for [answer1]. *)
Definition w_answered : World := snd first_call.

(** The user has used two of the three requests of the day. *)
Definition w_two_used : World :=
  {| aiFeedback := [];
     dailyLimits := {[ limitDocId env_ok user := day_doc 2 ]};
     geminiRequests := 0 |}.

(** A call that starts before midnight and whose model call returns after
    it: the charge reads the date of the next day. *)
Definition env_midnight : Env :=
  {| today := js "2024-06-01"; todayAtCharge := js "2024-06-02";
     clientNow := 1717286401500;
     serverNow := 1717286401250; autoId := js "fb1";
     fault := fun _ => None; apiKey := js "key";
     gemini := Candidate (Some numbered_text) |}.

End MoreSamples.

Module CacheSamples.
Import SimilarCases Samples.

(** One hour after the durable entry of [browser0] was stored. *)
Definition one_hour_later : BrowserEnv :=
  {| now_try := 3600000; now_catch := 3600040;
     setItemFails := false; getItemFails := false |}.

(** A little after [two_days_later]. *)
Definition two_days_and_a_minute_later : BrowserEnv :=
  {| now_try := 2 * CACHE_DURATION + 60000; now_catch := 2 * CACHE_DURATION + 60040;
     setItemFails := false; getItemFails := false |}.

(** A browser whose memory tier holds the list of case-1, stored at time 0. *)
Definition browser_warm : Browser :=
  {| similarCasesCache := {[ js "case-1" := stale_entry ]};
     localStorage := ∅;
     similarCases := JArr [];
     loading := false;
     error := None |}.

Definition fresh_list : json := JArr [JStr (js "case-3")].

(** A service call that throws. *)
Definition failing_find : M Browser json := throw (Error (js "Failed to fetch")).

End CacheSamples.

(* ===================================================================== *)
(** * pages/api/index-case.ts *)
(* ===================================================================== *)

Module IndexCaseApi.
Local Open Scope js_scope.

(** The optional [metadata] of the request, spread last into the stored
    metadata.  Only the keys that pages/api/similar-cases.ts reads are kept
    here; each is [None] when the object does not have it. *)
Record Extra : Type := {
  x_questionId : option jsstring;
  x_title : option jsstring;
  x_description : option jsstring;
  x_type : option jsstring;
  x_difficulty : option jsstring;
  x_totalAnswers : option Q;
  x_avgUpvotes : option Q
}.

Record Body : Type := {
  questionId : option jsstring;
  title : option jsstring;
  description : option jsstring;
  type : jsstring;
  difficulty : jsstring;
  metadata : option Extra
}.

Record Request : Type := { method : jsstring; body : Body }.

Inductive Payload : Type :=
| ErrorBody (error : jsstring)
| Indexed (message : jsstring).          (* { success: true, message } *)

Record Response : Type := { status : Z; payload : Payload }.

(** A record of the vector index. *)
Record Vector : Type := {
  values : list Q;
  stored : SimilarCasesApi.Metadata
}.

(** The embedding service, and whether the index takes the write. *)
Record Services : Type := {
  embeddings_create : jsstring -> outcome (list Q);
  upsert_fault : option exn
}.

(** [{ questionId, title, description, type, difficulty, ...metadata }] *)
Definition spread (base : SimilarCasesApi.Metadata) (extra : option Extra)
  : SimilarCasesApi.Metadata :=
  match extra with
  | None => base
  | Some x =>
      {| SimilarCasesApi.md_questionId :=
           default (SimilarCasesApi.md_questionId base) (x_questionId x);
         SimilarCasesApi.md_title :=
           default (SimilarCasesApi.md_title base) (x_title x);
         SimilarCasesApi.md_description :=
           default (SimilarCasesApi.md_description base) (x_description x);
         SimilarCasesApi.md_type :=
           default (SimilarCasesApi.md_type base) (x_type x);
         SimilarCasesApi.md_difficulty :=
           default (SimilarCasesApi.md_difficulty base) (x_difficulty x);
         SimilarCasesApi.md_totalAnswers :=
           match x_totalAnswers x with
           | Some n => Some n
           | None => SimilarCasesApi.md_totalAnswers base
           end;
         SimilarCasesApi.md_avgUpvotes :=
           match x_avgUpvotes x with
           | Some n => Some n
           | None => SimilarCasesApi.md_avgUpvotes base
           end |}
  end.

(** [index.upsert([{ id, values, metadata }])]: the record under [id] is
    written, replacing one that is there. *)
Definition upsert (svc : Services) (id : jsstring) (v : Vector)
  : M (gmap (list N) Vector) unit :=
  match upsert_fault svc with
  | Some e => throw e
  | None => modify (fun idx => <[id := v]> idx)
  end.

Definition handler (svc : Services) (req : Request)
  : M (gmap (list N) Vector) Response :=
  if negb (JS.eqb (method req) (js "POST")) then
    ret {| status := 405; payload := ErrorBody (js "Method not allowed") |}
  else
    match SimilarCasesApi.truthy (questionId (body req)),
          SimilarCasesApi.truthy (title (body req)),
          SimilarCasesApi.truthy (description (body req)) with
    | Some questionId, Some title, Some description =>
        try_catch
          (let textToEmbed := title ++ [10%N; 10%N] ++ description in
           embedding <- VectorDBService.lift (embeddings_create svc textToEmbed) ;;
           upsert svc questionId
             {| values := embedding;
                stored :=
                  spread
                    {| SimilarCasesApi.md_questionId := questionId;
                       SimilarCasesApi.md_title := title;
                       SimilarCasesApi.md_description := take 500 description;
                       SimilarCasesApi.md_type := type (body req);
                       SimilarCasesApi.md_difficulty := difficulty (body req);
                       SimilarCasesApi.md_totalAnswers := None;
                       SimilarCasesApi.md_avgUpvotes := None |}
                    (metadata (body req)) |} ;;;
           ret {| status := 200;
                  payload := Indexed (js "Indexed case: " ++ title) |})
          (fun _ =>
             ret {| status := 500; payload := ErrorBody (js "Failed to index case") |})
    | _, _, _ =>
        ret {| status := 400; payload := ErrorBody (js "Missing required fields") |}
    end.

(** Every record of the index carries its own id in its metadata. *)
Definition consistent (idx : gmap (list N) Vector) : Prop :=
  forall id v, idx !! id = Some v -> SimilarCasesApi.md_questionId (stored v) = id.

(** The matches of an answer are records of the index. *)
Definition drawnFrom (idx : gmap (list N) Vector) (ms : list SimilarCasesApi.Match) : Prop :=
  Forall (fun m => exists v, idx !! SimilarCasesApi.id m = Some v
                             /\ stored v = SimilarCasesApi.metadata m) ms.

End IndexCaseApi.

(* ===================================================================== *)
(** * The two routes on the request as it arrives *)
(* ===================================================================== *)

(** Both handlers test the method, then destructure [req.body], and only
    then enter their [try].  The handlers above are given the fields of a
    body that can be destructured; here the body can also be [null] or
    [undefined]. *)
Module ApiEntry.
Local Open Scope js_scope.

(** [in_body] is [None] when [req.body] is [null] or [undefined].  Any other
    value can be destructured: a property it does not have is read as
    [undefined], so a primitive reads like an object without the fields. *)
Record Incoming (B : Type) : Type := { in_method : jsstring; in_body : option B }.
Arguments in_method {B} _.
Arguments in_body {B} _.

(** The [TypeError] of destructuring [null] or [undefined]; the wording is
    the engine's. *)
Definition destructuringError : exn :=
  Error (js "Cannot destructure property 'questionId' of 'req.body' as it is undefined.").

(** pages/api/similar-cases.ts, from the first line of the handler. *)
Definition similarCases (svc : SimilarCasesApi.Services)
    (req : Incoming SimilarCasesApi.Body) : outcome SimilarCasesApi.Response :=
  if negb (JS.eqb (in_method req) (js "POST")) then
    Returns {| SimilarCasesApi.status := 405;
               SimilarCasesApi.payload :=
                 SimilarCasesApi.ErrorBody (js "Method not allowed") |}
  else
    match in_body req with
    | None => Throws destructuringError
    | Some b =>
        Returns (SimilarCasesApi.handler svc
                   {| SimilarCasesApi.method := in_method req;
                      SimilarCasesApi.body := b |})
    end.

(** pages/api/index-case.ts, from the first line of the handler. *)
Definition indexCase (svc : IndexCaseApi.Services)
    (req : Incoming IndexCaseApi.Body)
  : M (gmap (list N) IndexCaseApi.Vector) IndexCaseApi.Response :=
  if negb (JS.eqb (in_method req) (js "POST")) then
    ret {| IndexCaseApi.status := 405;
           IndexCaseApi.payload := IndexCaseApi.ErrorBody (js "Method not allowed") |}
  else
    match in_body req with
    | None => throw destructuringError
    | Some b =>
        IndexCaseApi.handler svc
          {| IndexCaseApi.method := in_method req; IndexCaseApi.body := b |}
    end.

End ApiEntry.

Module ApiSamples.
Import Samples.

(** The request the client sends for a case: no extra metadata. *)
Definition index_request (qid title : string) (text : jsstring) : IndexCaseApi.Request :=
  {| IndexCaseApi.method := js "POST";
     IndexCaseApi.body :=
       {| IndexCaseApi.questionId := Some (js qid);
          IndexCaseApi.title := Some (js title);
          IndexCaseApi.description := Some text;
          IndexCaseApi.type := js "consulting";
          IndexCaseApi.difficulty := js "medium";
          IndexCaseApi.metadata := None |} |}.

Definition index_services : IndexCaseApi.Services :=
  {| IndexCaseApi.embeddings_create := fun _ => Returns [1%Q; 0%Q];
     IndexCaseApi.upsert_fault := None |}.

(** A request for similar cases without a top-K. *)
Definition request_default : SimilarCasesApi.Request :=
  {| SimilarCasesApi.method := js "POST";
     SimilarCasesApi.body :=
       {| SimilarCasesApi.questionId := Some (js "case-1");
          SimilarCasesApi.title := Some (js "Market entry");
          SimilarCasesApi.description := Some case_text;
          SimilarCasesApi.topK := None |} |}.

(** The same without a title. *)
Definition request_untitled : SimilarCasesApi.Request :=
  {| SimilarCasesApi.method := js "POST";
     SimilarCasesApi.body :=
       {| SimilarCasesApi.questionId := Some (js "case-1");
          SimilarCasesApi.title := None;
          SimilarCasesApi.description := Some case_text;
          SimilarCasesApi.topK := Some 2 |} |}.

(** The same two requests as they arrive, and a POST whose body is the JSON
    text null. *)
Definition incoming_untitled : ApiEntry.Incoming SimilarCasesApi.Body :=
  {| ApiEntry.in_method := js "POST";
     ApiEntry.in_body := Some (SimilarCasesApi.body request_untitled) |}.
Definition incoming_null : ApiEntry.Incoming SimilarCasesApi.Body :=
  {| ApiEntry.in_method := js "POST"; ApiEntry.in_body := None |}.
Definition incoming_get : ApiEntry.Incoming SimilarCasesApi.Body :=
  {| ApiEntry.in_method := js "GET"; ApiEntry.in_body := None |}.

(** The embedding service is down. *)
Definition services_down : SimilarCasesApi.Services :=
  {| SimilarCasesApi.embeddings_create := fun _ => Throws (Error (js "429 quota"));
     SimilarCasesApi.index_query := fun _ _ => Returns [] |}.

(** The index after case-1 and case-2 were indexed through the route. *)
Definition index_one : gmap (list N) IndexCaseApi.Vector :=
  snd (IndexCaseApi.handler index_services
         (index_request "case-1" "Market entry" case_text) ∅).
Definition index_two : gmap (list N) IndexCaseApi.Vector :=
  snd (IndexCaseApi.handler index_services
         (index_request "case-2" "Pricing" case_text) index_one).

(** The records of an index as matches, and an index service that answers
    its first [k] records. *)
Definition matches_of (idx : gmap (list N) IndexCaseApi.Vector)
  : list SimilarCasesApi.Match :=
  map (fun kv => {| SimilarCasesApi.id := fst kv;
                    SimilarCasesApi.score := 1%Q;
                    SimilarCasesApi.metadata := IndexCaseApi.stored (snd kv) |})
      (map_to_list idx).

Definition backed_by (idx : gmap (list N) IndexCaseApi.Vector)
  : SimilarCasesApi.Services :=
  {| SimilarCasesApi.embeddings_create := fun _ => Returns [1%Q; 0%Q];
     SimilarCasesApi.index_query :=
       fun _ k => Returns (take (Z.to_nat k) (matches_of idx)) |}.

End ApiSamples.

(* ===================================================================== *)
(** * What a run of the bulk indexer meets *)
(* ===================================================================== *)

Module IndexerRuns.
Import PanelState.

(** The error [vectorDBService.indexCase] throws on a reply, if it throws. *)
Definition indexError (reply : FetchReply) : option exn :=
  match reply with
  | NetworkError => Some (Error (js "Failed to fetch"))
  | HttpResponse ok status _ =>
      if ok then None
      else Some (Error (js "Failed to index case: " ++ js (pretty status)))
  end.

(** The error of the first question whose request fails. *)
Fixpoint firstError (env : AdminEnv) (qs : list Question) : option exn :=
  match qs with
  | [] => None
  | q :: rest =>
      match indexError (indexReply env (q_id q)) with
      | Some e => Some e
      | None => firstError env rest
      end
  end.

(** The questions up to and including the first whose request fails. *)
Fixpoint attempted (env : AdminEnv) (qs : list Question) : list Question :=
  match qs with
  | [] => []
  | q :: rest =>
      match indexError (indexReply env (q_id q)) with
      | Some _ => [q]
      | None => q :: attempted env rest
      end
  end.

(** The number of questions before the first whose request fails. *)
Fixpoint succeeded (env : AdminEnv) (qs : list Question) : Z :=
  match qs with
  | [] => 0
  | q :: rest =>
      match indexError (indexReply env (q_id q)) with
      | Some _ => 0
      | None => 1 + succeeded env rest
      end
  end.

End IndexerRuns.

Module IndexSamplesMore.
Import IndexSamples.

(** The admin declines the confirmation. *)
Definition declined : AdminEnv :=
  {| confirmed := false;
     questions := Returns [case1; case2];
     indexReply := fun _ => HttpResponse true 200 (Some JNull) |}.

(** The corpus cannot be read. *)
Definition corpus_down : AdminEnv :=
  {| confirmed := true;
     questions := Throws (FirebaseError (js "unavailable") (js "The service is currently unavailable."));
     indexReply := fun _ => HttpResponse true 200 (Some JNull) |}.

(** Every request succeeds. *)
Definition all_fine : AdminEnv :=
  {| confirmed := true;
     questions := Returns [case1; case2];
     indexReply := fun _ => HttpResponse true 200 (Some JNull) |}.

(** A corpus of three cases; indexing the second one fails with status 500. *)
Definition case3 : Question :=
  {| q_id := js "case-3"; q_title := js "Growth"; q_description := Samples.case_text;
     q_type := js "consulting"; q_difficulty := js "easy" |}.
Definition second_fails : AdminEnv :=
  {| confirmed := true;
     questions := Returns [case1; case2; case3];
     indexReply := fun qid => if JS.eqb qid (js "case-2")
                              then HttpResponse false 500 None
                              else HttpResponse true 200 (Some JNull) |}.

End IndexSamplesMore.

(* ===================================================================== *)
(** * What the section patterns of the service match *)
(* ===================================================================== *)

Module SectionShape.

(** A code unit matches the pattern character [a] under the i flag. *)
Definition ci_match (a : ascii) (x : N) : bool :=
  (JS.upper x =? JS.upper (N_of_ascii a))%N && (x <? 128)%N.

(** [s] starts with [l], letter case apart. *)
Fixpoint ci_prefix (l : string) (s : jsstring) : bool :=
  match l, s with
  | EmptyString, _ => true
  | String a r, x :: s' => ci_match a x && ci_prefix r s'
  | String _ _, [] => false
  end.

(** The number of white-space units [s] starts with. *)
Fixpoint spaces (s : jsstring) : nat :=
  match s with
  | x :: s' => if JS.is_space x then S (spaces s') else O
  | [] => O
  end.

(** A digit followed by a dot starts here, or the text ends here. *)
Definition stop_here (s : jsstring) : bool :=
  match s with
  | [] => true
  | d :: rest =>
      JS.is_digit d && match rest with
                       | dot :: _ => (dot =? 46)%N
                       | [] => false
                       end
  end.

(** The distance to the first place where a digit followed by a dot starts,
    or to the end of the text. *)
Fixpoint firstStop (s : jsstring) : nat :=
  if stop_here s then O
  else match s with
       | [] => O
       | _ :: s' => S (firstStop s')
       end.

(** The length of the heading [n. LABEL] or [LABEL] that [s] starts with:
    the numbered form is tried first. *)
Definition headingEnd (n label : string) (s : jsstring) : option nat :=
  let numbered :=
    if ci_prefix n s then
      match drop (String.length n) s with
      | dot :: s1 =>
          if (dot =? 46)%N then
            if ci_prefix label (drop (spaces s1) s1)
            then Some (String.length n + 1 + spaces s1 + String.length label)%nat
            else None
          else None
      | [] => None
      end
    else None in
  match numbered with
  | Some h => Some h
  | None => if ci_prefix label s then Some (String.length label) else None
  end.

(** The label does not start with white space: after [\s*] has taken all
    the white space there is, the label is tried once. *)
Definition unspaced (label : string) : Prop :=
  forall x s, JS.is_space x = true -> ci_prefix label (x :: s) = false.

(** The three numbered sections whose pattern ends in the lookahead. *)
Definition lookahead_sections : list (string * string) :=
  [("1", "STRENGTHS"); ("2", "AREAS FOR IMPROVEMENT"); ("3", "MISSING CONSIDERATIONS")]%string.

End SectionShape.

Module StarLoop.
Import Regex.

(** The iteration of [a*] and [a*?] inside the matcher, by its name. *)
Definition star_loop {A : Type} (greedy : bool) (a : re)
    (k : nat -> jsstring -> capture -> option A)
  : nat -> nat -> jsstring -> capture -> option A :=
  fix loop (fuel : nat) (pos : nat) (s : jsstring) (c : capture) {struct fuel} :=
    match fuel with
    | O => k pos s c
    | S fuel' =>
        let again :=
          mt a pos s c (fun pos' s' c' =>
            if Nat.eqb pos' pos then None else loop fuel' pos' s' c') in
        if greedy then
          match again with
          | Some x => Some x
          | None => k pos s c
          end
        else
          match k pos s c with
          | Some x => Some x
          | None => again
          end
    end.

(** The label occurs somewhere in the text, letter case apart. *)
Definition occurs (label : string) (s : jsstring) : bool :=
  existsb (fun j => SectionShape.ci_prefix label (drop j s)) (List.seq 0%nat (S (length s))).

End StarLoop.

Module ParserSamples.
Import Samples.

(** A reply with bare headings whose first strength quotes a decimal
    number. *)
Definition decimal_text : jsstring :=
  js ("STRENGTHS" ++ nl ++ "- margin up 2.5 points" ++ nl ++ "- clear structure" ++ nl
      ++ "AREAS FOR IMPROVEMENT" ++ nl ++ "- none")%string.

(** A reply that ends with a frameworks section of numbered items. *)
Definition frameworks_text : jsstring :=
  js ("Overall solid." ++ nl ++ "4. FRAMEWORK SUGGESTIONS" ++ nl
      ++ "1. Porter" ++ nl ++ "2. SWOT")%string.

End ParserSamples.
(* ===================================================================== *)
(** * Properties of the feedback service *)
(* ===================================================================== *)

Lemma JS_eqb_eq (s t : jsstring) : JS.eqb s t = true <-> s = t.
Proof.
  revert t; induction s as [|a s IH]; intros [|b t]; simpl; split; try done.
  - intros [Hab Hst]%andb_prop. apply N.eqb_eq in Hab. apply IH in Hst. congruence.
  - intros [= -> ->]. rewrite N.eqb_refl. simpl. by apply IH.
Qed.

Module FeedbackFacts.
Import FeedbackService Statements.

Ltac unfold_service :=
  unfold generateFeedback, canRequestFeedback, getUserDailyStats,
    getFeedbackForAnswer, incrementDailyCount, addFeedback, writeLimit,
    readLimit, queryByAnswer, store,
    GeminiService.generateInsightsForAnswer, GeminiService.post,
    try_catch, bind, ret, throw, get, modify in *.

Lemma getFeedbackForAnswer_run env aid w :
  getFeedbackForAnswer env aid w =
    (Returns (match fault env QueryFeedback with
              | Some _ => None
              | None => head (recordsFor w aid)
              end), w).
Proof.
  unfold_service. destruct (fault env QueryFeedback) as [[m|c m]|]; simpl.
  - reflexivity.
  - destruct (JS.eqb c _); reflexivity.
  - destruct (recordsFor w aid); reflexivity.
Qed.

Lemma getUserDailyStats_pure env uid email w :
  exists s, getUserDailyStats env uid email w = (Returns s, w).
Proof.
  unfold_service. destruct (isUserAdmin email); [eauto|].
  destruct (fault env ReadLimit); simpl; [eauto|].
  destruct (dailyLimits w !! _); eauto.
Qed.

Lemma canRequestFeedback_pure env uid email w :
  exists c, canRequestFeedback env uid email w = (Returns c, w).
Proof.
  unfold canRequestFeedback. destruct (isUserAdmin email); [unfold ret; eauto|].
  destruct (getUserDailyStats_pure env uid email w) as [s Hs].
  unfold bind. rewrite Hs. destruct (remainingToday s <=? 0); unfold ret; eauto.
Qed.

(** The model call sends at most a request; it writes to no collection. *)
Lemma generateInsights_store env qt qd ua w r w' :
  GeminiService.generateInsightsForAnswer env qt qd ua w = (r, w') ->
  aiFeedback w' = aiFeedback w /\ dailyLimits w' = dailyLimits w.
Proof.
  unfold_service. destruct (apiKey env); [by intros [= <- <-]|].
  simpl. destruct (gemini env) as [| | |[[|]|]]; by intros [= <- <-].
Qed.

(** What a call that generates a new record leaves behind. *)
Lemma generateFeedback_fresh env aid uid email qid qt qd ua w r w' :
  recordsFor w aid = [] ->
  generateFeedback env aid uid email qid qt qd ua w = (Returns r, w') ->
  exists text,
    let fb := {| content := text; parsed := Parser.parseFeedbackContent text |} in
    let k := chargeDocId env uid in
    r = {| id := autoId env; answerId := aid; userId := uid; questionId := qid;
           questionTitle := qt; userAnswer := ua; feedback := fb;
           generatedAt := ClientDate (clientNow env);
           createdAt := ClientDate (clientNow env) |}
    /\ aiFeedback w' = aiFeedback w ++
         [{| id := autoId env; answerId := aid; userId := uid; questionId := qid;
             questionTitle := qt; userAnswer := ua; feedback := fb;
             generatedAt := ServerTimestamp (serverNow env);
             createdAt := ServerTimestamp (serverNow env) |}]
    /\ geminiRequests w' = S (geminiRequests w)
    /\ used w' k = used w k + (if isUserAdmin email then 0 else 1)
    /\ (forall k', k' ≠ k -> dailyLimits w' !! k' = dailyLimits w !! k').
Proof.
  intros Hnone. unfold generateFeedback, bind at 1.
  rewrite getFeedbackForAnswer_run, Hnone; simpl.
  replace (match fault env QueryFeedback with Some _ | _ => None end)
    with (@None AIFeedback) by (by destruct (fault env QueryFeedback)).
  unfold bind at 1.
  destruct (canRequestFeedback_pure env uid email w) as [c ->].
  destruct (allowed c); simpl; [|by unfold throw].
  destruct (JS.len (JS.trim ua) <? 50); [by unfold throw|].
  unfold used. unfold_service.
  destruct (apiKey env); [done|]; simpl.
  destruct (gemini env) as [| | |[[|ch text]|]]; try done.
  destruct (isUserAdmin email); simpl.
  - destruct (fault env AddFeedback); [done|]; simpl.
    intros [= <- <-]; simpl. exists (ch :: text); repeat split; auto. lia.
  - destruct (fault env ReadLimitForIncrement); [done|]; simpl.
    destruct (dailyLimits w !! chargeDocId env uid) eqn:Hk; simpl;
      (destruct (fault env WriteLimit); [done|]; simpl);
      (destruct (fault env AddFeedback); [done|]; simpl);
      intros [= <- <-]; simpl; exists (ch :: text);
      rewrite lookup_insert_eq; simpl;
      repeat split; auto; intros; by rewrite lookup_insert_ne.
Qed.

Lemma canRequestFeedback_denied env uid email w c :
  canRequestFeedback env uid email w = (Returns c, w) ->
  allowed c = false -> message c = Some limitMessage.
Proof.
  unfold canRequestFeedback. destruct (isUserAdmin email).
  - unfold ret. by intros [= <-].
  - destruct (getUserDailyStats_pure env uid email w) as [s Hs].
    unfold bind. rewrite Hs.
    destruct (remainingToday s <=? 0); unfold ret; by intros [= <-].
Qed.

Lemma limitMessage_text :
  limitMessage
  = js "You've reached your daily limit of 3 AI feedback requests. Limit resets at midnight.".
Proof. vm_compute. reflexivity. Qed.

Lemma deny_message (other : jsstring) :
  match limitMessage with
  | [] => other
  | c :: m => c :: m
  end = limitMessage.
Proof. reflexivity. Qed.

(** C2. Quota enforcement at the limit: for a user who is not an admin and
    whose stored count for today equals the limit of 3 (the read of the
    count succeeding), the quota check answers not-allowed, and
    [generateFeedback], when no record exists for the answer, throws the
    error whose message carries the limit; the state is the one before the
    call: no request to the model, no record, no write. *)
Theorem quota_enforced_at_limit
    (env : Env) (w : World) (aid uid : jsstring) (email : option jsstring)
    (qid qt qd ua : jsstring) (d : DailyLimit)
    (Hnotadmin : isUserAdmin email = false)
    (Hread : fault env ReadLimit = None)
    (Hdoc : dailyLimits w !! limitDocId env uid = Some d)
    (Hcount : requestCount d = DAILY_LIMIT)
    (Hnone : recordsFor w aid = []) :
  canRequestFeedback env uid email w
    = (Returns {| allowed := false; remaining := 0; message := Some limitMessage |}, w)
  /\ generateFeedback env aid uid email qid qt qd ua w
     = (Throws (Error limitMessage), w)
  /\ limitMessage
     = js "You've reached your daily limit of 3 AI feedback requests. Limit resets at midnight.".
Proof.
  assert (Hcan : canRequestFeedback env uid email w
    = (Returns {| allowed := false; remaining := 0; message := Some limitMessage |}, w)).
  { unfold_service. rewrite Hnotadmin, Hread; simpl. rewrite Hdoc, Hcount. reflexivity. }
  split; [exact Hcan|]. split; [|exact limitMessage_text].
  unfold generateFeedback, bind.
  rewrite getFeedbackForAnswer_run, Hnone; simpl.
  replace (match fault env QueryFeedback with Some _ | _ => None end)
    with (@None AIFeedback) by (by destruct (fault env QueryFeedback)).
  rewrite Hcan. cbn [allowed message negb]. rewrite deny_message. reflexivity.
Qed.

(** C3. Atomicity on generation failure: when the model call throws, the
    two collections after [generateFeedback] are the ones before it (the
    count of the user's day is unchanged, no record is stored); and when the
    call gets as far as the model (no record found, quota check passed,
    answer long enough) it throws the very error of the model call. *)
Theorem generation_failure_atomic
    (env : Env) (w : World) (aid uid : jsstring) (email : option jsstring)
    (qid qt qd ua : jsstring) (e : exn) (w1 : World)
    (r : outcome AIFeedback) (w' : World)
    (Hmodel : GeminiService.generateInsightsForAnswer env qt qd ua w = (Throws e, w1))
    (Hrun : generateFeedback env aid uid email qid qt qd ua w = (r, w')) :
  aiFeedback w' = aiFeedback w
  /\ dailyLimits w' = dailyLimits w
  /\ (forall k, used w' k = used w k)
  /\ (fst (getFeedbackForAnswer env aid w) = Returns None ->
      (exists c, fst (canRequestFeedback env uid email w) = Returns c
                 /\ allowed c = true) ->
      50 <= JS.len (JS.trim ua) ->
      r = Throws e /\ w' = w1).
Proof.
  destruct (generateInsights_store _ _ _ _ _ _ _ Hmodel) as [Hfb Hdl].
  revert Hrun. unfold generateFeedback, bind at 1.
  rewrite getFeedbackForAnswer_run; cbn [fst].
  destruct (match fault env QueryFeedback with
            | Some _ => None
            | None => head (recordsFor w aid)
            end) as [existing|] eqn:Hlook.
  { unfold ret. intros [= <- <-].
    split; [|split; [|split]]; auto. intros [=]. }
  unfold bind at 1.
  destruct (canRequestFeedback_pure env uid email w) as [c Hc]. rewrite Hc; cbn [fst].
  destruct (allowed c) eqn:Hal; cbn [negb].
  2:{ unfold throw. intros [= <- <-].
      split; [|split; [|split]]; auto.
      intros _ (c' & [= <-] & Hc') _. congruence. }
  destruct (JS.len (JS.trim ua) <? 50) eqn:Hlen.
  { unfold throw. intros [= <- <-].
    split; [|split; [|split]]; auto.
    intros _ _ Hlong. apply Z.ltb_lt in Hlen. lia. }
  unfold try_catch, bind at 1. rewrite Hmodel. unfold throw.
  intros [= <- <-]. unfold used. rewrite Hdl.
  split; [|split; [|split]]; auto.
Qed.

(** C4, amended. With no record for the answer and a trimmed answer under 50
    units, [generateFeedback] throws and leaves the state as it was (no
    request to the model, no write); the quota check runs first, so the
    error is the validation error when the quota check allows the request
    and the quota error when it does not. *)
Theorem short_answer_rejected
    (env : Env) (w : World) (aid uid : jsstring) (email : option jsstring)
    (qid qt qd ua : jsstring)
    (Hnone : recordsFor w aid = [])
    (Hshort : JS.len (JS.trim ua) < 50) :
  exists c,
    canRequestFeedback env uid email w = (Returns c, w)
    /\ generateFeedback env aid uid email qid qt qd ua w
       = (Throws (Error (if allowed c then tooShort else limitMessage)), w).
Proof.
  destruct (canRequestFeedback_pure env uid email w) as [c Hc].
  exists c; split; [exact Hc|].
  unfold generateFeedback, bind.
  rewrite getFeedbackForAnswer_run, Hnone; simpl.
  replace (match fault env QueryFeedback with Some _ | _ => None end)
    with (@None AIFeedback) by (by destruct (fault env QueryFeedback)).
  rewrite Hc. destruct (allowed c) eqn:Hal; simpl.
  - apply Z.ltb_lt in Hshort. rewrite Hshort. reflexivity.
  - rewrite (canRequestFeedback_denied _ _ _ _ _ Hc Hal), deny_message.
    reflexivity.
Qed.

(** C6. Fail-open quota read: when the read of the day's count throws,
    [getUserDailyStats] does not throw; for a user who is not an admin (the
    only users whose count is read) it reports used 0 and remaining equal to
    the limit, and the quota check allows the request. *)
Theorem quota_read_fails_open
    (env : Env) (w : World) (uid : jsstring) (email : option jsstring) (e : exn)
    (Hfault : fault env ReadLimit = Some e) :
  exists s c,
    getUserDailyStats env uid email w = (Returns s, w)
    /\ canRequestFeedback env uid email w = (Returns c, w)
    /\ allowed c = true
    /\ (isUserAdmin email = false ->
        totalRequests s = 0 /\ remainingToday s = DAILY_LIMIT
        /\ remaining c = DAILY_LIMIT).
Proof.
  unfold_service. rewrite Hfault. destruct (isUserAdmin email); simpl.
  - eexists _, _. split; [reflexivity|]. split; [reflexivity|]. split; [reflexivity|].
    intros [=].
  - eexists _, _. split; [reflexivity|]. split; [reflexivity|]. split; [reflexivity|].
    intros _. repeat split.
Qed.

(** C1. Idempotency, when the lookup query succeeds: a call for an answer
    that has a stored record returns that record (the first the query
    lists) and leaves the state as it was: no request to the model, no
    change of any count, no new record.  Hence after a first call that
    generated the record, a second call for the same answer returns the
    stored record, which has the id, the answer, user and question fields
    and the feedback of the first call's result but not its two time
    fields: those of the first result are the client's clock, those of the
    stored record the server's time.  There is exactly one record for the
    answer, one request was sent to the model, and the count of the day
    that was charged grew by one, by none for an admin. *)
Theorem generateFeedback_idempotent
    (env : Env) (aid uid : jsstring) (email : option jsstring)
    (qid qt qd ua : jsstring)
    (Hquery : fault env QueryFeedback = None) :
  (forall w stored,
      stored ∈ aiFeedback w -> answerId stored = aid ->
      exists d,
        d ∈ aiFeedback w /\ answerId d = aid
        /\ head (recordsFor w aid) = Some d
        /\ generateFeedback env aid uid email qid qt qd ua w = (Returns d, w))
  /\
  (forall env1 uid1 email1 qid1 qt1 qd1 ua1 w0 r w1,
      recordsFor w0 aid = [] ->
      generateFeedback env1 aid uid1 email1 qid1 qt1 qd1 ua1 w0 = (Returns r, w1) ->
      exists d,
        generateFeedback env aid uid email qid qt qd ua w1 = (Returns d, w1)
        /\ recordsFor w1 aid = [d]
        /\ id d = id r /\ answerId d = answerId r /\ userId d = userId r
        /\ questionId d = questionId r /\ questionTitle d = questionTitle r
        /\ userAnswer d = userAnswer r /\ feedback d = feedback r
        /\ generatedAt r = ClientDate (clientNow env1)
        /\ createdAt r = ClientDate (clientNow env1)
        /\ generatedAt d = ServerTimestamp (serverNow env1)
        /\ createdAt d = ServerTimestamp (serverNow env1)
        /\ geminiRequests w1 = S (geminiRequests w0)
        /\ used w1 (chargeDocId env1 uid1)
           = used w0 (chargeDocId env1 uid1) + (if isUserAdmin email1 then 0 else 1)
        /\ (forall k, k ≠ chargeDocId env1 uid1 ->
              dailyLimits w1 !! k = dailyLimits w0 !! k)).
Proof.
  assert (Hfound : forall w d, head (recordsFor w aid) = Some d ->
            generateFeedback env aid uid email qid qt qd ua w = (Returns d, w)).
  { intros w d Hd. unfold generateFeedback, bind.
    rewrite getFeedbackForAnswer_run, Hquery, Hd. reflexivity. }
  split.
  { intros w stored Hin Haid.
    assert (Hrec : stored ∈ recordsFor w aid)
      by (apply list_elem_of_filter; split; [by apply JS_eqb_eq|done]).
    destruct (recordsFor w aid) as [|d rest] eqn:Hl; [by apply not_elem_of_nil in Hrec|].
    assert (Hd : d ∈ recordsFor w aid) by (rewrite Hl; left).
    apply list_elem_of_filter in Hd as [Hd1 Hd2]. apply JS_eqb_eq in Hd1.
    exists d. repeat split; auto. apply Hfound. by rewrite Hl. }
  intros env1 uid1 email1 qid1 qt1 qd1 ua1 w0 r w1 Hnone Hrun.
  destruct (generateFeedback_fresh _ _ _ _ _ _ _ _ _ _ _ Hnone Hrun)
    as (text & Hr & Hfb & Hreq & Hused & Hother).
  set (d := {| id := autoId env1; answerId := aid; userId := uid1;
               questionId := qid1; questionTitle := qt1; userAnswer := ua1;
               feedback := {| content := text;
                              parsed := Parser.parseFeedbackContent text |};
               generatedAt := ServerTimestamp (serverNow env1);
               createdAt := ServerTimestamp (serverNow env1) |}) in *.
  assert (Hrec : recordsFor w1 aid = [d]).
  { unfold recordsFor in *. rewrite Hfb, filter_app, Hnone; simpl.
    rewrite filter_cons, filter_nil. simpl.
    case_decide as Hd; [reflexivity|]. exfalso. apply Hd. by apply JS_eqb_eq. }
  exists d. split; [apply Hfound; by rewrite Hrec|].
  subst r. simpl. repeat split; auto.
Qed.

End FeedbackFacts.

(** ** The feedback service on concrete inputs *)

Module FeedbackExamples.
Import FeedbackService Statements FeedbackFacts Samples.

Lemma first_call_result :
  exists r w1, first_call = (Returns r, w1).
Proof. vm_compute. eauto. Qed.

Lemma generateFeedback_idempotent_witness :
  fault env_ok QueryFeedback = None
  /\ exists d,
       generateFeedback env_ok answer1 user mail question1 case_title case_text
         long_answer (snd first_call) = (Returns d, snd first_call)
       /\ recordsFor (snd first_call) answer1 = [d]
       /\ used (snd first_call) (chargeDocId env_ok user) = 1.
Proof.
  split; [reflexivity|].
  destruct (generateFeedback_idempotent env_ok answer1 user mail question1
              case_title case_text long_answer eq_refl) as [_ Htwice].
  destruct first_call_result as (r & w1 & Hfirst).
  destruct (Htwice env_ok user mail question1 case_title case_text long_answer
              w_empty r w1 eq_refl Hfirst)
    as (d & Hsecond & Hone & _ & _ & _ & _ & _ & _ & _ & _ & _ & _ & _ & _ & Hused & _).
  change (generateFeedback env_ok answer1 user mail question1 case_title
            case_text long_answer w_empty) with first_call in Hfirst.
  rewrite Hfirst; simpl. exists d. split; [exact Hsecond|]. split; [exact Hone|].
  rewrite Hused. reflexivity.
Defined.

(** C1 fails as stated, in its first half: when the lookup query rejects,
    the call for an answer that has a record does not return it; it asks
    the model again and stores a second record. *)
Lemma idempotency_counterexample : ~ idempotent_as_claimed.
Proof.
  intros [H _].
  destruct (H MoreSamples.env_lookup_down MoreSamples.w_answered answer1 user mail
              question1 case_title case_text long_answer
              (FeedbackStates.storedRecord env_ok answer1 user question1 case_title
                 long_answer numbered_text))
    as (d & _ & _ & Hrun).
  - vm_compute. left.
  - reflexivity.
  - apply (f_equal (fun p => length (aiFeedback (snd p)))) in Hrun.
    vm_compute in Hrun. discriminate Hrun.
Qed.

(** And in its second half: the record the first call returns carries the
    client's clock, the stored one the second call returns the server's
    time, so the two calls do not give the same record. *)
Lemma first_result_is_not_the_stored_record : ~ same_record_both_times.
Proof.
  intros H.
  destruct (H env_ok env_ok answer1 user mail question1 case_title case_text
              long_answer w_empty
              (FeedbackStates.returnedRecord env_ok answer1 user question1 case_title
                 long_answer numbered_text)
              (snd first_call)
              (FeedbackStates.storedRecord env_ok answer1 user question1 case_title
                 long_answer numbered_text)
              (snd first_call)) as (Heq & _).
  - reflexivity.
  - vm_compute. reflexivity.
  - vm_compute. reflexivity.
  - vm_compute in Heq. discriminate Heq.
Qed.

Lemma quota_enforced_at_limit_witness :
  generateFeedback env_ok answer1 user mail question1 case_title case_text
    long_answer w_at_limit = (Throws (Error limitMessage), w_at_limit).
Proof.
  apply (quota_enforced_at_limit env_ok w_at_limit answer1 user mail question1
           case_title case_text long_answer (day_doc 3));
    reflexivity.
Defined.

Lemma generation_failure_atomic_witness :
  used (snd (generateFeedback env_model_down answer1 user mail question1
               case_title case_text long_answer w_one_used))
       (limitDocId env_model_down user) = 1
  /\ aiFeedback (snd (generateFeedback env_model_down answer1 user mail question1
                        case_title case_text long_answer w_one_used)) = [].
Proof.
  destruct (generation_failure_atomic env_model_down w_one_used answer1 user mail
              question1 case_title case_text long_answer
              (Error (js "Failed to generate feedback"))
              {| aiFeedback := []; dailyLimits := dailyLimits w_one_used;
                 geminiRequests := 1 |}
              (fst (generateFeedback env_model_down answer1 user mail question1
                      case_title case_text long_answer w_one_used))
              (snd (generateFeedback env_model_down answer1 user mail question1
                      case_title case_text long_answer w_one_used))
              eq_refl (surjective_pairing _))
    as (Hfb & _ & Hused & _).
  split; [rewrite Hused; reflexivity | rewrite Hfb; reflexivity].
Defined.

Lemma short_answer_rejected_witness :
  generateFeedback env_ok answer1 user mail question1 case_title case_text
    short_answer w_one_used = (Throws (Error tooShort), w_one_used).
Proof.
  destruct (short_answer_rejected env_ok w_one_used answer1 user mail question1
              case_title case_text short_answer eq_refl)
    as (c & Hc & Hrun); [reflexivity|].
  rewrite Hrun. injection Hc as <-. reflexivity.
Defined.

(** C4 fails as stated: a user at the limit who sends a short answer gets
    the quota error, not the validation error. *)
Lemma validation_precedes_quota_counterexample : ~ validation_precedes_quota.
Proof.
  intros H.
  specialize (H env_ok w_at_limit answer1 user mail question1 case_title
                case_text short_answer eq_refl eq_refl).
  vm_compute in H. discriminate H.
Qed.

Lemma quota_read_fails_open_witness :
  exists c,
    canRequestFeedback env_store_down user mail w_at_limit = (Returns c, w_at_limit)
    /\ allowed c = true /\ remaining c = 3.
Proof.
  destruct (quota_read_fails_open env_store_down w_at_limit user mail unavailable
              eq_refl) as (s & c & _ & Hc & Hal & Hfull).
  exists c. split; [exact Hc|]. split; [exact Hal|].
  destruct (Hfull eq_refl) as (_ & _ & Hrem). exact Hrem.
Defined.

End FeedbackExamples.

(* ===================================================================== *)
(** * The matcher on small patterns *)
(* ===================================================================== *)

Module RegexExamples.
Import Regex.

(** "aXbXc".match(/a[\s\S]*X/) is "aXbX", with the lazy star it is "aX". *)
Example greedy_star :
  exec (seq [chr "a"; Star true any; chr "X"]) (js "aXbXc") = Some (js "aXbX").
Proof. reflexivity. Qed.

Example lazy_star :
  exec (seq [chr "a"; Star false any; chr "X"]) (js "aXbXc") = Some (js "aX").
Proof. reflexivity. Qed.

(** A lookahead consumes nothing; the match is the leftmost one. *)
Example lazy_until_lookahead :
  exec (seq [lit_i "ab"; Star false any; Look (Alt (Seq digit (chr ".")) Eoi)])
       (js "xxAB cd 7. e") = Some (js "AB cd ").
Proof. reflexivity. Qed.

Example anchored : test (seq [Bol; plus digit; chr "."]) (js "x 1.") = false.
Proof. reflexivity. Qed.

(** "**Fit**: good **idea**".replace(/^\*\*([^*]+)\*\*:?\s* /, "$1: ")
    and then .replace(/\*\*/g, "") *)
Example bold_label :
  replaceAll Reparser.stars []
    (replace Reparser.bold_label_re [Group1; Text (js ": ")]
             (js "**Fit**: good **idea**"))
  = js "Fit: good idea".
Proof. reflexivity. Qed.

End RegexExamples.

(* ===================================================================== *)
(** * Properties of the feedback parser *)
(* ===================================================================== *)

Module ParserExamples.
Import Parser Samples.

(** C5, on the code. For the text with the four numbered headings, "- A" and
    "- B" under STRENGTHS and "1. C" under AREAS FOR IMPROVEMENT, the parser
    of the service gives strengths STRENGTHS, A, B and improvements AREAS FOR
    IMPROVEMENT: each heading line is emitted as a bullet, and the second
    section ends before its own "1." line. *)
Theorem parse_numbered_headings :
  strengths (parseFeedbackContent numbered_text)
    = Some [js "STRENGTHS"; js "A"; js "B"]
  /\ improvements (parseFeedbackContent numbered_text)
    = Some [js "AREAS FOR IMPROVEMENT"]
  /\ strengths (parseFeedbackContent numbered_text) <> Some [js "A"; js "B"]
  /\ improvements (parseFeedbackContent numbered_text) <> Some [js "C"].
Proof. vm_compute. repeat split; discriminate. Qed.

(** With bare headings the first section runs up to the "1." of the second
    section's bullet, which no section then contains. *)
Lemma parse_plain_headings :
  strengths (parseFeedbackContent plain_text) = Some [js "A"; js "B"]
  /\ improvements (parseFeedbackContent plain_text) = Some [].
Proof. vm_compute. split; reflexivity. Qed.

(** The components re-parse what the service stored for this text, and their
    parser gives what the claim states. *)
Lemma reparse_numbered_headings :
  Reparser.needsReparsing (parseFeedbackContent numbered_text) = true
  /\ strengths (Reparser.parseExistingFeedback numbered_text)
     = Some [js "A"; js "B"]
  /\ improvements (Reparser.parseExistingFeedback numbered_text)
     = Some [js "C"].
Proof. vm_compute. repeat split. Qed.

(** What the two patterns match in the numbered text. *)
Lemma sections_of_numbered_text :
  Regex.exec strengths_re numbered_text
    = Some (js ("1. STRENGTHS" ++ nl ++ "- A" ++ nl ++ "- B" ++ nl)%string)
  /\ Regex.exec improvements_re numbered_text
    = Some (js ("2. AREAS FOR IMPROVEMENT" ++ nl)%string).
Proof. vm_compute. split; reflexivity. Qed.

End ParserExamples.

(* ===================================================================== *)
(** * Properties of the similar-cases API *)
(* ===================================================================== *)

Module ApiFacts.
Import SimilarCasesApi.

Lemma slice0_take {A} (xs : list A) (k : Z) :
  0 <= k -> JSArray.slice0 xs k = take (Z.to_nat k) xs.
Proof.
  intros Hk. unfold JSArray.slice0.
  destruct (k <? 0) eqn:E; [apply Z.ltb_lt in E; lia|].
  destruct (Z.le_ge_cases k (Z.of_nat (length xs))) as [Hle|Hge].
  - by rewrite Z.min_l.
  - rewrite Z.min_r, Nat2Z.id by lia.
    rewrite !take_ge; [done | lia | lia].
Qed.


(** Whatever [k] is, [slice] keeps elements of the array only. *)
Lemma slice0_subseteq {A} (xs : list A) (k : Z) : JSArray.slice0 xs k ⊆ xs.
Proof. unfold JSArray.slice0. apply sublist_subseteq, sublist_take. Qed.

Lemma others_not_queried queried k ms :
  Forall (fun m => id m <> queried) (others queried k ms).
Proof.
  apply Forall_forall. intros m Hm. unfold others in Hm.
  apply slice0_subseteq, list_elem_of_filter in Hm as [Hne _].
  intros Heq. apply JS_eqb_eq in Heq. congruence.
Qed.

Lemma others_from_answer queried k ms : others queried k ms ⊆ ms.
Proof.
  intros m Hm. unfold others in Hm.
  by apply slice0_subseteq, list_elem_of_filter in Hm as [_ ?].
Qed.

(** What a 200 answer of the handler is made of. *)
Lemma handler_200 svc req cs :
  handler svc req = {| status := 200; payload := SimilarBody cs |} ->
  exists queried t d v ms,
    truthy (questionId (body req)) = Some queried
    /\ truthy (title (body req)) = Some t
    /\ truthy (description (body req)) = Some d
    /\ embeddings_create svc (t ++ [10%N; 10%N] ++ d) = Returns v
    /\ index_query svc v (default 5 (topK (body req)) + 1) = Returns ms
    /\ cs = map format (others queried (default 5 (topK (body req))) ms).
Proof.
  unfold handler. destruct (negb _); [discriminate|].
  destruct (truthy (questionId _)) as [q|]; [|discriminate].
  destruct (truthy (title _)) as [t|]; [|discriminate].
  destruct (truthy (description _)) as [d|]; [|discriminate].
  destruct (embeddings_create _ _) as [v|] eqn:Hv; [|discriminate].
  destruct (index_query _ _ _) as [ms|] eqn:Hms; [|discriminate].
  intros [= <-]. by exists q, t, d, v, ms.
Qed.


End ApiFacts.

Module ApiExamples.
Import SimilarCasesApi ApiFacts Samples.

(** Asked for the two nearest of case-1, the index lists case-1 first; the
    answer is case-2 and case-3. *)
Lemma handler_top2 :
  handler services (request 2)
  = {| status := 200;
       payload := SimilarBody (map format (drop 1 neighbours)) |}.
Proof. vm_compute. reflexivity. Qed.


End ApiExamples.

(* ===================================================================== *)
(** * Properties of the similar-cases client *)
(* ===================================================================== *)

Module ClientFacts.
Import VectorDBService.

Lemma findSimilarCases_returns {St} reply qid t d k (w : St) :
  exists v, findSimilarCases reply qid t d k w = (Returns v, w).
Proof.
  unfold findSimilarCases, try_catch, bind, fetch, lift, ret, throw.
  destruct reply as [|[|] status [data|]]; simpl; eauto.
  destruct data; simpl; eauto.
  destruct (Json.assoc _ _) as [[]|]; eauto.
Qed.

Lemma findSimilarCases_failure {St} reply qid t d k (w : St) :
  replyFails reply = true ->
  findSimilarCases reply qid t d k w = (Returns (JArr []), w).
Proof.
  unfold findSimilarCases, replyFails, try_catch, bind, fetch, lift, ret, throw.
  destruct reply as [|[|] status [data|]]; simpl; try done.
  destruct data; simpl; try done.
  destruct (Json.assoc _ _) as [[]|]; done.
Qed.

(** C10. The client-side lookup never throws and does not tell a failure
    from an empty result: for every reply it returns a value, for every
    failing reply (no connection, a status that is not OK, a body that is
    not JSON or has no [similarCases] member) it returns the empty list,
    which is also what it returns for a reply that lists no case. *)
Theorem findSimilarCases_swallows_failure
    {St : Type} (reply : FetchReply) (qid t d : jsstring) (k : Z) (w : St)
    (Hfail : replyFails reply = true) :
  findSimilarCases reply qid t d k w = (Returns (JArr []), w)
  /\ findSimilarCases reply qid t d k w = findSimilarCases emptyReply qid t d k w
  /\ (forall reply', exists v, findSimilarCases reply' qid t d k w = (Returns v, w)).
Proof.
  split; [by apply findSimilarCases_failure|].
  split; [by rewrite findSimilarCases_failure|].
  intros reply'. apply findSimilarCases_returns.
Qed.

Lemma findSimilarCases_swallows_failure_witness :
  findSimilarCases (St := unit) (HttpResponse false 500 None)
    (js "case-1") (js "Market entry") Samples.case_text 5 tt
  = (Returns (JArr []), tt).
Proof.
  apply (findSimilarCases_swallows_failure (HttpResponse false 500 None)
           (js "case-1") (js "Market entry") Samples.case_text 5 tt eq_refl).
Defined.

End ClientFacts.

(* ===================================================================== *)
(** * Properties of the similar-cases cache of the component *)
(* ===================================================================== *)

Module CacheFacts.
Import SimilarCases CacheStatements.

Ltac unfold_component :=
  unfold fetchSimilarCases, fetchSimilarCasesWith, try_finally, setLoading,
    setError, setSimilarCases, cacheSet, setItem, getItem,
    try_catch, bind, ret, throw, get, modify in *.

(** The component when the service returns [v] without touching the state. *)
Lemma fetch_after_miss env find qid b v :
  memoryMiss env b qid ->
  (forall s, find s = (Returns v, s)) ->
  fetchSimilarCasesWith env find qid b
  = (Returns tt,
     {| similarCasesCache :=
          <[qid := {| data := v; timestamp := now_try env |}]> (similarCasesCache b);
        localStorage :=
          if setItemFails env then localStorage b
          else <[storageKey qid := Some {| data := v; timestamp := now_try env |}]>
                 (localStorage b);
        similarCases := v; loading := false; error := None |}).
Proof.
  intros Hmiss Hfind. unfold memoryMiss in Hmiss. unfold_component. simpl.
  destruct (similarCasesCache b !! qid) as [c|] eqn:Hc.
  - destruct (now_try env - timestamp c <? CACHE_DURATION) eqn:Hfresh;
      [apply Z.ltb_lt in Hfresh; lia|].
    rewrite Hfind; simpl. destruct (setItemFails env); reflexivity.
  - rewrite Hfind; simpl. destruct (setItemFails env); reflexivity.
Qed.

(** The component when the service throws: the catch block. *)
Lemma fetch_after_throw env find qid b x :
  memoryMiss env b qid ->
  (forall s, find s = (Throws x, s)) ->
  fetchSimilarCasesWith env find qid b
  = (Returns tt,
     match (if getItemFails env then None else localStorage b !! storageKey qid) with
     | Some (Some e) =>
         if now_catch env - timestamp e <? CACHE_DURATION then
           {| similarCasesCache := similarCasesCache b; localStorage := localStorage b;
              similarCases := data e; loading := false; error := None |}
         else
           {| similarCasesCache := similarCasesCache b; localStorage := localStorage b;
              similarCases := similarCases b; loading := false;
              error := Some failedMessage |}
     | _ =>
         {| similarCasesCache := similarCasesCache b; localStorage := localStorage b;
            similarCases := similarCases b; loading := false;
            error := Some failedMessage |}
     end).
Proof.
  intros Hmiss Hfind. unfold memoryMiss in Hmiss. unfold_component. simpl.
  destruct (similarCasesCache b !! qid) as [c|] eqn:Hc.
  - destruct (now_try env - timestamp c <? CACHE_DURATION) eqn:Hfresh;
      [apply Z.ltb_lt in Hfresh; lia|].
    rewrite Hfind; simpl. destruct (getItemFails env); simpl; [reflexivity|].
    destruct (localStorage b !! storageKey qid) as [[e|]|]; simpl; try reflexivity.
    destruct (now_catch env - timestamp e <? CACHE_DURATION); reflexivity.
  - rewrite Hfind; simpl. destruct (getItemFails env); simpl; [reflexivity|].
    destruct (localStorage b !! storageKey qid) as [[e|]|]; simpl; try reflexivity.
    destruct (now_catch env - timestamp e <? CACHE_DURATION); reflexivity.
Qed.

(** C8, amended. When the lookup reaches the remote call and that call
    fails, the service returns the empty list: the component shows the empty
    list with no error and stores it, with the time of the call, in the
    memory tier and (when the write succeeds) in the durable tier, where it
    replaces the older entry; the stale entry is not shown.  The fallback of
    the catch block keeps the TTL check: when the service call throws and the
    durable entry is older than the TTL, the entry is not used, the list
    shown is unchanged and the error message is set. *)
Theorem remote_failure_ignores_stale_entry
    (env : BrowserEnv) (reply : FetchReply) (qid qt qd : jsstring)
    (b : Browser) (e : CacheEntry)
    (Hfail : replyFails reply = true)
    (Hmiss : memoryMiss env b qid)
    (Hdurable : localStorage b !! storageKey qid = Some (Some e))
    (Hstale : CACHE_DURATION <= now_catch env - timestamp e) :
  (let b' := snd (fetchSimilarCases env reply qid qt qd b) in
   fst (fetchSimilarCases env reply qid qt qd b) = Returns tt
   /\ similarCases b' = JArr [] /\ error b' = None /\ loading b' = false
   /\ similarCasesCache b' !! qid
      = Some {| data := JArr []; timestamp := now_try env |}
   /\ localStorage b' !! storageKey qid
      = Some (if setItemFails env then Some e
              else Some {| data := JArr []; timestamp := now_try env |}))
  /\ (forall find x,
        (forall s, find s = (Throws x, s)) ->
        let b' := snd (fetchSimilarCasesWith env find qid b) in
        fst (fetchSimilarCasesWith env find qid b) = Returns tt
        /\ similarCases b' = similarCases b
        /\ error b' = Some failedMessage /\ loading b' = false
        /\ localStorage b' = localStorage b).
Proof.
  split.
  - unfold fetchSimilarCases.
    rewrite (fetch_after_miss env _ qid b (JArr []) Hmiss
               (fun s => ClientFacts.findSimilarCases_failure reply qid qt qd 5 s Hfail)).
    simpl. rewrite lookup_insert_eq.
    destruct (setItemFails env); [by rewrite Hdurable | by rewrite lookup_insert_eq].
  - intros find x Hfind. rewrite (fetch_after_throw env find qid b x Hmiss Hfind).
    simpl. destruct (getItemFails env); simpl; [done|].
    rewrite Hdurable.
    destruct (now_catch env - timestamp e <? CACHE_DURATION) eqn:Hfresh;
      [apply Z.ltb_lt in Hfresh; lia|done].
Qed.

End CacheFacts.

Module CacheExamples.
Import SimilarCases CacheStatements CacheFacts Samples.

(** The remote call fails two days after the list was stored: the component
    shows the empty list and overwrites the stored one. *)
Lemma stale_entry_overwritten :
  let b' := snd (fetchSimilarCases two_days_later NetworkError (js "case-1")
                   (js "Market entry") case_text browser0) in
  similarCases b' = JArr [] /\ error b' = None
  /\ localStorage b' !! storageKey (js "case-1")
     = Some (Some {| data := JArr []; timestamp := 2 * CACHE_DURATION |}).
Proof. vm_compute. repeat split. Qed.

(** C8 fails as stated. *)
Lemma stale_fallback_counterexample : ~ stale_fallback.
Proof.
  intros H.
  specialize (H two_days_later NetworkError (js "case-1") (js "Market entry")
                case_text browser0 stale_entry eq_refl I eq_refl eq_refl).
  assert (H1 : CACHE_DURATION <= now_try two_days_later - timestamp stale_entry)
    by (vm_compute; discriminate).
  assert (H2 : CACHE_DURATION <= now_catch two_days_later - timestamp stale_entry)
    by (vm_compute; discriminate).
  specialize (H H1 H2). vm_compute in H. discriminate H.
Qed.

Lemma remote_failure_ignores_stale_entry_witness :
  similarCases (snd (fetchSimilarCases two_days_later NetworkError (js "case-1")
                       (js "Market entry") case_text browser0)) = JArr []
  /\ error (snd (fetchSimilarCasesWith two_days_later
                   (throw (Error (js "Failed to fetch"))) (js "case-1") browser0))
     = Some failedMessage.
Proof.
  destruct (remote_failure_ignores_stale_entry two_days_later NetworkError
              (js "case-1") (js "Market entry") case_text browser0 stale_entry
              eq_refl I eq_refl ltac:(vm_compute; discriminate))
    as [(_ & Hshown & _) Hcatch].
  split; [exact Hshown|].
  destruct (Hcatch (throw (Error (js "Failed to fetch"))) (Error (js "Failed to fetch"))
              (fun s => eq_refl)) as (_ & _ & Herr & _).
  exact Herr.
Defined.

End CacheExamples.

(* ===================================================================== *)
(** * Properties of the bulk indexer *)
(* ===================================================================== *)

Module IndexerFacts.
Import PanelState.

Lemma failures_cons env q qs :
  failures env (q :: qs) = (if fails env q then 1 else 0) + failures env qs.
Proof.
  unfold failures. rewrite filter_cons.
  destruct (fails env q); case_decide; try congruence; simpl length; lia.
Qed.

Lemma failures_bound env qs : 0 <= failures env qs <= len qs.
Proof.
  unfold failures, len. pose proof (length_filter (fun q => fails env q = true) qs).
  lia.
Qed.

(** The loop of the client-side version visits every question, whatever
    fails, and counts each one once. *)
Lemma client_loop env n qs : forall i s f p,
  AdminVectorDBClient.indexFrom env n i qs s f p
  = (Returns (s + (len qs - failures env qs), f + failures env qs),
     {| indexing := indexing p;
        progress := progress (snd (AdminVectorDBClient.indexFrom env n i qs s f p));
        status := status p; message := message p;
        requests := requests p ++ map q_id qs |}).
Proof.
  induction qs as [|q qs IH]; intros i s f p.
  - simpl. unfold ret, failures, len; simpl. rewrite app_nil_r.
    destruct p; simpl. do 3 f_equal; lia.
  - rewrite failures_cons. cbn [AdminVectorDBClient.indexFrom].
    unfold bind at 1.
    unfold fails, indexCase, VectorDBService.indexCase, VectorDBService.fetch, sent,
      setProgress, try_catch, bind, ret, throw, modify.
    destruct (indexReply env (q_id q)) as [|[|] st body]; simpl;
      rewrite IH; simpl; rewrite <- app_assoc; simpl.
    all: assert (Hlen : len (q :: qs) = 1 + len qs)
           by (unfold len; simpl length; lia); rewrite Hlen.
    all: match goal with
         | |- (Returns ?a, _) = (Returns ?b, _) => replace a with b; [reflexivity|]
         end.
    all: f_equal; lia.
Qed.

(** The client-side version satisfies C9: with the corpus fetched, the run
    ends in success whatever requests fail, every question was sent, and the
    message reports counts that add up to the size of the corpus. *)
Lemma client_indexAllCases_completes env qs p :
  confirmed env = true ->
  questions env = Returns qs ->
  let p' := snd (AdminVectorDBClient.indexAllCases env p) in
  let f := failures env qs in
  let s := len qs - f in
  fst (AdminVectorDBClient.indexAllCases env p) = Returns tt
  /\ status p' = StatusSuccess
  /\ message p' = AdminVectorDBClient.completeMessage s f (len qs)
  /\ s + f = len qs /\ 0 <= s /\ 0 <= f
  /\ requests p' = requests p ++ map q_id qs
  /\ indexing p' = false.
Proof.
  intros Hconf Hqs. pose proof (failures_bound env qs) as Hb.
  unfold AdminVectorDBClient.indexAllCases. rewrite Hconf, Hqs. cbn [negb].
  unfold try_finally, try_catch, bind, VectorDBService.lift, setIndexing, setStatus,
    setMessage, setProgress, ret, modify. simpl.
  rewrite client_loop. simpl.
  repeat split; try lia.
Qed.

End IndexerFacts.

Module IndexerExamples.
Import PanelState IndexerFacts IndexSamples.

(** C9, on the code of src/components/AdminVectorDB.tsx: with a corpus of
    two cases of which the first fails to index, the run stops at the first
    case: the second case is never sent, the panel ends in the error status
    with the message of the failure, and no counts are reported. *)
Theorem indexAllCases_aborts_on_first_failure :
  let p := snd (AdminVectorDB.indexAllCases first_fails panel0) in
  status p = StatusError
  /\ requests p = [js "case-1"]
  /\ message p = js "Failed to index cases: Failed to index case: 500"
  /\ progress p = {| current := 0; total := 2 |}
  /\ indexing p = false.
Proof. vm_compute. repeat split. Qed.

(** The same corpus with the client-side version: both cases are sent, one
    success and one failure are reported. *)
Lemma client_indexAllCases_continues :
  let p := snd (AdminVectorDBClient.indexAllCases first_fails panel0) in
  status p = StatusSuccess
  /\ requests p = [js "case-1"; js "case-2"]
  /\ message p = AdminVectorDBClient.completeMessage 1 1 2.
Proof.
  destruct (client_indexAllCases_completes first_fails [case1; case2] panel0
              eq_refl eq_refl) as (_ & Hst & Hmsg & _ & _ & _ & Hreq & _).
  split; [exact Hst|]. split; [exact Hreq|]. exact Hmsg.
Qed.

End IndexerExamples.

(* ===================================================================== *)
(** * More on the feedback service *)
(* ===================================================================== *)

Module FeedbackMore.
Import FeedbackService FeedbackFacts FeedbackStates.

Lemma getFeedbackForAnswer_lookup env aid w :
  getFeedbackForAnswer env aid w = (Returns (found env w aid), w).
Proof. apply getFeedbackForAnswer_run. Qed.

(** The model call, case by case. *)
Lemma generateInsights_run env qt qd ua w :
  GeminiService.generateInsightsForAnswer env qt qd ua w =
    match apiKey env with
    | [] => (Throws noKey, w)
    | _ :: _ =>
        match modelText env with
        | Some text => (Returns text, afterRequest w)
        | None => (Throws generationFailed, afterRequest w)
        end
    end.
Proof.
  unfold modelText. unfold_service.
  destruct (apiKey env); [reflexivity|]. simpl.
  destruct (gemini env) as [| | |[[|]|]]; reflexivity.
Qed.

Lemma canRequestFeedback_run env uid email w :
  exists c, canRequestFeedback env uid email w = (Returns c, w)
            /\ allowed c = negb (quotaDenies env uid email w)
            /\ (allowed c = false -> message c = Some limitMessage).
Proof.
  unfold quotaDenies, used. unfold_service.
  destruct (isUserAdmin email); simpl;
    [eexists; split; [reflexivity|]; split; [reflexivity|done]|].
  destruct (fault env ReadLimit); simpl;
    [eexists; split; [reflexivity|]; split; [reflexivity|done]|].
  destruct (dailyLimits w !! limitDocId env uid) as [data|]; simpl.
  - destruct (Z.max 0 (DAILY_LIMIT - requestCount data) <=? 0) eqn:E;
      eexists; (split; [reflexivity|]); simpl; (split; [|done]).
    + apply Z.leb_le in E. symmetry. apply negb_false_iff, Z.leb_le. lia.
    + apply Z.leb_gt in E. symmetry. apply negb_true_iff, Z.leb_gt. lia.
  - eexists; split; [reflexivity|]; split; [reflexivity|done].
Qed.

(** [generateFeedback] takes the steps of the table. *)
Lemma generateFeedback_pipeline env aid uid email qid qt qd ua w :
  generateFeedback env aid uid email qid qt qd ua w
  = pipeline env aid uid email qid qt ua w.
Proof.
  unfold generateFeedback, pipeline, bind at 1.
  rewrite getFeedbackForAnswer_lookup.
  destruct (found env w aid) as [d|]; [reflexivity|].
  unfold bind at 1.
  destruct (canRequestFeedback_run env uid email w) as (c & -> & Hal & Hmsg).
  rewrite Hal. destruct (quotaDenies env uid email w); simpl.
  { rewrite Hmsg, deny_message by (by rewrite Hal). reflexivity. }
  destruct (JS.len (JS.trim ua) <? 50); [reflexivity|].
  unfold try_catch, bind at 1. rewrite generateInsights_run.
  destruct (apiKey env) as [|k ks]; [reflexivity|].
  destruct (modelText env) as [text|]; [|reflexivity].
  unfold persist, afterCharge, chargedDoc, afterStore, afterRequest,
    storedRecord, returnedRecord.
  unfold_service.
  destruct (isUserAdmin email); simpl.
  - destruct (fault env AddFeedback); reflexivity.
  - destruct (fault env ReadLimitForIncrement); simpl; [reflexivity|].
    destruct (dailyLimits w !! chargeDocId env uid); simpl;
      (destruct (fault env WriteLimit); simpl; [reflexivity|]);
      destruct (fault env AddFeedback); reflexivity.
Qed.


Lemma used_afterStore d w k : used (afterStore d w) k = used w k.
Proof. reflexivity. Qed.

Lemma used_chargedDoc env uid w :
  requestCount (chargedDoc env uid w) = used w (chargeDocId env uid) + 1.
Proof.
  unfold chargedDoc, used. destruct (dailyLimits w !! chargeDocId env uid); reflexivity.
Qed.

Lemma used_afterCharge env uid email w k :
  used (afterCharge env uid email w) k
  = if isUserAdmin email then used w k
    else if decide (k = chargeDocId env uid) then used w k + 1 else used w k.
Proof.
  unfold afterCharge. destruct (isUserAdmin email); [reflexivity|].
  unfold used at 1; simpl. case_decide as Hk.
  - subst k. rewrite lookup_insert_eq. simpl. apply used_chargedDoc.
  - by rewrite lookup_insert_ne.
Qed.

Lemma aiFeedback_afterCharge env uid email w :
  aiFeedback (afterCharge env uid email w) = aiFeedback w.
Proof. unfold afterCharge. by destruct (isUserAdmin email). Qed.

Lemma geminiRequests_afterCharge env uid email w :
  geminiRequests (afterCharge env uid email w) = geminiRequests w.
Proof. unfold afterCharge. by destruct (isUserAdmin email). Qed.



Ltac run_pipeline :=
  rewrite generateFeedback_pipeline; unfold pipeline, persist;
  repeat case_match; simpl.

(** X1. Admin bypass: for an admin address, whatever its letter case, the
    stats report 999 remaining and the quota check allows, whatever count is
    stored and whether or not the store can be read (it is not read); and no
    call of [generateFeedback] by an admin changes any stored count. *)
Theorem admin_bypasses_quota
    (env : Env) (w : World) (uid : jsstring) (email : option jsstring)
    (Hadmin : isUserAdmin email = true) :
  getUserDailyStats env uid email w
    = (Returns {| totalRequests := 0; remainingToday := 999; lastRequestDate := None |}, w)
  /\ canRequestFeedback env uid email w
     = (Returns {| allowed := true; remaining := 999; message := None |}, w)
  /\ forall aid qid qt qd ua,
       dailyLimits (snd (generateFeedback env aid uid email qid qt qd ua w))
       = dailyLimits w.
Proof.
  split; [|split].
  - unfold_service. by rewrite Hadmin.
  - unfold_service. by rewrite Hadmin.
  - intros. rewrite generateFeedback_pipeline. unfold pipeline, persist, quotaDenies.
    rewrite Hadmin. simpl. repeat case_match; reflexivity.
Qed.

(** X2. The quota decision: for a user who is no admin and whose count is
    read, the stats report the stored count (0 without a document) and
    remaining = max(0, 3 - count); the request is allowed exactly when the
    count is below 3, and the remaining number the check reports is the same
    max(0, 3 - count). *)
Theorem quota_decision
    (env : Env) (w : World) (uid : jsstring) (email : option jsstring)
    (Hnotadmin : isUserAdmin email = false)
    (Hread : fault env ReadLimit = None) :
  exists s c,
    getUserDailyStats env uid email w = (Returns s, w)
    /\ totalRequests s = used w (limitDocId env uid)
    /\ remainingToday s = Z.max 0 (DAILY_LIMIT - used w (limitDocId env uid))
    /\ canRequestFeedback env uid email w = (Returns c, w)
    /\ (allowed c = true <-> used w (limitDocId env uid) < DAILY_LIMIT)
    /\ remaining c = Z.max 0 (DAILY_LIMIT - used w (limitDocId env uid)).
Proof.
  unfold used. unfold_service. rewrite Hnotadmin, Hread. simpl.
  destruct (dailyLimits w !! limitDocId env uid) as [data|]; simpl.
  - destruct (Z.max 0 (DAILY_LIMIT - requestCount data) <=? 0) eqn:E;
      eexists _, _; (split; [reflexivity|]); (split; [reflexivity|]);
      (split; [reflexivity|]); (split; [reflexivity|]); simpl.
    + apply Z.leb_le in E. split; [|lia]. split; [done|]. intros. lia.
    + apply Z.leb_gt in E. split; [|lia]. split; [|done]. intros. lia.
  - eexists _, _. do 4 (split; [reflexivity|]). unfold DAILY_LIMIT.
    split; [|reflexivity]. split; [lia|done].
Qed.


(** X4. Failing open can grant beyond the limit: when the read of the count
    rejects for a user who is no admin, the request is let through whatever
    count is stored, and a generation that then succeeds raises the stored
    count of the day that is charged by one, also from 3 or more. *)
Theorem fail_open_grants_beyond_limit
    (env : Env) (w : World) (aid uid : jsstring) (email : option jsstring)
    (qid qt qd ua : jsstring) (e : exn) (text : jsstring)
    (Hnotadmin : isUserAdmin email = false)
    (Hfault : fault env ReadLimit = Some e)
    (Hincr : fault env ReadLimitForIncrement = None)
    (Hwrite : fault env WriteLimit = None)
    (Hadd : fault env AddFeedback = None)
    (Hnone : found env w aid = None)
    (Hlong : 50 <= JS.len (JS.trim ua))
    (Hmodel : modelText env = Some text) :
  exists w',
    generateFeedback env aid uid email qid qt qd ua w
      = (Returns (returnedRecord env aid uid qid qt ua text), w')
    /\ used w' (chargeDocId env uid) = used w (chargeDocId env uid) + 1.
Proof.
  rewrite generateFeedback_pipeline. unfold pipeline, persist, quotaDenies.
  rewrite Hnone, Hnotadmin, Hfault, Hmodel, Hincr, Hwrite, Hadd. simpl.
  destruct (JS.len (JS.trim ua) <? 50) eqn:E; [apply Z.ltb_lt in E; lia|].
  destruct (apiKey env) eqn:Hkey; [by unfold modelText in Hmodel; rewrite Hkey in Hmodel|].
  eexists. split; [reflexivity|].
  rewrite used_afterStore, used_afterCharge, Hnotadmin. by case_decide.
Qed.

(** X5. The count is charged before the record is written: when the write of
    the record rejects after everything else worked, the call throws the
    store's error and no record is stored, but the user's count for the day
    has grown by one and one request has been sent to the model. *)
Theorem persist_failure_keeps_charge
    (env : Env) (w : World) (aid uid : jsstring) (email : option jsstring)
    (qid qt qd ua : jsstring) (e : exn) (text : jsstring)
    (Hnotadmin : isUserAdmin email = false)
    (Hquota : quotaDenies env uid email w = false)
    (Hincr : fault env ReadLimitForIncrement = None)
    (Hwrite : fault env WriteLimit = None)
    (Hadd : fault env AddFeedback = Some e)
    (Hnone : found env w aid = None)
    (Hlong : 50 <= JS.len (JS.trim ua))
    (Hmodel : modelText env = Some text) :
  exists w',
    generateFeedback env aid uid email qid qt qd ua w = (Throws e, w')
    /\ aiFeedback w' = aiFeedback w
    /\ used w' (chargeDocId env uid) = used w (chargeDocId env uid) + 1
    /\ geminiRequests w' = S (geminiRequests w).
Proof.
  rewrite generateFeedback_pipeline. unfold pipeline, persist.
  rewrite Hnone, Hquota, Hnotadmin, Hmodel, Hincr, Hwrite, Hadd.
  destruct (JS.len (JS.trim ua) <? 50) eqn:E; [apply Z.ltb_lt in E; lia|].
  destruct (apiKey env) eqn:Hkey; [by unfold modelText in Hmodel; rewrite Hkey in Hmodel|].
  eexists. split; [reflexivity|].
  rewrite used_afterCharge, Hnotadmin. unfold afterCharge. rewrite Hnotadmin. simpl.
  repeat split. by case_decide.
Qed.

(** X6. A lookup that rejects is taken for "no record": when the query for
    existing feedback rejects and the call succeeds, it has generated and
    stored a new record, so the answer has one record more than before, also
    when it had some already. *)
Theorem failed_lookup_stores_another_record
    (env : Env) (w : World) (aid uid : jsstring) (email : option jsstring)
    (qid qt qd ua : jsstring) (e : exn) (r : AIFeedback)
    (Hfault : fault env QueryFeedback = Some e)
    (Hok : fst (generateFeedback env aid uid email qid qt qd ua w) = Returns r) :
  let w' := snd (generateFeedback env aid uid email qid qt qd ua w) in
  exists d,
    aiFeedback w' = aiFeedback w ++ [d]
    /\ recordsFor w' aid = recordsFor w aid ++ [d]
    /\ id d = autoId env /\ id r = autoId env
    /\ geminiRequests w' = S (geminiRequests w).
Proof.
  revert Hok. rewrite generateFeedback_pipeline. unfold pipeline, persist, found.
  rewrite Hfault.
  repeat case_match; simpl; try discriminate; intros [= <-];
    rewrite ?aiFeedback_afterCharge, ?geminiRequests_afterCharge; simpl;
    (eexists; split; [reflexivity|]);
    (split; [|by repeat split]);
    unfold recordsFor; simpl; rewrite ?aiFeedback_afterCharge; simpl;
    rewrite filter_app, filter_cons, filter_nil; simpl;
    (case_decide as Hd; [reflexivity|]); exfalso; apply Hd; by apply JS_eqb_eq.
Qed.

(** X7. The errors of [generateFeedback]: a call that throws throws the quota
    message, the too-short message, one of the two messages of the model call
    (whatever made the model call fail), or the error with which the store
    rejected the read or write of the count or the write of the record.  The
    errors of the lookup and of the quota read are never thrown. *)
Theorem generateFeedback_errors
    (env : Env) (w : World) (aid uid : jsstring) (email : option jsstring)
    (qid qt qd ua : jsstring) :
  match fst (generateFeedback env aid uid email qid qt qd ua w) with
  | Returns _ => True
  | Throws e =>
      e = Error limitMessage \/ e = Error tooShort
      \/ e = noKey \/ e = generationFailed
      \/ fault env ReadLimitForIncrement = Some e
      \/ fault env WriteLimit = Some e
      \/ fault env AddFeedback = Some e
  end.
Proof.
  rewrite generateFeedback_pipeline. unfold pipeline, persist.
  repeat case_match; simpl in *; simplify_eq; auto 10.
Qed.

(** X8. Records are only ever added: after any call of [generateFeedback] the
    collection is the one before, or the one before with one record for the
    requested answer and user at its end; at most one request went to the
    model; the counts of other user-days are untouched and the user's own
    count grew by at most one. *)
Theorem generateFeedback_append_only
    (env : Env) (w : World) (aid uid : jsstring) (email : option jsstring)
    (qid qt qd ua : jsstring) :
  let w' := snd (generateFeedback env aid uid email qid qt qd ua w) in
  (aiFeedback w' = aiFeedback w
   \/ exists d, aiFeedback w' = aiFeedback w ++ [d]
                /\ answerId d = aid /\ userId d = uid /\ userAnswer d = ua)
  /\ (geminiRequests w <= geminiRequests w' <= S (geminiRequests w))%nat
  /\ (forall k, k <> chargeDocId env uid -> dailyLimits w' !! k = dailyLimits w !! k)
  /\ used w (chargeDocId env uid) <= used w' (chargeDocId env uid)
     <= used w (chargeDocId env uid) + 1.
Proof.
  rewrite generateFeedback_pipeline. unfold pipeline, persist, afterCharge.
  repeat case_match; simpl;
    (split; [first [by left | right; eexists; by repeat split]|]);
    (split; [simpl; lia|]);
    (split; [intros k Hk; first [reflexivity | by rewrite lookup_insert_ne]|]);
    unfold used; simpl; rewrite ?lookup_insert_eq; simpl;
    rewrite ?used_chargedDoc; unfold used; simpl; lia.
Qed.

(** X9. Stored feedback stays consistent with its raw text: if every stored
    record carries the parse of its own content, so does every record after
    a call of [generateFeedback], and so does the record the call returns. *)
Theorem generateFeedback_keeps_wellParsed
    (env : Env) (w : World) (aid uid : jsstring) (email : option jsstring)
    (qid qt qd ua : jsstring)
    (Hinv : wellParsed w) :
  wellParsed (snd (generateFeedback env aid uid email qid qt qd ua w))
  /\ match fst (generateFeedback env aid uid email qid qt qd ua w) with
     | Returns r =>
         parsed (feedback r) = Parser.parseFeedbackContent (content (feedback r))
     | Throws _ => True
     end.
Proof.
  assert (Hfound : forall d, found env w aid = Some d ->
            parsed (feedback d) = Parser.parseFeedbackContent (content (feedback d))).
  { unfold found. destruct (fault env QueryFeedback); [done|]. intros d Hd.
    unfold wellParsed in Hinv. rewrite Forall_forall in Hinv. apply Hinv.
    apply head_Some_elem_of in Hd. unfold recordsFor in Hd.
    by apply list_elem_of_filter in Hd as [_ ?]. }
  rewrite generateFeedback_pipeline. unfold pipeline, persist, wellParsed in *.
  split.
  - repeat case_match; simpl; rewrite ?aiFeedback_afterCharge; simpl; try done;
      apply Forall_app; split; try done; by repeat constructor.
  - repeat case_match; simpl in *; simplify_eq; auto.
Qed.

(** X10. The day's document is created with the first charge: when a user who
    is no admin gets a new record stored, the document of the user's day now
    holds the count one above the former one (1 when there was no document,
    with the user id and the date read at the charge; an existing document
    keeps its user id and date) and the server's time of the request. *)
Theorem charge_writes_day_document
    (env : Env) (w : World) (aid uid : jsstring) (email : option jsstring)
    (qid qt qd ua : jsstring)
    (Hnotadmin : isUserAdmin email = false)
    (Hnew : aiFeedback (snd (generateFeedback env aid uid email qid qt qd ua w))
            <> aiFeedback w) :
  dailyLimits (snd (generateFeedback env aid uid email qid qt qd ua w))
    !! chargeDocId env uid
  = Some match dailyLimits w !! chargeDocId env uid with
         | Some data =>
             {| dl_userId := dl_userId data; dl_date := dl_date data;
                requestCount := requestCount data + 1;
                lastRequestAt := Some (ServerTimestamp (serverNow env)) |}
         | None =>
             {| dl_userId := uid; dl_date := todayAtCharge env; requestCount := 1;
                lastRequestAt := Some (ServerTimestamp (serverNow env)) |}
         end.
Proof.
  revert Hnew. rewrite generateFeedback_pipeline.
  unfold pipeline, persist, afterCharge. rewrite Hnotadmin.
  repeat case_match; simpl; try done; intros _;
    rewrite lookup_insert_eq; unfold chargedDoc; simpl;
    by repeat case_match; simplify_eq.
Qed.

End FeedbackMore.

Module FeedbackMoreExamples.
Import FeedbackService FeedbackFacts FeedbackStates FeedbackMore Samples MoreSamples.

Lemma admin_bypasses_quota_witness :
  isUserAdmin admin_mail = true
  /\ canRequestFeedback env_store_down user admin_mail w_at_limit
     = (Returns {| allowed := true; remaining := 999; message := None |}, w_at_limit).
Proof.
  split; [reflexivity|].
  apply (admin_bypasses_quota env_store_down w_at_limit user admin_mail eq_refl).
Defined.

Lemma quota_decision_witness :
  exists c,
    canRequestFeedback env_ok user mail w_one_used = (Returns c, w_one_used)
    /\ allowed c = true /\ remaining c = 2.
Proof.
  destruct (quota_decision env_ok w_one_used user mail eq_refl eq_refl)
    as (s & c & _ & _ & _ & Hc & Hal & Hrem).
  exists c. split; [exact Hc|]. split; [|exact Hrem].
  apply Hal. reflexivity.
Defined.



(** Over midnight the check reads the document of one day and the charge
    writes the document of the next. *)
Example charge_after_midnight :
  let w' := snd (generateFeedback env_midnight answer1 user mail question1 case_title
                   case_text long_answer w_two_used) in
  used w' (limitDocId env_midnight user) = 2
  /\ used w' (chargeDocId env_midnight user) = 1
  /\ length (aiFeedback w') = 1%nat.
Proof. vm_compute. repeat split. Qed.

Lemma fail_open_grants_beyond_limit_witness :
  exists w',
    generateFeedback env_store_down answer1 user mail question1 case_title
      case_text long_answer w_at_limit
    = (Returns (returnedRecord env_store_down answer1 user question1 case_title
                  long_answer numbered_text), w')
    /\ used w' (chargeDocId env_store_down user) = 4.
Proof.
  destruct (fail_open_grants_beyond_limit env_store_down w_at_limit answer1 user mail
              question1 case_title case_text long_answer unavailable numbered_text
              eq_refl eq_refl eq_refl eq_refl eq_refl eq_refl
              ltac:(vm_compute; discriminate) eq_refl)
    as (w' & Hrun & Hused).
  exists w'. split; [exact Hrun|]. rewrite Hused. reflexivity.
Defined.

Lemma persist_failure_keeps_charge_witness :
  exists w',
    generateFeedback env_add_down answer1 user mail question1 case_title
      case_text long_answer w_one_used = (Throws unavailable, w')
    /\ aiFeedback w' = []
    /\ used w' (chargeDocId env_add_down user) = 2.
Proof.
  destruct (persist_failure_keeps_charge env_add_down w_one_used answer1 user mail
              question1 case_title case_text long_answer unavailable numbered_text
              eq_refl eq_refl eq_refl eq_refl eq_refl eq_refl
              ltac:(vm_compute; discriminate) eq_refl)
    as (w' & Hrun & Hfb & Hused & _).
  exists w'. split; [exact Hrun|]. split; [exact Hfb|]. rewrite Hused. reflexivity.
Defined.

Lemma failed_lookup_stores_another_record_witness :
  length (recordsFor (snd (generateFeedback env_lookup_down answer1 user mail
                             question1 case_title case_text long_answer w_answered))
                     answer1) = 2%nat.
Proof.
  destruct (failed_lookup_stores_another_record env_lookup_down w_answered answer1
              user mail question1 case_title case_text long_answer unavailable
              (returnedRecord env_lookup_down answer1 user question1 case_title
                 long_answer numbered_text)
              eq_refl ltac:(vm_compute; reflexivity))
    as (d & _ & Hrec & _).
  rewrite Hrec, length_app. reflexivity.
Defined.

Lemma generateFeedback_keeps_wellParsed_witness :
  wellParsed (snd first_call).
Proof.
  apply (generateFeedback_keeps_wellParsed env_ok w_empty answer1 user mail question1
           case_title case_text long_answer (Forall_nil_2 _)).
Defined.

Lemma charge_writes_day_document_witness :
  dailyLimits (snd first_call) !! chargeDocId env_ok user
  = Some {| dl_userId := user; dl_date := js "2024-06-01"; requestCount := 1;
            lastRequestAt := Some (ServerTimestamp 1717236000250) |}.
Proof.
  apply (charge_writes_day_document env_ok w_empty answer1 user mail question1
           case_title case_text long_answer eq_refl).
  vm_compute. discriminate.
Defined.

End FeedbackMoreExamples.

(* ===================================================================== *)
(** * More on the similar-cases cache of the component *)
(* ===================================================================== *)

Module CacheMore.
Import SimilarCases CacheStatements CacheFacts.

(** The state shown after a lookup that ended without an error. *)
Lemma fetch_hit env find qid b c :
  similarCasesCache b !! qid = Some c ->
  now_try env - timestamp c < CACHE_DURATION ->
  fetchSimilarCasesWith env find qid b
  = (Returns tt,
     {| similarCasesCache := similarCasesCache b; localStorage := localStorage b;
        similarCases := data c; loading := false; error := None |}).
Proof.
  intros Hc Hfresh. apply Z.ltb_lt in Hfresh. unfold_component. simpl.
  rewrite Hc, Hfresh. reflexivity.
Qed.

(** X11. A fresh entry of the memory tier answers the lookup: when the module
    cache holds an entry for the case that is younger than 24 hours, the
    component shows that entry's list with no error, whatever the service
    would answer (the service is not called), and neither cache tier changes. *)
Theorem memory_hit_skips_remote
    (env : BrowserEnv) (qid : jsstring) (b : Browser) (c : CacheEntry)
    (Hentry : similarCasesCache b !! qid = Some c)
    (Hfresh : now_try env - timestamp c < CACHE_DURATION) :
  forall find find' : M Browser json,
    fetchSimilarCasesWith env find qid b = fetchSimilarCasesWith env find' qid b
    /\ fst (fetchSimilarCasesWith env find qid b) = Returns tt
    /\ similarCases (snd (fetchSimilarCasesWith env find qid b)) = data c
    /\ error (snd (fetchSimilarCasesWith env find qid b)) = None
    /\ loading (snd (fetchSimilarCasesWith env find qid b)) = false
    /\ similarCasesCache (snd (fetchSimilarCasesWith env find qid b))
       = similarCasesCache b
    /\ localStorage (snd (fetchSimilarCasesWith env find qid b)) = localStorage b.
Proof.
  intros find find'. rewrite !(fetch_hit env _ qid b c Hentry Hfresh). by repeat split.
Qed.

(** X12. A result is served from memory for 24 hours: after a lookup that
    missed the memory tier and got the list [v] from the service at time t, a
    second lookup for the same case at a time less than 24 hours after t
    shows [v] again whatever the service would answer now. *)
Theorem second_lookup_within_ttl_is_cached
    (env env2 : BrowserEnv) (find find2 : M Browser json) (qid : jsstring)
    (b : Browser) (v : json)
    (Hmiss : memoryMiss env b qid)
    (Hfind : forall s, find s = (Returns v, s))
    (Hsoon : now_try env2 - now_try env < CACHE_DURATION) :
  let b1 := snd (fetchSimilarCasesWith env find qid b) in
  let b2 := snd (fetchSimilarCasesWith env2 find2 qid b1) in
  similarCases b1 = v /\ similarCases b2 = v /\ error b2 = None
  /\ similarCasesCache b2 = similarCasesCache b1
  /\ localStorage b2 = localStorage b1.
Proof.
  intros b1 b2. subst b1 b2.
  rewrite (fetch_after_miss env find qid b v Hmiss Hfind). simpl.
  rewrite (fetch_hit env2 find2 qid _ {| data := v; timestamp := now_try env |});
    simpl; [by repeat split | by rewrite lookup_insert_eq | exact Hsoon].
Qed.

(** X13. A lookup that misses the memory tier goes to the service without
    reading the durable tier: the list the service returns is shown, with no
    error, whatever the durable tier holds, and is stored with the time of
    the call in the memory tier and in the durable tier; when the durable
    write throws, that tier is left as it was and the lookup still succeeds. *)
Theorem miss_fetches_and_fills_both_tiers
    (env : BrowserEnv) (find : M Browser json) (qid : jsstring)
    (b : Browser) (v : json)
    (Hmiss : memoryMiss env b qid)
    (Hfind : forall s, find s = (Returns v, s)) :
  let b' := snd (fetchSimilarCasesWith env find qid b) in
  fst (fetchSimilarCasesWith env find qid b) = Returns tt
  /\ similarCases b' = v /\ error b' = None /\ loading b' = false
  /\ similarCasesCache b' !! qid = Some {| data := v; timestamp := now_try env |}
  /\ (forall q, q <> qid -> similarCasesCache b' !! q = similarCasesCache b !! q)
  /\ (if setItemFails env then localStorage b' = localStorage b
      else localStorage b' !! storageKey qid
           = Some (Some {| data := v; timestamp := now_try env |})
           /\ forall k, k <> storageKey qid -> localStorage b' !! k = localStorage b !! k).
Proof.
  intros b'. subst b'. rewrite (fetch_after_miss env find qid b v Hmiss Hfind). simpl.
  do 4 (split; [reflexivity|]).
  split; [by rewrite lookup_insert_eq|].
  split; [by intros q Hq; rewrite lookup_insert_ne|].
  destruct (setItemFails env); [reflexivity|].
  split; [by rewrite lookup_insert_eq | by intros k Hk; rewrite lookup_insert_ne].
Qed.

(** X14. The fallback of the catch block: when the service call throws, the
    component shows the list of the durable entry exactly when the entry can
    be read and is younger than 24 hours (then with no error); in every other
    case (reading throws, no item, an item that is no entry, an entry of 24
    hours or more) the list shown is unchanged and the error message is set.
    Neither tier is written: the memory tier is not filled from the durable
    one. *)
Theorem fallback_uses_fresh_durable_entry_only
    (env : BrowserEnv) (find : M Browser json) (qid : jsstring)
    (b : Browser) (x : exn)
    (Hmiss : memoryMiss env b qid)
    (Hfind : forall s, find s = (Throws x, s)) :
  let b' := snd (fetchSimilarCasesWith env find qid b) in
  let usable :=
    match (if getItemFails env then None else localStorage b !! storageKey qid) with
    | Some (Some e) =>
        if now_catch env - timestamp e <? CACHE_DURATION then Some e else None
    | _ => None
    end in
  fst (fetchSimilarCasesWith env find qid b) = Returns tt
  /\ similarCases b' = from_option data (similarCases b) usable
  /\ error b' = match usable with Some _ => None | None => Some failedMessage end
  /\ loading b' = false
  /\ similarCasesCache b' = similarCasesCache b
  /\ localStorage b' = localStorage b.
Proof.
  intros b' usable. subst b' usable.
  rewrite (fetch_after_throw env find qid b x Hmiss Hfind). simpl.
  destruct (getItemFails env); simpl; [by repeat split|].
  destruct (localStorage b !! storageKey qid) as [[e|]|]; simpl; try by repeat split.
  destruct (now_catch env - timestamp e <? CACHE_DURATION); by repeat split.
Qed.

(** X15. The component always settles: for every behaviour of the service
    call (returning or throwing, with or without effects on the state), the
    lookup returns normally and ends with the loading flag off.  With the
    service of lib/vectordb.ts, which swallows every failure, it moreover
    never sets the error message. *)
Theorem fetchSimilarCases_always_settles
    (env : BrowserEnv) (qid qt qd : jsstring) (b : Browser) :
  (forall find : M Browser json,
     fst (fetchSimilarCasesWith env find qid b) = Returns tt
     /\ loading (snd (fetchSimilarCasesWith env find qid b)) = false)
  /\ (forall reply,
        fst (fetchSimilarCases env reply qid qt qd b) = Returns tt
        /\ loading (snd (fetchSimilarCases env reply qid qt qd b)) = false
        /\ error (snd (fetchSimilarCases env reply qid qt qd b)) = None).
Proof.
  split.
  - intros find. unfold_component. simpl.
    destruct (similarCasesCache b !! qid) as [c|];
      [destruct (now_try env - timestamp c <? CACHE_DURATION); [done|]|];
      (destruct (find _) as [[v|x] b1]; simpl;
       [destruct (setItemFails env); done|];
       destruct (getItemFails env); simpl; [done|];
       destruct (localStorage b1 !! storageKey qid) as [[e|]|]; simpl; try done;
       by destruct (now_catch env - timestamp e <? CACHE_DURATION)).
  - intros reply.
    destruct (ClientFacts.findSimilarCases_returns (St := Browser) reply qid qt qd 5
                {| similarCasesCache := similarCasesCache b;
                   localStorage := localStorage b; similarCases := similarCases b;
                   loading := true; error := None |}) as [v Hv].
    unfold fetchSimilarCases. unfold_component. simpl.
    destruct (similarCasesCache b !! qid) as [c|];
      [destruct (now_try env - timestamp c <? CACHE_DURATION); [done|]|];
      (unfold try_catch, bind, ret, throw in Hv; rewrite Hv; simpl;
       by destruct (setItemFails env)).
Qed.

End CacheMore.

Module CacheMoreExamples.
Import SimilarCases CacheStatements CacheFacts CacheMore Samples CacheSamples.

Lemma memory_hit_skips_remote_witness :
  similarCases (snd (fetchSimilarCasesWith one_hour_later failing_find (js "case-1")
                       browser_warm)) = stale_list.
Proof.
  apply (memory_hit_skips_remote one_hour_later (js "case-1") browser_warm stale_entry
           eq_refl eq_refl failing_find failing_find).
Defined.

Lemma second_lookup_within_ttl_is_cached_witness :
  similarCases
    (snd (fetchSimilarCasesWith two_days_and_a_minute_later failing_find (js "case-1")
            (snd (fetchSimilarCasesWith two_days_later (ret fresh_list) (js "case-1")
                    browser0)))) = fresh_list.
Proof.
  apply (second_lookup_within_ttl_is_cached two_days_later two_days_and_a_minute_later
           (ret fresh_list) failing_find (js "case-1") browser0 fresh_list
           I (fun s => eq_refl) eq_refl).
Defined.

Lemma miss_fetches_and_fills_both_tiers_witness :
  localStorage (snd (fetchSimilarCasesWith two_days_later (ret fresh_list)
                       (js "case-1") browser0)) !! storageKey (js "case-1")
  = Some (Some {| data := fresh_list; timestamp := 2 * CACHE_DURATION |}).
Proof.
  apply (miss_fetches_and_fills_both_tiers two_days_later (ret fresh_list)
           (js "case-1") browser0 fresh_list I (fun s => eq_refl)).
Defined.

Lemma fallback_uses_fresh_durable_entry_only_witness :
  similarCases (snd (fetchSimilarCasesWith one_hour_later failing_find (js "case-1")
                       browser0)) = stale_list
  /\ error (snd (fetchSimilarCasesWith two_days_later failing_find (js "case-1")
                   browser0)) = Some failedMessage.
Proof.
  split.
  - apply (fallback_uses_fresh_durable_entry_only one_hour_later failing_find
             (js "case-1") browser0 (Error (js "Failed to fetch")) I (fun s => eq_refl)).
  - apply (fallback_uses_fresh_durable_entry_only two_days_later failing_find
             (js "case-1") browser0 (Error (js "Failed to fetch")) I (fun s => eq_refl)).
Defined.

End CacheMoreExamples.

(* ===================================================================== *)
(** * More on the two API routes *)
(* ===================================================================== *)

Module ApiMore.
Import SimilarCasesApi ApiFacts.

(** A body that can be destructured is handled by the handler on its
    fields. *)
Lemma similarCases_object svc (req : ApiEntry.Incoming Body) b :
  ApiEntry.in_body req = Some b ->
  ApiEntry.similarCases svc req
  = Returns (handler svc {| method := ApiEntry.in_method req; body := b |}).
Proof.
  intros Hb. unfold ApiEntry.similarCases, handler. rewrite Hb. cbn [method body].
  by destruct (JS.eqb (ApiEntry.in_method req) (js "POST")).
Qed.

(** X16. The similar-cases route settles a bad request before it calls
    anything: a request that is not a POST is answered 405 whatever its
    body; a POST whose body is null or undefined is not answered at all,
    the handler throws, because the body is destructured before the try;
    a POST whose body lacks a question id, title or description (missing or
    empty) is answered 400.  In each case the outcome is the same whatever
    the embedding service and the index would do. *)
Theorem handler_rejects_before_remote_calls
    (svc svc' : Services) (req : ApiEntry.Incoming Body)
    (Hbad : JS.eqb (ApiEntry.in_method req) (js "POST") = false
            \/ ApiEntry.in_body req = None
            \/ exists b, ApiEntry.in_body req = Some b
                         /\ (truthy (questionId b) = None
                             \/ truthy (title b) = None
                             \/ truthy (description b) = None)) :
  ApiEntry.similarCases svc req = ApiEntry.similarCases svc' req
  /\ ApiEntry.similarCases svc req
     = if JS.eqb (ApiEntry.in_method req) (js "POST")
       then match ApiEntry.in_body req with
            | None => Throws ApiEntry.destructuringError
            | Some _ =>
                Returns {| status := 400;
                           payload := ErrorBody (js "Missing required fields") |}
            end
       else Returns {| status := 405; payload := ErrorBody (js "Method not allowed") |}.
Proof.
  unfold ApiEntry.similarCases.
  destruct (JS.eqb (ApiEntry.in_method req) (js "POST")) eqn:Hm; cbn [negb]; [|done].
  destruct Hbad as [|[Hnull|(b & Hb & Hmiss)]]; [done| |].
  - by rewrite Hnull.
  - rewrite Hb. unfold handler. cbn [method body]. rewrite Hm. cbn [negb].
    destruct Hmiss as [Hq|[Ht|Hd]].
    + by rewrite Hq.
    + rewrite Ht. by destruct (truthy (questionId b)).
    + rewrite Hd. by destruct (truthy (questionId b)), (truthy (title b)).
Qed.

(** X17. A failure of a remote service is answered 500 with a fixed message:
    for a well-formed POST, when the embedding call throws, or the index
    query throws, the answer is status 500 with "Failed to find similar
    cases", whatever was thrown. *)
Theorem handler_hides_remote_errors
    (svc : Services) (req : Request) (queried t d : jsstring) (e : exn)
    (Hpost : JS.eqb (method req) (js "POST") = true)
    (Hq : truthy (questionId (body req)) = Some queried)
    (Ht : truthy (title (body req)) = Some t)
    (Hd : truthy (description (body req)) = Some d)
    (Hfail : embeddings_create svc (t ++ [10%N; 10%N] ++ d) = Throws e
             \/ exists v, embeddings_create svc (t ++ [10%N; 10%N] ++ d) = Returns v
                          /\ index_query svc v (default 5 (topK (body req)) + 1)
                             = Throws e) :
  handler svc req
  = {| status := 500; payload := ErrorBody (js "Failed to find similar cases") |}.
Proof.
  unfold handler. rewrite Hpost, Hq, Ht, Hd. cbn [negb].
  destruct Hfail as [->|(v & -> & ->)]; reflexivity.
Qed.

Lemma nonself_count (queried : jsstring) (ms : list Match) :
  NoDup (map id ms) ->
  (length ms <= S (length (filter (fun m => JS.eqb (id m) queried = false) ms)))%nat.
Proof.
  induction ms as [|m ms IH]; intros Hnd; [simpl; lia|].
  simpl in Hnd. apply NoDup_cons in Hnd as [Hm Hnd].
  rewrite filter_cons. case_decide as Hself; simpl; [specialize (IH Hnd); lia|].
  (* the head is the queried case: no other match is *)
  assert (Hq : id m = queried).
  { apply JS_eqb_eq. by destruct (JS.eqb (id m) queried). }
  assert (Hall : filter (fun m => JS.eqb (id m) queried = false) ms = ms).
  { clear IH Hnd. induction ms as [|m' ms IH]; [done|].
    rewrite filter_cons. case_decide as Hm'.
    - f_equal. apply IH. intros Hin. apply Hm. simpl. apply elem_of_cons. by right.
    - exfalso. apply Hm. simpl. apply elem_of_cons. left.
      assert (id m' = queried)
        by (apply JS_eqb_eq; by destruct (JS.eqb (id m') queried)).
      congruence. }
  rewrite Hall. lia.
Qed.

(** X18. The answer keeps the ranking and fills the requested size: in a 200
    answer for a top-K that is not negative, the entries are the formatted
    matches of a sublist of the index's answer, in the index's order, and
    their number is the smaller of top-K and the number of matches that are
    not the queried case.  So when the index returns top-K plus one matches
    with distinct ids, exactly top-K entries are returned, whether or not the
    queried case was among them. *)
Theorem handler_keeps_order_and_count
    (svc : Services) (req : Request) (cs : list SimilarCase)
    (Hk : 0 <= default 5 (topK (body req)))
    (Hok : handler svc req = {| status := 200; payload := SimilarBody cs |}) :
  let k := default 5 (topK (body req)) in
  exists queried v ms kept,
    truthy (questionId (body req)) = Some queried
    /\ index_query svc v (k + 1) = Returns ms
    /\ cs = map format kept
    /\ kept `sublist_of` ms
    /\ Z.of_nat (length cs)
       = Z.min k (Z.of_nat (length (filter (fun m => JS.eqb (id m) queried = false) ms)))
    /\ (NoDup (map id ms) -> Z.of_nat (length ms) = k + 1 -> Z.of_nat (length cs) = k).
Proof.
  intros k.
  destruct (handler_200 _ _ _ Hok) as (queried & t & d & v & ms & Hq & _ & _ & _ & Hms & Hcs).
  fold k in Hms, Hcs.
  exists queried, v, ms, (others queried k ms).
  assert (Hlen : Z.of_nat (length cs)
            = Z.min k (Z.of_nat (length (filter (fun m => JS.eqb (id m) queried = false) ms)))).
  { rewrite Hcs, length_map. unfold others. rewrite slice0_take by done.
    rewrite length_take. lia. }
  split; [exact Hq|]. split; [exact Hms|]. split; [exact Hcs|].
  split.
  { unfold others. rewrite slice0_take by done.
    etrans; [apply sublist_take|apply sublist_filter]. }
  split; [exact Hlen|].
  intros Hnd Hsize. rewrite Hlen.
  pose proof (nonself_count queried ms Hnd).
  pose proof (length_filter (fun m => JS.eqb (id m) queried = false) ms). lia.
Qed.

End ApiMore.

Module ApiMoreExamples.
Import SimilarCasesApi ApiFacts ApiMore Samples ApiSamples.

Lemma handler_rejects_before_remote_calls_witness :
  ApiEntry.similarCases services incoming_untitled
    = Returns {| status := 400; payload := ErrorBody (js "Missing required fields") |}
  /\ ApiEntry.similarCases services_down incoming_null
     = Throws ApiEntry.destructuringError
  /\ ApiEntry.similarCases services_down incoming_get
     = Returns {| status := 405; payload := ErrorBody (js "Method not allowed") |}.
Proof.
  split; [|split].
  - apply (handler_rejects_before_remote_calls services services_down incoming_untitled).
    right. right. exists (body request_untitled). split; [reflexivity|].
    right. left. reflexivity.
  - apply (handler_rejects_before_remote_calls services_down services incoming_null).
    right. left. reflexivity.
  - apply (handler_rejects_before_remote_calls services_down services incoming_get).
    left. reflexivity.
Defined.

Lemma handler_hides_remote_errors_witness :
  handler services_down (request 2)
  = {| status := 500; payload := ErrorBody (js "Failed to find similar cases") |}.
Proof.
  apply (handler_hides_remote_errors services_down (request 2) (js "case-1")
           (js "Market entry") case_text (Error (js "429 quota"))
           eq_refl eq_refl eq_refl eq_refl (or_introl eq_refl)).
Defined.

(** Without a top-K the route asks the index for six and returns at most
    five: here the two other cases. *)
Lemma handler_default_top5 :
  handler services request_default
  = {| status := 200; payload := SimilarBody (map format (drop 1 neighbours)) |}.
Proof. vm_compute. reflexivity. Qed.

Lemma handler_keeps_order_and_count_witness :
  Z.of_nat (length (map format (drop 1 neighbours))) = 2.
Proof.
  destruct (handler_keeps_order_and_count services (request 2)
              (map format (drop 1 neighbours))
              ltac:(vm_compute; discriminate) ApiExamples.handler_top2)
    as (queried & v & ms & kept & Hq & Hms & _ & _ & _ & Hfull).
  injection Hms as <-.
  apply Hfull; [|reflexivity].
  apply (bool_decide_unpack _). vm_compute. exact I.
Defined.

End ApiMoreExamples.

Module IndexCaseMore.
Import IndexCaseApi.

Ltac unfold_route :=
  unfold handler, upsert, VectorDBService.lift, try_catch, bind, ret, throw, modify.

(** X19. Indexing a case writes one record under the case's id: for a
    well-formed POST without extra metadata, when the embedding and the write
    succeed, the route answers 200 with "Indexed case: " and the title, and
    the index then holds under the question id the embedding of title, blank
    line and the full description, with metadata carrying the question id,
    the title and the first 500 units of the description; every other record
    of the index is as before. *)
Theorem index_case_stores_vector
    (svc : Services) (req : Request) (qid t d : jsstring) (v : list Q)
    (idx : gmap (list N) Vector)
    (Hpost : JS.eqb (method req) (js "POST") = true)
    (Hq : SimilarCasesApi.truthy (questionId (body req)) = Some qid)
    (Ht : SimilarCasesApi.truthy (title (body req)) = Some t)
    (Hd : SimilarCasesApi.truthy (description (body req)) = Some d)
    (Hextra : metadata (body req) = None)
    (Hembed : embeddings_create svc (t ++ [10%N; 10%N] ++ d) = Returns v)
    (Hwrite : upsert_fault svc = None) :
  exists idx' rec,
    handler svc req idx
      = (Returns {| status := 200; payload := Indexed (js "Indexed case: " ++ t) |}, idx')
    /\ idx' !! qid = Some rec
    /\ values rec = v
    /\ SimilarCasesApi.md_questionId (stored rec) = qid
    /\ SimilarCasesApi.md_title (stored rec) = t
    /\ SimilarCasesApi.md_description (stored rec) = take 500 d
    /\ (length (SimilarCasesApi.md_description (stored rec)) <= 500)%nat
    /\ (forall k, k <> qid -> idx' !! k = idx !! k).
Proof.
  unfold_route. rewrite Hpost, Hq, Ht, Hd, Hextra. cbn [negb].
  rewrite Hembed, Hwrite. simpl.
  eexists _, _. split; [reflexivity|].
  split; [by rewrite lookup_insert_eq|]. simpl.
  do 4 (split; [reflexivity|]).
  split; [rewrite length_take; lia|].
  intros k Hk. by rewrite lookup_insert_ne.
Qed.

(** A body that can be destructured is handled by the handler on its
    fields. *)
Lemma indexCase_object svc (req : ApiEntry.Incoming Body) b idx :
  ApiEntry.in_body req = Some b ->
  ApiEntry.indexCase svc req idx
  = handler svc {| method := ApiEntry.in_method req; body := b |} idx.
Proof.
  intros Hb. unfold ApiEntry.indexCase, handler. rewrite Hb. cbn [method body].
  by destruct (JS.eqb (ApiEntry.in_method req) (js "POST")).
Qed.

(** What the handler does on the fields of a body: it returns one of four
    statuses, and writes only with status 200. *)
Lemma handler_statuses
    (svc : Services) (req : Request) (idx : gmap (list N) Vector) :
  exists resp,
    fst (handler svc req idx) = Returns resp
    /\ (status resp = 200 \/ status resp = 400 \/ status resp = 405 \/ status resp = 500)
    /\ (status resp <> 200 -> snd (handler svc req idx) = idx).
Proof.
  unfold_route. destruct (negb _); simpl; [eexists; split; [reflexivity|]; auto|].
  destruct (SimilarCasesApi.truthy (questionId (body req)));
    [|eexists; split; [reflexivity|]; auto].
  destruct (SimilarCasesApi.truthy (title (body req)));
    [|eexists; split; [reflexivity|]; auto].
  destruct (SimilarCasesApi.truthy (description (body req)));
    [|eexists; split; [reflexivity|]; auto].
  destruct (embeddings_create svc _); simpl;
    [|eexists; split; [reflexivity|]; auto].
  destruct (upsert_fault svc); simpl; eexists; (split; [reflexivity|]); simpl; auto.
  split; [auto|]. intros H. by destruct H.
Qed.

(** X20. The index-case route throws for one kind of request only, and only
    a 200 answer changes the index: a POST whose body is null or undefined
    makes the handler throw, because the body is destructured before the
    try, and nothing is written; for every other request and every behaviour
    of the two services the route returns a response with status 200, 400,
    405 or 500, and unless the status is 200 the index is the one before the
    call. *)
Theorem index_case_fails_without_writing
    (svc : Services) (req : ApiEntry.Incoming Body) (idx : gmap (list N) Vector) :
  match fst (ApiEntry.indexCase svc req idx) with
  | Throws e =>
      JS.eqb (ApiEntry.in_method req) (js "POST") = true
      /\ ApiEntry.in_body req = None
      /\ e = ApiEntry.destructuringError
      /\ snd (ApiEntry.indexCase svc req idx) = idx
  | Returns resp =>
      (JS.eqb (ApiEntry.in_method req) (js "POST") = false
       \/ ApiEntry.in_body req <> None)
      /\ (status resp = 200 \/ status resp = 400 \/ status resp = 405
          \/ status resp = 500)
      /\ (status resp <> 200 -> snd (ApiEntry.indexCase svc req idx) = idx)
  end.
Proof.
  destruct (ApiEntry.in_body req) as [b|] eqn:Hb.
  - rewrite (indexCase_object svc req b idx Hb).
    destruct (handler_statuses svc {| method := ApiEntry.in_method req; body := b |} idx)
      as (resp & -> & Hst & Hidx).
    split; [by right|]. by split.
  - unfold ApiEntry.indexCase. rewrite Hb.
    destruct (JS.eqb (ApiEntry.in_method req) (js "POST")) eqn:Hm; cbn [negb].
    + by repeat split.
    + split; [by left|]. split; [simpl; auto|done].
Qed.

Lemma handler_consistent
    (svc : Services) (req : Request) (idx : gmap (list N) Vector) :
  (forall x, metadata (body req) = Some x -> x_questionId x = None) ->
  consistent idx ->
  consistent (snd (handler svc req idx)).
Proof.
  intros Hextra Hc.
  unfold_route. destruct (negb _); simpl; [exact Hc|].
  destruct (SimilarCasesApi.truthy (questionId (body req))) as [qid|]; [|exact Hc].
  destruct (SimilarCasesApi.truthy (title (body req))) as [t|]; [|exact Hc].
  destruct (SimilarCasesApi.truthy (description (body req))) as [d|]; [|exact Hc].
  destruct (embeddings_create svc _); simpl; [|exact Hc].
  destruct (upsert_fault svc); simpl; [exact Hc|].
  intros k v. destruct (decide (k = qid)) as [->|Hk].
  - rewrite lookup_insert_eq. intros [= <-]. simpl.
    unfold spread. destruct (metadata (body req)) as [x|] eqn:Hx; [|reflexivity].
    simpl. by rewrite (Hextra x eq_refl).
  - rewrite lookup_insert_ne by done. apply Hc.
Qed.

(** X21. Indexing keeps the index consistent: if every record of the index
    carries its own id as question id in its metadata, it is still so after
    any call of the route whose extra metadata, if there are any, do not
    carry a question id of their own. *)
Theorem index_case_keeps_consistent
    (svc : Services) (req : Request) (idx : gmap (list N) Vector)
    (Hextra : forall x, metadata (body req) = Some x -> x_questionId x = None)
    (Hc : consistent idx) :
  consistent (snd (handler svc req idx)).
Proof. by apply handler_consistent. Qed.

(** X22. From indexing to lookup: over a consistent index, a 200 answer of
    the similar-cases route whose matches are records of the index contains
    no entry whose question id is the queried one. *)
Theorem consistent_index_never_returns_queried_case
    (idx : gmap (list N) Vector)
    (svc : SimilarCasesApi.Services) (req : SimilarCasesApi.Request)
    (cs : list SimilarCasesApi.SimilarCase) (queried : jsstring)
    (Hc : consistent idx)
    (Hdrawn : forall v k ms, SimilarCasesApi.index_query svc v k = Returns ms ->
                             drawnFrom idx ms)
    (Hq : SimilarCasesApi.truthy (SimilarCasesApi.questionId (SimilarCasesApi.body req))
          = Some queried)
    (Hok : SimilarCasesApi.handler svc req
           = {| SimilarCasesApi.status := 200;
                SimilarCasesApi.payload := SimilarCasesApi.SimilarBody cs |}) :
  Forall (fun c => SimilarCasesApi.sc_questionId c <> queried) cs.
Proof.
  destruct (ApiFacts.handler_200 _ _ _ Hok)
    as (queried' & t & d & v & ms & Hq' & _ & _ & _ & Hms & ->).
  rewrite Hq in Hq'. injection Hq' as <-.
  specialize (Hdrawn _ _ _ Hms). unfold drawnFrom in Hdrawn.
  rewrite Forall_forall in Hdrawn.
  apply Forall_map, Forall_forall. intros m Hm. simpl.
  pose proof (ApiFacts.others_not_queried queried
                (default 5 (SimilarCasesApi.topK (SimilarCasesApi.body req))) ms) as Hne.
  rewrite Forall_forall in Hne.
  destruct (Hdrawn m (ApiFacts.others_from_answer _ _ _ m Hm)) as (rec & Hrec & Hmeta).
  rewrite <- Hmeta, (Hc _ _ Hrec). by apply Hne.
Qed.

End IndexCaseMore.

Module IndexCaseExamples.
Import IndexCaseApi IndexCaseMore Samples ApiSamples.

Lemma empty_consistent : consistent ∅.
Proof. intros k v. by rewrite lookup_empty. Qed.

Lemma index_two_consistent : consistent index_two.
Proof.
  apply handler_consistent; [discriminate|].
  apply handler_consistent; [discriminate|]. apply empty_consistent.
Qed.

Lemma matches_of_drawn idx n : drawnFrom idx (take n (matches_of idx)).
Proof.
  apply Forall_take, Forall_map, Forall_forall. intros [k v] Hkv. simpl.
  exists v. split; [|reflexivity]. by apply elem_of_map_to_list.
Qed.

Lemma index_case_stores_vector_witness :
  exists rec,
    index_one !! js "case-1" = Some rec
    /\ SimilarCasesApi.md_questionId (stored rec) = js "case-1"
    /\ SimilarCasesApi.md_title (stored rec) = js "Market entry".
Proof.
  destruct (index_case_stores_vector index_services
              (index_request "case-1" "Market entry" case_text)
              (js "case-1") (js "Market entry") case_text [1%Q; 0%Q] ∅
              eq_refl eq_refl eq_refl eq_refl eq_refl eq_refl eq_refl)
    as (idx' & rec & Hrun & Hrec & _ & Hid & Htitle & _).
  exists rec. unfold index_one. rewrite Hrun. simpl. by repeat split.
Defined.

Lemma index_case_keeps_consistent_witness : consistent index_one.
Proof.
  apply (index_case_keeps_consistent index_services
           (index_request "case-1" "Market entry" case_text) ∅).
  - discriminate.
  - apply empty_consistent.
Defined.

(** Asked for the one nearest case of case-1 over the index of two. *)
Lemma lookup_over_index_two :
  exists cs,
    SimilarCasesApi.handler (backed_by index_two) (request 1)
    = {| SimilarCasesApi.status := 200;
         SimilarCasesApi.payload := SimilarCasesApi.SimilarBody cs |}.
Proof. vm_compute. eauto. Qed.

Lemma consistent_index_never_returns_queried_case_witness :
  exists cs,
    SimilarCasesApi.handler (backed_by index_two) (request 1)
    = {| SimilarCasesApi.status := 200;
         SimilarCasesApi.payload := SimilarCasesApi.SimilarBody cs |}
    /\ Forall (fun c => SimilarCasesApi.sc_questionId c <> js "case-1") cs.
Proof.
  destruct lookup_over_index_two as [cs Hcs]. exists cs. split; [exact Hcs|].
  apply (consistent_index_never_returns_queried_case index_two (backed_by index_two)
           (request 1) cs (js "case-1") index_two_consistent).
  - intros v k ms [= <-]. apply matches_of_drawn.
  - reflexivity.
  - exact Hcs.
Defined.

End IndexCaseExamples.

(* ===================================================================== *)
(** * More on the bulk indexer *)
(* ===================================================================== *)

Module IndexerMore.
Import PanelState IndexerFacts IndexerRuns.

Lemma indexCase_run env q p :
  indexCase env q p
  = (match indexError (indexReply env (q_id q)) with
     | Some e => Throws e
     | None => Returns tt
     end,
     {| indexing := indexing p; progress := progress p; status := status p;
        message := message p; requests := requests p ++ [q_id q] |}).
Proof.
  unfold indexCase, indexError, VectorDBService.indexCase, VectorDBService.fetch, sent,
    try_catch, bind, ret, throw, modify.
  by destruct (indexReply env (q_id q)) as [|[|] st body].
Qed.

(** The loop of src/components/AdminVectorDB.tsx from index [i] on. *)
Lemma abort_loop env n qs : forall i p,
  progress p = {| current := i; total := n |} ->
  AdminVectorDB.indexFrom env n i qs p
  = (match firstError env qs with
     | Some e => Throws e
     | None => Returns tt
     end,
     {| indexing := indexing p;
        progress := {| current := i + succeeded env qs; total := n |};
        status := status p; message := message p;
        requests := requests p ++ map q_id (attempted env qs) |}).
Proof.
  induction qs as [|q qs IH]; intros i p Hp.
  - simpl. unfold ret. rewrite app_nil_r, Z.add_0_r, <- Hp. by destruct p.
  - cbn [AdminVectorDB.indexFrom firstError attempted succeeded].
    unfold bind at 1. rewrite indexCase_run.
    destruct (indexError (indexReply env (q_id q))) as [e|]; simpl.
    + by rewrite Z.add_0_r, <- Hp.
    + unfold bind, setProgress, modify. simpl. rewrite IH by reflexivity. simpl.
      rewrite <- app_assoc. simpl. by rewrite Z.add_assoc.
Qed.

(** X23. The first version of the indexer stops at the first failure, for
    every corpus: with the corpus read, the requests sent are those for the
    questions up to and including the first one that fails, in order, and the
    progress shows the number indexed before it.  Without a failure every
    question was sent and the panel ends in success with the message naming
    the size of the corpus; with one, the panel ends in the error status with
    "Failed to index cases: " and the message of that failure.  The run
    itself never throws and ends with the indexing flag off. *)
Theorem indexAllCases_stops_at_first_failure
    (env : AdminEnv) (qs : list Question) (p : Panel)
    (Hqs : questions env = Returns qs) :
  let p' := snd (AdminVectorDB.indexAllCases env p) in
  fst (AdminVectorDB.indexAllCases env p) = Returns tt
  /\ indexing p' = false
  /\ requests p' = requests p ++ map q_id (attempted env qs)
  /\ progress p' = {| current := succeeded env qs; total := len qs |}
  /\ match firstError env qs with
     | None =>
         status p' = StatusSuccess /\ attempted env qs = qs
         /\ message p' = [check_mark] ++ js " Successfully indexed "
                           ++ js (pretty (len qs)) ++ js " cases!"
     | Some e =>
         status p' = StatusError
         /\ message p' = js "Failed to index cases: " ++ exn_message e
     end.
Proof.
  assert (Hall : firstError env qs = None -> attempted env qs = qs).
  { clear. induction qs as [|q qs IH]; simpl; [done|].
    destruct (indexError _); [done|]. intros H. by rewrite IH. }
  unfold AdminVectorDB.indexAllCases. rewrite Hqs.
  unfold try_finally, try_catch, bind, VectorDBService.lift, setIndexing, setStatus,
    setMessage, setProgress, ret, modify. simpl.
  rewrite abort_loop by reflexivity. simpl.
  destruct (firstError env qs) as [e|] eqn:He; simpl.
  - by repeat split.
  - repeat split; auto.
Qed.

(** X24. The client-side version reports on every case, for every corpus:
    with the confirmation given and the corpus read, every question is sent
    in order whatever fails, the panel ends in success, and the message
    reports successes and failures that add up to the size of the corpus: the
    failures are the questions whose request failed. *)
Theorem client_indexAllCases_reports_every_case
    (env : AdminEnv) (qs : list Question) (p : Panel)
    (Hconfirmed : confirmed env = true)
    (Hqs : questions env = Returns qs) :
  let p' := snd (AdminVectorDBClient.indexAllCases env p) in
  let f := failures env qs in
  fst (AdminVectorDBClient.indexAllCases env p) = Returns tt
  /\ status p' = StatusSuccess
  /\ message p' = AdminVectorDBClient.completeMessage (len qs - f) f (len qs)
  /\ 0 <= f <= len qs
  /\ requests p' = requests p ++ map q_id qs
  /\ indexing p' = false.
Proof.
  intros p' f.
  destruct (client_indexAllCases_completes env qs p Hconfirmed Hqs)
    as (H1 & H2 & H3 & _ & _ & _ & H4 & H5).
  pose proof (failures_bound env qs) as Hb. subst p' f.
  repeat split; first [done | lia].
Qed.

(** X25. A run that does not start sends nothing: when the admin declines the
    confirmation of the client-side version, the panel is left exactly as it
    was; when the corpus cannot be read, either version ends in the error
    status with its message, the indexing flag off and no request sent. *)
Theorem indexer_sends_nothing_without_corpus (env : AdminEnv) (p : Panel) :
  (confirmed env = false -> AdminVectorDBClient.indexAllCases env p = (Returns tt, p))
  /\ (forall e, questions env = Throws e ->
        let p1 := snd (AdminVectorDB.indexAllCases env p) in
        requests p1 = requests p /\ status p1 = StatusError /\ indexing p1 = false
        /\ message p1 = js "Failed to index cases: " ++ exn_message e)
  /\ (forall e, confirmed env = true -> questions env = Throws e ->
        let p2 := snd (AdminVectorDBClient.indexAllCases env p) in
        requests p2 = requests p /\ status p2 = StatusError /\ indexing p2 = false
        /\ message p2 = [cross_mark] ++ js " Indexing failed. Check console for details.").
Proof.
  split; [|split].
  - intros H. unfold AdminVectorDBClient.indexAllCases. by rewrite H.
  - intros e He. unfold AdminVectorDB.indexAllCases. rewrite He. by repeat split.
  - intros e Hc He. unfold AdminVectorDBClient.indexAllCases. rewrite Hc, He.
    by repeat split.
Qed.

End IndexerMore.

Module IndexerMoreExamples.
Import PanelState IndexerFacts IndexerRuns IndexerMore IndexSamples IndexSamplesMore.

(** With the second of three requests failing, the third is never sent. *)
Lemma indexAllCases_stops_at_first_failure_witness :
  status (snd (AdminVectorDB.indexAllCases second_fails panel0)) = StatusError
  /\ requests (snd (AdminVectorDB.indexAllCases second_fails panel0))
     = [js "case-1"; js "case-2"]
  /\ progress (snd (AdminVectorDB.indexAllCases second_fails panel0))
     = {| current := 1; total := 3 |}
  /\ message (snd (AdminVectorDB.indexAllCases second_fails panel0))
     = js "Failed to index cases: Failed to index case: 500"
  /\ indexing (snd (AdminVectorDB.indexAllCases second_fails panel0)) = false.
Proof.
  destruct (indexAllCases_stops_at_first_failure second_fails [case1; case2; case3]
              panel0 eq_refl)
    as (_ & Hoff & Hreq & Hprog & Hst & Hmsg).
  split; [exact Hst|]. split; [exact Hreq|]. split; [exact Hprog|].
  split; [exact Hmsg|exact Hoff].
Defined.

(** With no request failing, the run ends in success. *)
Example indexAllCases_all_fine :
  status (snd (AdminVectorDB.indexAllCases all_fine panel0)) = StatusSuccess
  /\ requests (snd (AdminVectorDB.indexAllCases all_fine panel0))
     = [js "case-1"; js "case-2"].
Proof. vm_compute. split; reflexivity. Qed.

Lemma client_indexAllCases_reports_every_case_witness :
  message (snd (AdminVectorDBClient.indexAllCases first_fails panel0))
  = AdminVectorDBClient.completeMessage 1 1 2.
Proof.
  apply (client_indexAllCases_reports_every_case first_fails [case1; case2] panel0
           eq_refl eq_refl).
Defined.

Lemma indexer_sends_nothing_without_corpus_witness :
  AdminVectorDBClient.indexAllCases declined panel0 = (Returns tt, panel0)
  /\ requests (snd (AdminVectorDBClient.indexAllCases corpus_down panel0)) = [].
Proof.
  split.
  - apply (indexer_sends_nothing_without_corpus declined panel0). reflexivity.
  - destruct (indexer_sends_nothing_without_corpus corpus_down panel0) as (_ & _ & H).
    apply (H _ eq_refl eq_refl).
Defined.

End IndexerMoreExamples.

(* ===================================================================== *)
(** * More on the two feedback parsers *)
(* ===================================================================== *)


Module RegexFacts.
Import Regex SectionShape StarLoop.

Lemma mt_star {A} g a pos s c (k : nat -> jsstring -> capture -> option A) :
  mt (Star g a) pos s c k = star_loop g a k (S (length s)) pos s c.
Proof. reflexivity. Qed.

Lemma star_loop_S {A} g a (k : nat -> jsstring -> capture -> option A) fuel pos s c :
  star_loop g a k (S fuel) pos s c
  = let again :=
      mt a pos s c (fun pos' s' c' =>
        if Nat.eqb pos' pos then None else star_loop g a k fuel pos' s' c') in
    if g then match again with Some x => Some x | None => k pos s c end
    else match k pos s c with Some x => Some x | None => again end.
Proof. reflexivity. Qed.

Lemma mt_lit_i {A} l pos s c (k : nat -> jsstring -> capture -> option A) :
  mt (lit_i l) pos s c k
  = if ci_prefix l s
    then k (pos + String.length l)%nat (drop (String.length l) s) c
    else None.
Proof.
  revert pos s. induction l as [|a l IH]; intros pos s; simpl.
  - by rewrite Nat.add_0_r, drop_0.
  - destruct s as [|x s]; [done|]. fold (ci_match a x).
    destruct (ci_match a x); [|done]. simpl. rewrite IH.
    by rewrite Nat.add_succ_r.
Qed.

Lemma eqb_succ n : Nat.eqb (S n) n = false.
Proof. apply Nat.eqb_neq. lia. Qed.

(** Greedy white space before a pattern that cannot start with white space. *)
Lemma star_space {A} (k : nat -> jsstring -> capture -> option A) c s :
  (forall p x s' c', JS.is_space x = true -> k p (x :: s') c' = None) ->
  forall fuel pos, (length s <= fuel)%nat ->
  star_loop true space k fuel pos s c
  = k (pos + spaces s)%nat (drop (spaces s) s) c.
Proof.
  intros Hk. induction s as [|x s IH]; intros fuel pos Hfuel.
  - simpl spaces. rewrite Nat.add_0_r. destruct fuel; reflexivity.
  - destruct fuel as [|fuel]; [simpl in Hfuel; lia|].
    rewrite star_loop_S. cbn [mt space]. simpl spaces.
    destruct (JS.is_space x) eqn:Hx.
    + rewrite eqb_succ, IH by (simpl in Hfuel; lia).
      replace (pos + S (spaces s))%nat with (S pos + spaces s)%nat by lia.
      simpl drop.
      destruct (k (S pos + spaces s)%nat (drop (spaces s) s) c); [reflexivity|].
      by apply Hk.
    + by rewrite Nat.add_0_r.
Qed.

(** The lookahead of the first three section patterns. *)
Lemma look_stop {A} pos s c (k : nat -> jsstring -> capture -> option A) :
  mt Parser.next_number_or_end pos s c k = if stop_here s then k pos s c else None.
Proof.
  unfold Parser.next_number_or_end, stop_here, digit, chr.
  destruct s as [|d [|dot rest]]; cbn -[N.eqb JS.is_digit N_of_ascii]; try reflexivity.
  - by destruct (JS.is_digit d).
  - destruct (JS.is_digit d); cbn -[N.eqb N_of_ascii]; [|reflexivity].
    assert (E : N.eqb (N_of_ascii ".") dot = N.eqb dot 46)
      by (rewrite N.eqb_sym; reflexivity).
    rewrite E. by destruct (dot =? 46)%N.
Qed.

Lemma firstStop_stops s : stop_here (drop (firstStop s) s) = true.
Proof.
  induction s as [|x s IH]; [reflexivity|].
  cbn [firstStop]. destruct (stop_here (x :: s)) eqn:E; [by rewrite drop_0|].
  exact IH.
Qed.

Lemma firstStop_first s j : (j < firstStop s)%nat -> stop_here (drop j s) = false.
Proof.
  revert j. induction s as [|x s IH]; intros j; [simpl; lia|].
  cbn [firstStop]. destruct (stop_here (x :: s)) eqn:E; [lia|].
  destruct j as [|j]; [by rewrite drop_0|].
  intros Hj. simpl drop. apply IH. lia.
Qed.

Lemma firstStop_le s : (firstStop s <= length s)%nat.
Proof.
  induction s as [|x s IH]; [reflexivity|].
  cbn [firstStop]. destruct (stop_here (x :: s)); simpl; lia.
Qed.

(** The lazy [[\s\S]*?] before the lookahead ends at the first stop. *)
Lemma lazy_any_stop c s : forall fuel pos, (length s <= fuel)%nat ->
  star_loop false any
    (fun p s' c' => mt Parser.next_number_or_end p s' c' (fun e _ c'' => Some (e, c'')))
    fuel pos s c
  = Some ((pos + firstStop s)%nat, c).
Proof.
  induction s as [|x s IH]; intros fuel pos Hfuel.
  - destruct fuel; simpl; by rewrite Nat.add_0_r.
  - cbn [firstStop]. destruct (stop_here (x :: s)) eqn:E.
    + destruct fuel as [|fuel].
      * cbn [star_loop]. by rewrite look_stop, E, Nat.add_0_r.
      * rewrite star_loop_S. cbv zeta. by rewrite look_stop, E, Nat.add_0_r.
    + destruct fuel as [|fuel]; [simpl in Hfuel; lia|].
      rewrite star_loop_S. cbv zeta. rewrite look_stop, E.
      cbn [mt any]. rewrite eqb_succ, IH by (simpl in Hfuel; lia).
      f_equal. f_equal. lia.
Qed.

(** The lazy [[\s\S]*?] before [$] runs to the end of the text. *)
Lemma lazy_any_end c s : forall fuel pos, (length s <= fuel)%nat ->
  star_loop false any
    (fun p s' c' => mt Eoi p s' c' (fun e _ c'' => Some (e, c'')))
    fuel pos s c
  = Some ((pos + length s)%nat, c).
Proof.
  induction s as [|x s IH]; intros fuel pos Hfuel.
  - destruct fuel; simpl; by rewrite Nat.add_0_r.
  - destruct fuel as [|fuel]; [simpl in Hfuel; lia|].
    rewrite star_loop_S. cbv zeta. cbn [mt any].
    rewrite eqb_succ, IH by (simpl in Hfuel; lia).
    f_equal. f_equal. simpl. lia.
Qed.

Lemma space_not_letter a x :
  JS.is_upper (N_of_ascii a) = true -> JS.is_space x = true -> ci_match a x = false.
Proof.
  unfold ci_match, JS.upper, JS.is_lower, JS.is_upper, JS.is_space.
  intros Ha Hx. apply not_true_iff_false. intros H.
  apply andb_true_iff in H as [H1 H2].
  apply N.eqb_eq in H1. apply N.ltb_lt in H2.
  apply andb_true_iff in Ha as [Ha1 Ha2].
  apply N.leb_le in Ha1. apply N.leb_le in Ha2.
  destruct (97 <=? N_of_ascii a)%N eqn:E1;
    [apply N.leb_le in E1; lia|]. cbn [andb] in H1.
  repeat (apply orb_true_iff in Hx as [Hx|Hx]);
    repeat match goal with
           | H : (_ && _)%bool = true |- _ => apply andb_true_iff in H as [? ?]
           | H : (_ <=? _)%N = true |- _ => apply N.leb_le in H
           | H : (_ =? _)%N = true |- _ => apply N.eqb_eq in H
           end;
    try lia;
    destruct ((97 <=? x)%N && (x <=? 122)%N) eqn:E2;
    try (apply andb_true_iff in E2 as [E3 E4];
         apply N.leb_le in E3; apply N.leb_le in E4); lia.
Qed.

Lemma unspaced_letter a l :
  JS.is_upper (N_of_ascii a) = true -> unspaced (String a l).
Proof.
  intros Ha x s Hx. cbn [ci_prefix]. by rewrite (space_not_letter a x Ha Hx).
Qed.

Lemma drop_spaces_space s x s' : drop (spaces s) s = x :: s' -> JS.is_space x = false.
Proof.
  induction s as [|y s IH]; [done|]. cbn [spaces].
  destruct (JS.is_space y) eqn:E; [exact IH|].
  rewrite drop_0. by intros [= <- _].
Qed.

(** The heading alternative [(?:n\.\s*LABEL|LABEL)] before a rest of the
    pattern that always matches. *)
Lemma ci_prefix_length l : forall s, ci_prefix l s = true -> (String.length l <= length s)%nat.
Proof.
  induction l as [|a l IH]; intros s; [simpl; lia|].
  destruct s as [|x s]; [done|]. cbn [ci_prefix]. intros H.
  apply andb_true_iff in H as [_ H]. apply IH in H. simpl. lia.
Qed.

Lemma spaces_le s : (spaces s <= length s)%nat.
Proof.
  induction s as [|x s IH]; [reflexivity|]. cbn [spaces].
  destruct (JS.is_space x); simpl; lia.
Qed.

Lemma headingEnd_le n label s h : headingEnd n label s = Some h -> (h <= length s)%nat.
Proof.
  unfold headingEnd.
  assert (Hplain : (if ci_prefix label s then Some (String.length label) else None) = Some h
                   -> (h <= length s)%nat).
  { destruct (ci_prefix label s) eqn:E; [|done]. intros [= <-]. by apply ci_prefix_length. }
  destruct (ci_prefix n s) eqn:En; [|exact Hplain].
  destruct (drop (String.length n) s) as [|dot s1] eqn:Hd; [exact Hplain|].
  destruct (dot =? 46)%N; [|exact Hplain].
  destruct (ci_prefix label (drop (spaces s1) s1)) eqn:El; [|exact Hplain].
  intros [= <-]. apply ci_prefix_length in El. rewrite length_drop in El.
  assert (Hlen : length (drop (String.length n) s) = S (length s1)) by by rewrite Hd.
  rewrite length_drop in Hlen. pose proof (spaces_le s1).
  apply ci_prefix_length in En. lia.
Qed.

Lemma mt_Seq {A} a b pos s c (k : nat -> jsstring -> capture -> option A) :
  mt (Seq a b) pos s c k = mt a pos s c (fun p' s' c' => mt b p' s' c' k).
Proof. reflexivity. Qed.

Lemma mt_Chr {A} p pos x s c (k : nat -> jsstring -> capture -> option A) :
  mt (Chr p) pos (x :: s) c k = if p x then k (S pos) s c else None.
Proof. reflexivity. Qed.

Lemma mt_heading {A} n label pos s c (K : nat -> jsstring -> capture -> option A) :
  unspaced label ->
  (forall p s' c', K p s' c' <> None) ->
  mt (Alt (Seq (lit_i n) (Seq (chr ".") (Seq (Star true space) (lit_i label))))
          (lit_i label)) pos s c K
  = match headingEnd n label s with
    | Some h => K (pos + h)%nat (drop h s) c
    | None => None
    end.
Proof.
  intros Hlab HK.
  change (mt (Alt ?a ?b) pos s c K)
    with (match mt a pos s c K with Some x => Some x | None => mt b pos s c K end).
  change (mt (Seq (lit_i n) ?r) pos s c K)
    with (mt (lit_i n) pos s c (fun p' s' c' => mt r p' s' c' K)).
  rewrite !mt_lit_i. unfold headingEnd.
  destruct (ci_prefix n s); [|by destruct (ci_prefix label s)].
  destruct (drop (String.length n) s) as [|dot s1] eqn:Hd;
    [by destruct (ci_prefix label s)|].
  unfold chr. rewrite mt_Seq, mt_Chr.
  assert (E : N.eqb (N_of_ascii ".") dot = N.eqb dot 46)
    by (rewrite N.eqb_sym; reflexivity).
  rewrite E. destruct (dot =? 46)%N; [|by destruct (ci_prefix label s)].
  rewrite mt_Seq, mt_star, star_space; [|  | lia].
  - rewrite mt_lit_i.
    destruct (ci_prefix label (drop (spaces s1) s1));
      [|by destruct (ci_prefix label s)].
    assert (Hdrop : drop (String.length label) (drop (spaces s1) s1)
                    = drop (String.length n + 1 + spaces s1 + String.length label) s).
    { rewrite drop_drop.
      replace (String.length n + 1 + spaces s1 + String.length label)%nat
        with (String.length n + (1 + (spaces s1 + String.length label)))%nat by lia.
      rewrite <- (drop_drop s), Hd. reflexivity. }
    rewrite Hdrop.
    replace (S (pos + String.length n) + spaces s1 + String.length label)%nat
      with (pos + (String.length n + 1 + spaces s1 + String.length label))%nat by lia.
    destruct (K _ _ c) eqn:EK; [reflexivity|]. by apply HK in EK.
  - intros p x s' c' Hx. by rewrite mt_lit_i, Hlab.
Qed.

Lemma match_at_section n label pos s :
  unspaced label ->
  match_at (Parser.section_re n label) pos s
  = match headingEnd n label s with
    | Some h => Some ((pos + h + firstStop (drop h s))%nat, None)
    | None => None
    end.
Proof.
  intros Hlab. unfold match_at, Parser.section_re.
  change (mt (Seq ?a ?b) pos s None ?k)
    with (mt a pos s None (fun p' s' c' => mt b p' s' c' k)).
  rewrite mt_heading; [|exact Hlab|].
  - destruct (headingEnd n label s) as [h|]; [|reflexivity].
    change (mt (Seq (Star false any) ?l) ?p ?t ?c0 ?k)
      with (star_loop false any (fun p' s' c' => mt l p' s' c' k) (S (length t)) p t c0).
    by rewrite lazy_any_stop by lia.
  - intros p s' c'.
    change (mt (Seq (Star false any) ?l) ?p0 ?t ?c0 ?k)
      with (star_loop false any (fun p' s' c' => mt l p' s' c' k) (S (length t)) p0 t c0).
    by rewrite lazy_any_stop by lia.
Qed.

Lemma match_at_frameworks pos s :
  match_at Parser.frameworks_re pos s
  = match headingEnd "4" "FRAMEWORK SUGGESTIONS" s with
    | Some h => Some ((pos + length s)%nat, None)
    | None => None
    end.
Proof.
  unfold match_at, Parser.frameworks_re.
  change (mt (Seq ?a ?b) pos s None ?k)
    with (mt a pos s None (fun p' s' c' => mt b p' s' c' k)).
  rewrite mt_heading; [|by apply unspaced_letter|].
  - destruct (headingEnd "4" "FRAMEWORK SUGGESTIONS" s) as [h|] eqn:Eh; [|reflexivity].
    change (mt (Seq (Star false any) ?l) ?p ?t ?c0 ?k)
      with (star_loop false any (fun p' s' c' => mt l p' s' c' k) (S (length t)) p t c0).
    rewrite lazy_any_end by lia. rewrite length_drop.
    apply headingEnd_le in Eh. do 2 f_equal. lia.
  - intros p s' c'.
    change (mt (Seq (Star false any) ?l) ?p0 ?t ?c0 ?k)
      with (star_loop false any (fun p' s' c' => mt l p' s' c' k) (S (length t)) p0 t c0).
    by rewrite lazy_any_end by lia.
Qed.

(** The search returns the leftmost start at which the pattern matches. *)
Lemma search_Some r s : forall pos b e c,
  search r pos s = Some (b, e, c) ->
  exists j, b = (pos + j)%nat /\ (j <= length s)%nat /\
            match_at r b (drop j s) = Some (e, c) /\
            forall i, (i < j)%nat -> match_at r (pos + i) (drop i s) = None.
Proof.
  induction s as [|x s IH]; intros pos b e c; cbn [search].
  - destruct (match_at r pos []) as [[e' c']|] eqn:E; [|done].
    intros [= <- <- <-]. exists 0%nat. rewrite Nat.add_0_r.
    split; [done|]. split; [done|]. split; [done|]. intros i Hi; lia.
  - destruct (match_at r pos (x :: s)) as [[e' c']|] eqn:E.
    + intros [= <- <- <-]. exists 0%nat. rewrite Nat.add_0_r.
      split; [done|]. split; [simpl; lia|]. split; [done|]. intros i Hi; lia.
    + intros H. apply IH in H as (j & -> & Hj & Hm & Hno).
      exists (S j). split; [lia|]. split; [simpl; lia|]. split; [done|].
      intros [|i] Hi; [by rewrite Nat.add_0_r|].
      replace (pos + S i)%nat with (S pos + i)%nat by lia.
      apply Hno. lia.
Qed.

Lemma search_None r s : forall pos,
  search r pos s = None <->
  forall j, (j <= length s)%nat -> match_at r (pos + j) (drop j s) = None.
Proof.
  induction s as [|x s IH]; intros pos; cbn [search].
  - destruct (match_at r pos []) as [[e' c']|] eqn:E.
    + split; [done|]. intros H. specialize (H 0%nat).
      rewrite Nat.add_0_r in H. simpl in H. rewrite E in H.
      by specialize (H (Nat.le_refl 0)).
    + split; [|done]. intros _ j Hj. simpl in Hj.
      replace j with 0%nat by lia. by rewrite Nat.add_0_r.
  - destruct (match_at r pos (x :: s)) as [[e' c']|] eqn:E.
    + split; [done|]. intros H. specialize (H 0%nat).
      rewrite Nat.add_0_r in H. simpl in H. rewrite E in H.
      by specialize (H (Nat.le_0_l _)).
    + rewrite IH. split.
      * intros H [|j] Hj; [by rewrite Nat.add_0_r|].
        replace (pos + S j)%nat with (S pos + j)%nat by lia.
        apply H. simpl in Hj. lia.
      * intros H j Hj. specialize (H (S j)).
        replace (pos + S j)%nat with (S pos + j)%nat in H by lia.
        apply H. simpl. lia.
Qed.

Lemma drop_beyond (s : jsstring) j : (length s <= j)%nat -> drop j s = drop (length s) s.
Proof. intros H. by rewrite drop_all, drop_ge. Qed.

Lemma occurs_false label s :
  occurs label s = false <-> forall j, ci_prefix label (drop j s) = false.
Proof.
  unfold occurs. split.
  - intros H j. apply not_true_iff_false. intros Hj.
    apply not_true_iff_false in H. apply H.
    apply existsb_exists. exists (j `min` length s)%nat. split.
    + apply in_seq. lia.
    + destruct (Nat.le_gt_cases j (length s)).
      * by rewrite Nat.min_l.
      * rewrite Nat.min_r by lia. by rewrite <- (drop_beyond s j) by lia.
  - intros H. apply not_true_iff_false. intros He.
    apply existsb_exists in He as (j & _ & Hj). by rewrite H in Hj.
Qed.

(** A heading starts somewhere exactly when the label occurs somewhere. *)
Lemma heading_somewhere n label s :
  (forall j, (j <= length s)%nat -> headingEnd n label (drop j s) = None)
  <-> occurs label s = false.
Proof.
  rewrite occurs_false. split.
  - intros H j.
    assert (Hj : headingEnd n label (drop j s) = None).
    { destruct (Nat.le_gt_cases j (length s)); [by apply H|].
      rewrite drop_beyond by lia. by apply H. }
    unfold headingEnd in Hj.
    destruct (ci_prefix label (drop j s)); [|done]. by repeat case_match.
  - intros H j _. unfold headingEnd.
    rewrite (H j).
    destruct (ci_prefix n (drop j s)); [|done].
    destruct (drop (String.length n) (drop j s)) as [|dot s1] eqn:Hd; [done|].
    destruct (dot =? 46)%N; [|done].
    assert (Hs1 : s1 = drop (j + String.length n + 1) s).
    { rewrite <- !drop_drop, Hd. reflexivity. }
    rewrite Hs1, drop_drop, H. done.
Qed.

Lemma exec_section_None n label s :
  unspaced label ->
  exec (Parser.section_re n label) s = None <-> occurs label s = false.
Proof.
  intros Hlab. rewrite <- (heading_somewhere n). unfold exec.
  destruct (search (Parser.section_re n label) 0 s) as [[[b e] c]|] eqn:E.
  - split; [done|]. intros H.
    apply search_Some in E as (j & -> & Hj & Hm & _).
    rewrite match_at_section, H in Hm by done. done.
  - split; [|done]. intros _ j Hj.
    rewrite search_None in E. specialize (E j Hj).
    rewrite match_at_section in E by done.
    by destruct (headingEnd n label (drop j s)).
Qed.

Lemma exec_frameworks_None s :
  exec Parser.frameworks_re s = None <-> occurs "FRAMEWORK SUGGESTIONS" s = false.
Proof.
  rewrite <- (heading_somewhere "4"). unfold exec.
  destruct (search Parser.frameworks_re 0 s) as [[[b e] c]|] eqn:E.
  - split; [done|]. intros H.
    apply search_Some in E as (j & -> & Hj & Hm & _).
    rewrite match_at_frameworks, H in Hm by done. done.
  - split; [|done]. intros _ j Hj.
    rewrite search_None in E. specialize (E j Hj).
    rewrite match_at_frameworks in E.
    by destruct (headingEnd "4" "FRAMEWORK SUGGESTIONS" (drop j s)).
Qed.

End RegexFacts.

Module ParserMore.
Import Regex SectionShape StarLoop RegexFacts.

Lemma lookahead_sections_unspaced n label :
  (n, label) ∈ lookahead_sections -> unspaced label.
Proof.
  unfold lookahead_sections. intros H.
  repeat (apply elem_of_cons in H as [H|H]; [injection H as -> ->; by apply unspaced_letter|]).
  by apply elem_of_nil in H.
Qed.

Lemma split_line (p rest : jsstring) :
  (forall x, x ∈ p -> x <> 10%N) ->
  JS.split 10%N (p ++ 10%N :: rest) = p :: JS.split 10%N rest.
Proof.
  induction p as [|x p IH]; intros Hp; [reflexivity|].
  cbn [app JS.split].
  destruct (N.eqb_spec x 10) as [->|_].
  - exfalso. by apply (Hp 10%N); [left|].
  - rewrite IH; [reflexivity|]. intros y Hy. apply Hp. by right.
Qed.

Lemma keep_not_heading line :
  Reparser.keep line = true -> JS.eqb line (js "STRENGTHS") = false.
Proof.
  intros H. apply not_true_iff_false. intros E.
  apply JS_eqb_eq in E. subst line. vm_compute in H. discriminate.
Qed.

(** X26. A field of the parsed feedback is absent exactly when the label of
    its section occurs nowhere in the content, letter case apart: wherever
    the label stands, with or without its number, a section is cut out. *)
Theorem section_found_iff_label_occurs content :
  (Parser.strengths (Parser.parseFeedbackContent content) = None
   <-> occurs "STRENGTHS" content = false) /\
  (Parser.improvements (Parser.parseFeedbackContent content) = None
   <-> occurs "AREAS FOR IMPROVEMENT" content = false) /\
  (Parser.missing (Parser.parseFeedbackContent content) = None
   <-> occurs "MISSING CONSIDERATIONS" content = false) /\
  (Parser.frameworks (Parser.parseFeedbackContent content) = None
   <-> occurs "FRAMEWORK SUGGESTIONS" content = false).
Proof.
  unfold Parser.parseFeedbackContent. cbn [Parser.strengths Parser.improvements
    Parser.missing Parser.frameworks].
  rewrite !fmap_None.
  split; [|split; [|split]].
  - by apply exec_section_None, unspaced_letter.
  - by apply exec_section_None, unspaced_letter.
  - by apply exec_section_None, unspaced_letter.
  - apply exec_frameworks_None.
Qed.

(** X27. The text cut out for one of the first three sections starts at the
    leftmost heading and ends at the first place after the heading where a
    digit is followed by a dot, whatever that digit-dot belongs to, or at the
    end of the content when there is none. *)
Theorem section_text_ends_at_first_digit_dot n label content t :
  (n, label) ∈ lookahead_sections ->
  exec (Parser.section_re n label) content = Some t ->
  exists b h,
    (forall j, (j < b)%nat -> headingEnd n label (drop j content) = None) /\
    headingEnd n label (drop b content) = Some h /\
    t = substring content b (b + h + firstStop (drop (b + h) content)) /\
    stop_here (drop (b + h + firstStop (drop (b + h) content)) content) = true /\
    forall j, (b + h <= j < b + h + firstStop (drop (b + h) content))%nat ->
              stop_here (drop j content) = false.
Proof.
  intros Hin. apply lookahead_sections_unspaced in Hin as Hlab.
  unfold exec.
  destruct (search (Parser.section_re n label) 0 content) as [[[b e] c]|] eqn:E; [|done].
  intros [= <-]. apply search_Some in E as (j & -> & Hj & Hm & Hno).
  rewrite match_at_section in Hm by done.
  destruct (headingEnd n label (drop j content)) as [h|] eqn:Eh; [|done].
  injection Hm as <- <-. rewrite drop_drop in *.
  exists j, h. simpl. split; [|split; [done|split; [done|split]]].
  - intros i Hi. specialize (Hno i Hi). simpl in Hno.
    rewrite match_at_section in Hno by done.
    by destruct (headingEnd n label (drop i content)).
  - rewrite <- drop_drop. apply firstStop_stops.
  - intros i Hi. replace i with ((j + h) + (i - (j + h)))%nat by lia.
    rewrite <- drop_drop. apply firstStop_first. lia.
Qed.

(** X28. The text cut out for the frameworks section starts at the leftmost
    heading and always runs to the end of the content: unlike the other
    three sections it is not cut at a digit followed by a dot. *)
Theorem frameworks_text_runs_to_end content t :
  exec Parser.frameworks_re content = Some t ->
  exists b,
    t = drop b content /\
    headingEnd "4" "FRAMEWORK SUGGESTIONS" t <> None /\
    forall j, (j < b)%nat ->
              headingEnd "4" "FRAMEWORK SUGGESTIONS" (drop j content) = None.
Proof.
  unfold exec.
  destruct (search Parser.frameworks_re 0 content) as [[[b e] c]|] eqn:E; [|done].
  intros [= <-]. apply search_Some in E as (j & -> & Hj & Hm & Hno).
  rewrite match_at_frameworks in Hm.
  destruct (headingEnd "4" "FRAMEWORK SUGGESTIONS" (drop j content)) as [h|] eqn:Eh; [|done].
  injection Hm as <- <-. exists j.
  assert (Ht : substring content (0 + j) (0 + j + length (drop j content))
               = drop j content).
  { unfold substring. simpl. apply take_ge. rewrite length_drop. lia. }
  change (0 + j + length (drop j content))%nat
    with (j + length (drop j content))%nat in Ht.
  rewrite Ht. split; [done|split].
  - by rewrite Eh.
  - intros i Hi. specialize (Hno i Hi). simpl in Hno.
    rewrite match_at_frameworks in Hno.
    by destruct (headingEnd "4" "FRAMEWORK SUGGESTIONS" (drop i content)).
Qed.

(** X29. Whatever follows it, a reply that begins with the line
    [1. STRENGTHS] is parsed by the service with the heading itself as the
    first strength: the heading line passes the numbered-bullet test.  The
    component's check then asks for such a record to be parsed again. *)
Theorem numbered_heading_is_returned_as_strength rest :
  exists l,
    Parser.strengths (Parser.parseFeedbackContent (js "1. STRENGTHS" ++ 10%N :: rest))
      = Some (js "STRENGTHS" :: l) /\
    Reparser.needsReparsing
      (Parser.parseFeedbackContent (js "1. STRENGTHS" ++ 10%N :: rest)) = true.
Proof.
  assert (Hexec : exec Parser.strengths_re (js "1. STRENGTHS" ++ 10%N :: rest)
                  = Some (js "1. STRENGTHS" ++ 10%N :: take (firstStop rest) rest)).
  { unfold exec, Parser.strengths_re.
    assert (Hs : search (Parser.section_re "1" "STRENGTHS") 0
                   (js "1. STRENGTHS" ++ 10%N :: rest)
                 = Some (0, 13 + firstStop rest, None)%nat).
    { change (js "1. STRENGTHS" ++ 10%N :: rest)
        with (49 :: (js ". STRENGTHS" ++ 10 :: rest))%N.
      cbn [search]. rewrite match_at_section by by apply unspaced_letter.
      reflexivity. }
    rewrite Hs. reflexivity. }
  unfold Reparser.needsReparsing, Parser.parseFeedbackContent.
  cbn [Parser.strengths]. rewrite Hexec. cbn [fmap option_fmap option_map].
  unfold Parser.extractBulletPoints.
  rewrite split_line.
  2:{ intros x Hx. vm_compute in Hx.
      repeat (apply elem_of_cons in Hx as [->|Hx]; [done|]).
      by apply elem_of_nil in Hx. }
  cbn [map]. rewrite filter_cons.
  change (Parser.is_bullet_line (JS.trim (js "1. STRENGTHS"))) with true.
  rewrite decide_True by done. cbn [map length Nat.ltb Nat.leb].
  change (Parser.strip_marker (JS.trim (js "1. STRENGTHS"))) with (js "STRENGTHS").
  eexists. split; reflexivity.
Qed.

(** X30. What the components' re-parser returns never needs another
    re-parsing: its items are non-empty and none is a section heading, so
    re-parsed strengths that are present and non-empty never start with
    the heading. *)
Theorem reparsed_feedback_is_settled content items :
  Parser.strengths (Reparser.parseExistingFeedback content) = Some items ->
  (forall item, item ∈ items ->
     item <> [] /\ test Reparser.heading_re item = false) /\
  (items <> [] -> Reparser.needsReparsing (Reparser.parseExistingFeedback content) = false).
Proof.
  unfold Reparser.parseExistingFeedback, Reparser.needsReparsing. cbn [Parser.strengths].
  destruct (exec Reparser.strengths_re content) as [t|]; [|done].
  cbn [fmap option_fmap option_map]. intros [= <-].
  assert (Hkeep : forall item, item ∈ Reparser.extractBulletPoints t ->
                               Reparser.keep item = true).
  { intros item. unfold Reparser.extractBulletPoints. cbv zeta.
    destruct (0 <? length _)%nat; [|by intros ?%elem_of_nil].
    by intros [? _]%list_elem_of_filter. }
  split.
  - intros item Hitem. apply Hkeep in Hitem. unfold Reparser.keep in Hitem.
    apply andb_true_iff in Hitem as [Hlen Hhead].
    split; [by destruct item|]. by apply negb_true_iff.
  - destruct (Reparser.extractBulletPoints t) as [|first l] eqn:E; [done|].
    intros _. apply keep_not_heading, Hkeep. by left.
Qed.

End ParserMore.

Module ParserMoreExamples.
Import Regex SectionShape StarLoop Samples ParserSamples ParserMore.

Lemma section_text_ends_at_first_digit_dot_witness :
  exec (Parser.section_re "1" "STRENGTHS") decimal_text
    = Some (js ("STRENGTHS" ++ nl ++ "- margin up ")%string)
  /\ exists b h,
    (forall j, (j < b)%nat -> headingEnd "1" "STRENGTHS" (drop j decimal_text) = None) /\
    headingEnd "1" "STRENGTHS" (drop b decimal_text) = Some h /\
    js ("STRENGTHS" ++ nl ++ "- margin up ")%string
      = substring decimal_text b (b + h + firstStop (drop (b + h) decimal_text)) /\
    stop_here (drop (b + h + firstStop (drop (b + h) decimal_text)) decimal_text) = true /\
    forall j, (b + h <= j < b + h + firstStop (drop (b + h) decimal_text))%nat ->
              stop_here (drop j decimal_text) = false.
Proof.
  assert (Hin : ("1", "STRENGTHS")%string ∈ lookahead_sections)
    by (apply (bool_decide_unpack _); vm_compute; exact I).
  assert (He : exec (Parser.section_re "1" "STRENGTHS") decimal_text
               = Some (js ("STRENGTHS" ++ nl ++ "- margin up ")%string))
    by (vm_compute; reflexivity).
  split; [exact He|].
  exact (section_text_ends_at_first_digit_dot _ _ _ _ Hin He).
Defined.

Lemma frameworks_text_runs_to_end_witness :
  exec Parser.frameworks_re frameworks_text
    = Some (js ("4. FRAMEWORK SUGGESTIONS" ++ nl ++ "1. Porter" ++ nl ++ "2. SWOT")%string)
  /\ exists b,
    js ("4. FRAMEWORK SUGGESTIONS" ++ nl ++ "1. Porter" ++ nl ++ "2. SWOT")%string
      = drop b frameworks_text /\
    headingEnd "4" "FRAMEWORK SUGGESTIONS"
      (js ("4. FRAMEWORK SUGGESTIONS" ++ nl ++ "1. Porter" ++ nl ++ "2. SWOT")%string)
      <> None /\
    forall j, (j < b)%nat ->
              headingEnd "4" "FRAMEWORK SUGGESTIONS" (drop j frameworks_text) = None.
Proof.
  assert (He : exec Parser.frameworks_re frameworks_text
               = Some (js ("4. FRAMEWORK SUGGESTIONS" ++ nl ++ "1. Porter" ++ nl
                           ++ "2. SWOT")%string))
    by (vm_compute; reflexivity).
  split; [exact He|].
  exact (frameworks_text_runs_to_end _ _ He).
Defined.

Lemma reparsed_feedback_is_settled_witness :
  Parser.strengths (Reparser.parseExistingFeedback numbered_text)
    = Some [js "A"; js "B"]
  /\ (forall item, item ∈ [js "A"; js "B"] ->
        item <> [] /\ test Reparser.heading_re item = false)
  /\ ([js "A"; js "B"] <> [] ->
      Reparser.needsReparsing (Reparser.parseExistingFeedback numbered_text) = false).
Proof.
  assert (He : Parser.strengths (Reparser.parseExistingFeedback numbered_text)
               = Some [js "A"; js "B"])
    by (vm_compute; reflexivity).
  split; [exact He|].
  exact (reparsed_feedback_is_settled _ _ He).
Defined.

End ParserMoreExamples.
